(** * SHS01 presence sensor firmware: a shallow embedding of [shs01.c]

    The development follows the layout of the C file: machine integers and
    the helpers, the configuration backing store with its Zigbee write
    handler and the NVS load, the movement cooldown and the presence state
    machine, the LD2410 frame reassembly of the UART task, and the NVS save
    worker.  Theorems come after the definitions. *)

From Stdlib Require Import String ZArith List Bool Lia Arith.
Import ListNotations.
Local Open Scope Z_scope.

(** ** Machine integers

    Every C integer is a [Z]; the conversions to the fixed-width unsigned
    types are written out as reductions modulo a power of two. *)

Definition u8 (x : Z) : Z := x mod 256.
Definition u16 (x : Z) : Z := x mod 65536.
Definition u32 (x : Z) : Z := x mod 4294967296.

(** [(int32_t)x] for an [x] already of type [uint32_t]: two's complement. *)
Definition to_int32 (x : Z) : Z :=
  if x <? 2147483648 then x else x - 4294967296.

Definition is_u8 (x : Z) : Prop := 0 <= x < 256.
Definition is_u16 (x : Z) : Prop := 0 <= x < 65536.
Definition is_u32 (x : Z) : Prop := 0 <= x < 4294967296.

(** ** Helpers *)

(** [shs_time_reached]: [(int32_t)(now - deadline) >= 0], the subtraction
    being the unsigned 32-bit one. *)
Definition shs_time_reached (now deadline : Z) : bool :=
  0 <=? to_int32 (u32 (now - deadline)).

(** Wrap-around order on 32-bit timestamps: [now] is at or after [deadline]
    when it is [deadline] advanced by some [d] below half the range. *)
Definition at_or_after (now deadline : Z) : Prop :=
  exists d, 0 <= d < 2147483648 /\ now = u32 (deadline + d).

(** [now] is strictly before [deadline]: the deadline is [now] advanced by a
    positive [d] below half the range. *)
Definition strictly_before (now deadline : Z) : Prop :=
  exists d, 0 < d < 2147483648 /\ deadline = u32 (now + d).

(** Distance of two timestamps in modulo-2^32 arithmetic. *)
Definition wrap_distance (a b : Z) : Z :=
  Z.min (u32 (a - b)) (u32 (b - a)).

(** ** Constants of [shs01.h] *)

Definition SHS_EP_LIGHT : Z := 1.
Definition SHS_EP_OCC : Z := 2.

Definition SHS_UART_BUF_SIZE : nat := 512.
Definition SHS_UART_ACC_BUF_SIZE : nat := 1024.

Definition SHS_LD2410_HDR_TX : list Z := [0xFD; 0xFC; 0xFB; 0xFA].
Definition SHS_LD2410_TAIL_TX : list Z := [0x04; 0x03; 0x02; 0x01].

Definition SHS_LD2410_HDR_RX0 : Z := 0xF4.
Definition SHS_LD2410_HDR_RX1 : Z := 0xF3.
Definition SHS_LD2410_HDR_RX2 : Z := 0xF2.
Definition SHS_LD2410_HDR_RX3 : Z := 0xF1.
Definition SHS_LD2410_TAIL_RX0 : Z := 0xF8.
Definition SHS_LD2410_TAIL_RX1 : Z := 0xF7.
Definition SHS_LD2410_TAIL_RX2 : Z := 0xF6.
Definition SHS_LD2410_TAIL_RX3 : Z := 0xF5.

Definition SHS_LD2410_MIN_FRAME_BYTES : nat := 9.

Definition SHS_LD2410_CMD_BEGIN_CONFIG : Z := 0x00FF.
Definition SHS_LD2410_CMD_SET_PARAMS : Z := 0x0060.
Definition SHS_LD2410_CMD_SET_SENSITIVITY : Z := 0x0064.
Definition SHS_LD2410_CMD_END_CONFIG : Z := 0x00FE.

Definition SHS_LD2410_PW_MAX_MOVE_GATE : Z := 0x0000.
Definition SHS_LD2410_PW_MAX_STATIC_GATE : Z := 0x0001.
Definition SHS_LD2410_PW_NO_ONE_DURATION : Z := 0x0002.
Definition SHS_LD2410_GATE_ALL : Z := 0xFFFF.

Definition SHS_CL_CFG_ID : Z := 0xFDCD.

Definition SHS_ATTR_MOVEMENT_COOLDOWN : Z := 0x0001.
Definition SHS_ATTR_OCC_CLEAR_COOLDOWN : Z := 0x0002.
Definition SHS_ATTR_MOVING_SENS_0_10 : Z := 0x0003.
Definition SHS_ATTR_STATIC_SENS_0_10 : Z := 0x0004.
Definition SHS_ATTR_MOVING_MAX_GATE : Z := 0x0005.
Definition SHS_ATTR_STATIC_MAX_GATE : Z := 0x0006.

Definition SHS_ATTR_OCC_MOVING_TARGET : Z := 0xF001.
Definition SHS_ATTR_OCC_STATIC_TARGET : Z := 0xF002.
Definition SHS_ZCL_ATTR_OCC_PIR_OU_DELAY : Z := 0x0010.

Definition SHS_COOLDOWN_MAX_SEC : Z := 300.

(** Identifiers of the Zigbee Cluster Library that the C file takes from the
    SDK headers (On/Off cluster and attribute, Occupancy Sensing cluster and
    attribute, the ZCL type tags of bool and uint16). *)
Definition ESP_ZB_ZCL_CLUSTER_ID_ON_OFF : Z := 0x0006.
Definition ESP_ZB_ZCL_ATTR_ON_OFF_ON_OFF_ID : Z := 0x0000.
Definition ESP_ZB_ZCL_CLUSTER_ID_OCCUPANCY_SENSING : Z := 0x0406.
Definition ESP_ZB_ZCL_ATTR_OCCUPANCY_SENSING_OCCUPANCY_ID : Z := 0x0000.
Definition ESP_ZB_ZCL_ATTR_TYPE_BOOL : Z := 0x10.
Definition ESP_ZB_ZCL_ATTR_TYPE_U16 : Z := 0x21.

(** ** NVS keys *)

Local Open Scope string_scope.
Definition SHS_NVS_KEY_MV_CD : string := "mv_cd".
Definition SHS_NVS_KEY_OCC_CD : string := "occ_cd".
Definition SHS_NVS_KEY_MV_SENS : string := "mv_sens".
Definition SHS_NVS_KEY_ST_SENS : string := "st_sens".
Definition SHS_NVS_KEY_MV_GATE : string := "mv_gate".
Definition SHS_NVS_KEY_ST_GATE : string := "st_gate".
Local Close Scope string_scope.

(** ** Global state

    The file-level [static] variables, grouped as the C file groups them. *)

(** Backing store for config sliders. *)
Record shs_config := mk_config {
  shs_movement_cooldown_sec : Z;  (* uint16_t, 0..300 *)
  shs_occupancy_clear_sec : Z;    (* uint16_t, 0..65535 *)
  shs_moving_sens_0_100 : Z;      (* uint8_t, 0..100 *)
  shs_static_sens_0_100 : Z;      (* uint8_t, 0..100 *)
  shs_moving_max_gate : Z;        (* uint16_t, 0..8 *)
  shs_static_max_gate : Z;        (* uint16_t, 2..8 *)
  shs_sens_mv_0_10 : Z;           (* uint16_t proxy *)
  shs_sens_st_0_10 : Z            (* uint16_t proxy *)
}.

(** Published states. *)
Record shs_published := mk_published {
  shs_moving_state : bool;
  shs_static_state : bool;
  shs_occupancy_state : bool
}.

(** Movement cooldown state. *)
Record shs_cooldown := mk_cooldown {
  shs_mv_cooldown_active : bool;
  shs_mv_cooldown_deadline_ms : Z;  (* uint32_t *)
  shs_last_moving_sample : bool
}.

Record shs_globals := mk_globals {
  g_cfg : shs_config;
  g_pub : shs_published;
  g_cd : shs_cooldown;
  shs_zb_ready : bool;
  shs_save_q : bool   (* QueueHandle_t: whether the handle is not NULL *)
}.

(** The initialisers of the [static] variables. *)
Definition shs_config_init : shs_config :=
  {| shs_movement_cooldown_sec := 0; shs_occupancy_clear_sec := 0;
     shs_moving_sens_0_100 := 60; shs_static_sens_0_100 := 50;
     shs_moving_max_gate := 8; shs_static_max_gate := 8;
     shs_sens_mv_0_10 := 6; shs_sens_st_0_10 := 5 |}.

Definition shs_globals_init : shs_globals :=
  {| g_cfg := shs_config_init;
     g_pub := {| shs_moving_state := false; shs_static_state := false;
                 shs_occupancy_state := false |};
     g_cd := {| shs_mv_cooldown_active := false;
                shs_mv_cooldown_deadline_ms := 0;
                shs_last_moving_sample := false |};
     shs_zb_ready := false;
     shs_save_q := false |}.

(** Assignments to single variables. *)
Definition set_movement_cooldown_sec (v : Z) (c : shs_config) : shs_config :=
  mk_config v (shs_occupancy_clear_sec c) (shs_moving_sens_0_100 c)
    (shs_static_sens_0_100 c) (shs_moving_max_gate c) (shs_static_max_gate c)
    (shs_sens_mv_0_10 c) (shs_sens_st_0_10 c).
Definition set_occupancy_clear_sec (v : Z) (c : shs_config) : shs_config :=
  mk_config (shs_movement_cooldown_sec c) v (shs_moving_sens_0_100 c)
    (shs_static_sens_0_100 c) (shs_moving_max_gate c) (shs_static_max_gate c)
    (shs_sens_mv_0_10 c) (shs_sens_st_0_10 c).
Definition set_moving_sens_0_100 (v : Z) (c : shs_config) : shs_config :=
  mk_config (shs_movement_cooldown_sec c) (shs_occupancy_clear_sec c) v
    (shs_static_sens_0_100 c) (shs_moving_max_gate c) (shs_static_max_gate c)
    (shs_sens_mv_0_10 c) (shs_sens_st_0_10 c).
Definition set_static_sens_0_100 (v : Z) (c : shs_config) : shs_config :=
  mk_config (shs_movement_cooldown_sec c) (shs_occupancy_clear_sec c)
    (shs_moving_sens_0_100 c) v (shs_moving_max_gate c) (shs_static_max_gate c)
    (shs_sens_mv_0_10 c) (shs_sens_st_0_10 c).
Definition set_moving_max_gate (v : Z) (c : shs_config) : shs_config :=
  mk_config (shs_movement_cooldown_sec c) (shs_occupancy_clear_sec c)
    (shs_moving_sens_0_100 c) (shs_static_sens_0_100 c) v (shs_static_max_gate c)
    (shs_sens_mv_0_10 c) (shs_sens_st_0_10 c).
Definition set_static_max_gate (v : Z) (c : shs_config) : shs_config :=
  mk_config (shs_movement_cooldown_sec c) (shs_occupancy_clear_sec c)
    (shs_moving_sens_0_100 c) (shs_static_sens_0_100 c) (shs_moving_max_gate c) v
    (shs_sens_mv_0_10 c) (shs_sens_st_0_10 c).
Definition set_sens_mv_0_10 (v : Z) (c : shs_config) : shs_config :=
  mk_config (shs_movement_cooldown_sec c) (shs_occupancy_clear_sec c)
    (shs_moving_sens_0_100 c) (shs_static_sens_0_100 c) (shs_moving_max_gate c)
    (shs_static_max_gate c) v (shs_sens_st_0_10 c).
Definition set_sens_st_0_10 (v : Z) (c : shs_config) : shs_config :=
  mk_config (shs_movement_cooldown_sec c) (shs_occupancy_clear_sec c)
    (shs_moving_sens_0_100 c) (shs_static_sens_0_100 c) (shs_moving_max_gate c)
    (shs_static_max_gate c) (shs_sens_mv_0_10 c) v.

Definition set_moving_state (v : bool) (p : shs_published) : shs_published :=
  mk_published v (shs_static_state p) (shs_occupancy_state p).
Definition set_static_state (v : bool) (p : shs_published) : shs_published :=
  mk_published (shs_moving_state p) v (shs_occupancy_state p).
Definition set_occupancy_state (v : bool) (p : shs_published) : shs_published :=
  mk_published (shs_moving_state p) (shs_static_state p) v.

Definition set_mv_cooldown_active (v : bool) (c : shs_cooldown) : shs_cooldown :=
  mk_cooldown v (shs_mv_cooldown_deadline_ms c) (shs_last_moving_sample c).
Definition set_mv_cooldown_deadline_ms (v : Z) (c : shs_cooldown) : shs_cooldown :=
  mk_cooldown (shs_mv_cooldown_active c) v (shs_last_moving_sample c).
Definition set_last_moving_sample (v : bool) (c : shs_cooldown) : shs_cooldown :=
  mk_cooldown (shs_mv_cooldown_active c) (shs_mv_cooldown_deadline_ms c) v.

Definition upd_cfg (f : shs_config -> shs_config) (g : shs_globals) : shs_globals :=
  mk_globals (f (g_cfg g)) (g_pub g) (g_cd g) (shs_zb_ready g) (shs_save_q g).
Definition upd_pub (f : shs_published -> shs_published) (g : shs_globals) : shs_globals :=
  mk_globals (g_cfg g) (f (g_pub g)) (g_cd g) (shs_zb_ready g) (shs_save_q g).
Definition upd_cd (f : shs_cooldown -> shs_cooldown) (g : shs_globals) : shs_globals :=
  mk_globals (g_cfg g) (g_pub g) (f (g_cd g)) (shs_zb_ready g) (shs_save_q g).
Definition set_zb_ready (v : bool) (g : shs_globals) : shs_globals :=
  mk_globals (g_cfg g) (g_pub g) (g_cd g) v (shs_save_q g).
Definition set_save_q (v : bool) (g : shs_globals) : shs_globals :=
  mk_globals (g_cfg g) (g_pub g) (g_cd g) (shs_zb_ready g) v.

(** ** Effects

    What a function does to the outside: attribute writes into the Zigbee
    stack, requests to the save worker, frames on the UART, the light. *)

Inductive shs_save_evt_t :=
| SHS_SAVE_IMMEDIATE_U16
| SHS_SAVE_DEBOUNCE_SENS_MOVE
| SHS_SAVE_DEBOUNCE_SENS_STATIC
| SHS_SAVE_DEBOUNCE_GATE_MOVE
| SHS_SAVE_DEBOUNCE_GATE_STATIC.

Record shs_save_msg_t := mk_save_msg { sm_type : shs_save_evt_t; sm_u16 : Z }.

Inductive effect :=
| ZbSetAttribute (endpoint cluster attr_id value : Z)
| QueueSend (m : shs_save_msg_t)
| UartWriteBytes (bytes : list Z)
| LightSetPower (on : bool).

(** A statement of the C file: it updates the globals and appends effects. *)
Definition act := shs_globals -> shs_globals * list effect.

Definition act_seq (a b : act) : act :=
  fun g => let (g1, e1) := a g in let (g2, e2) := b g1 in (g2, e1 ++ e2).
Notation "a ;; b" := (act_seq a b) (at level 61, right associativity).

Definition nop : act := fun g => (g, []).
Definition emit (e : effect) : act := fun g => (g, [e]).
Definition assign (f : shs_globals -> shs_globals) : act := fun g => (f g, []).

Definition Z_of_bool (b : bool) : Z := if b then 1 else 0.

(** A statement that first reads the globals. *)
Definition reading (f : shs_globals -> act) : act := fun g => f g g.

(** [shs_save_enqueue]: nothing without a queue; otherwise one non-blocking
    [xQueueSend], whose result is not looked at.  [QueueSend] is the call:
    whether the message gets into the queue is up to the queue. *)
Definition shs_save_enqueue (t : shs_save_evt_t) (v : Z) : act :=
  fun g =>
    (g, if negb (shs_save_q g) then []
        else [QueueSend {| sm_type := t; sm_u16 := u16 v |}]).

(** [shs_cfg_sync_sens_proxies] *)
Definition shs_cfg_sync_sens_proxies (c : shs_config) : shs_config :=
  let c1 := set_sens_mv_0_10 (u16 ((shs_moving_sens_0_100 c + 5) / 10)) c in
  let c2 := if shs_sens_mv_0_10 c1 >? 10 then set_sens_mv_0_10 10 c1 else c1 in
  let c3 := set_sens_st_0_10 (u16 ((shs_static_sens_0_100 c2 + 5) / 10)) c2 in
  if shs_sens_st_0_10 c3 >? 10 then set_sens_st_0_10 10 c3 else c3.

(** ** The durable store as the load sees it

    A namespace maps string keys to typed values; [nvs_get_u16] and
    [nvs_get_u8] succeed only on a value of their own type. *)

Inductive nvs_value :=
| NvsU8 (v : Z)
| NvsU16 (v : Z).

Definition nvs_handle := string -> option nvs_value.

Definition nvs_get_u16 (h : nvs_handle) (key : string) : option Z :=
  match h key with Some (NvsU16 v) => Some v | _ => None end.
Definition nvs_get_u8 (h : nvs_handle) (key : string) : option Z :=
  match h key with Some (NvsU8 v) => Some v | _ => None end.

(** The values a well-typed store holds. *)
Definition nvs_well_typed (h : nvs_handle) : Prop :=
  forall key, match h key with
              | Some (NvsU8 v) => is_u8 v
              | Some (NvsU16 v) => is_u16 v
              | None => True
              end.

(** [shs_cfg_load_from_nvs]; [None] is the failure of [nvs_open], on which
    the defaults stay. *)
Definition shs_cfg_load_from_nvs (nvs : option nvs_handle) (c : shs_config)
  : shs_config :=
  match nvs with
  | None => c
  | Some h =>
    let c := match nvs_get_u16 h SHS_NVS_KEY_MV_CD with
             | Some u16tmp =>
               set_movement_cooldown_sec
                 (if u16tmp >? SHS_COOLDOWN_MAX_SEC then SHS_COOLDOWN_MAX_SEC
                  else u16tmp) c
             | None => c end in
    let c := match nvs_get_u16 h SHS_NVS_KEY_OCC_CD with
             | Some u16tmp => set_occupancy_clear_sec u16tmp c
             | None => c end in
    let c := match nvs_get_u8 h SHS_NVS_KEY_MV_SENS with
             | Some u8tmp =>
               set_moving_sens_0_100 (if u8tmp >? 100 then 100 else u8tmp) c
             | None => c end in
    let c := match nvs_get_u8 h SHS_NVS_KEY_ST_SENS with
             | Some u8tmp =>
               set_static_sens_0_100 (if u8tmp >? 100 then 100 else u8tmp) c
             | None => c end in
    let c := match nvs_get_u8 h SHS_NVS_KEY_MV_GATE with
             | Some u8tmp =>
               set_moving_max_gate (if u8tmp >? 8 then 8 else u8tmp) c
             | None => c end in
    let c := match nvs_get_u8 h SHS_NVS_KEY_ST_GATE with
             | Some u8tmp =>
               let u8tmp := if u8tmp <? 2 then 2
                            else if u8tmp >? 8 then 8 else u8tmp in
               set_static_max_gate u8tmp c
             | None => c end in
    shs_cfg_sync_sens_proxies c
  end.

(** ** LD2410C frame writers *)

Definition lo8 (x : Z) : Z := Z.land x 0xFF.
Definition hi8 (x : Z) : Z := Z.land (Z.shiftr x 8) 0xFF.

(** [shs_ld2410_write_cmd]: hdr(4) + len(2 LE) + payload + tail(4). *)
Definition shs_ld2410_write_cmd (payload : list Z) : act :=
  let payload_len := u16 (Z.of_nat (length payload)) in
  emit (UartWriteBytes
          (SHS_LD2410_HDR_TX ++ [u8 (lo8 payload_len); u8 (hi8 payload_len)]
             ++ payload ++ SHS_LD2410_TAIL_TX)).

Definition shs_clamp_u16 (v lo hi : Z) : Z :=
  if v <? lo then lo else if v >? hi then hi else v.
Definition shs_clamp_u8 (v lo hi : Z) : Z :=
  if v <? lo then lo else if v >? hi then hi else v.

Definition begin_cfg : list Z :=
  [lo8 SHS_LD2410_CMD_BEGIN_CONFIG; hi8 SHS_LD2410_CMD_BEGIN_CONFIG; 0x01; 0x00].
Definition end_cfg : list Z :=
  [lo8 SHS_LD2410_CMD_END_CONFIG; hi8 SHS_LD2410_CMD_END_CONFIG].

(** [shs_ld2410_apply_params_all] *)
Definition shs_ld2410_apply_params_all : act :=
  reading (fun g =>
    let mv_gate := shs_clamp_u16 (shs_moving_max_gate (g_cfg g)) 0 8 in
    let st_gate := shs_clamp_u16 (shs_static_max_gate (g_cfg g)) 2 8 in
    let no_one := shs_occupancy_clear_sec (g_cfg g) in
    let set_params :=
      [lo8 SHS_LD2410_CMD_SET_PARAMS; hi8 SHS_LD2410_CMD_SET_PARAMS;
       lo8 SHS_LD2410_PW_MAX_MOVE_GATE; hi8 SHS_LD2410_PW_MAX_MOVE_GATE;
       u8 (lo8 mv_gate); 0x00; 0x00; 0x00;
       lo8 SHS_LD2410_PW_MAX_STATIC_GATE; hi8 SHS_LD2410_PW_MAX_STATIC_GATE;
       u8 (lo8 st_gate); 0x00; 0x00; 0x00;
       lo8 SHS_LD2410_PW_NO_ONE_DURATION; hi8 SHS_LD2410_PW_NO_ONE_DURATION;
       u8 (lo8 no_one); u8 (hi8 no_one); 0x00; 0x00] in
    shs_ld2410_write_cmd begin_cfg ;;
    shs_ld2410_write_cmd set_params ;;
    shs_ld2410_write_cmd end_cfg).

(** [shs_ld2410_apply_global_sensitivity] *)
Definition shs_ld2410_apply_global_sensitivity : act :=
  reading (fun g =>
    let mv := shs_clamp_u8 (shs_moving_sens_0_100 (g_cfg g)) 0 100 in
    let st := shs_clamp_u8 (shs_static_sens_0_100 (g_cfg g)) 0 100 in
    let sens :=
      [lo8 SHS_LD2410_CMD_SET_SENSITIVITY; hi8 SHS_LD2410_CMD_SET_SENSITIVITY;
       lo8 SHS_LD2410_GATE_ALL; hi8 SHS_LD2410_GATE_ALL;
       mv; 0x00; st; 0x00] in
    shs_ld2410_write_cmd begin_cfg ;;
    shs_ld2410_write_cmd sens ;;
    shs_ld2410_write_cmd end_cfg).

(** [shs_ld2410_apply_no_one_duration] *)
Definition shs_ld2410_apply_no_one_duration (seconds : Z) : act :=
  assign (upd_cfg (set_occupancy_clear_sec seconds)) ;;
  shs_ld2410_apply_params_all.

(** ** ZCL helpers: no-ops until the stack is ready *)

Definition shs_zb_set_occ_bitmap (endpoint : Z) (occupied : bool) : act :=
  reading (fun g =>
    if negb (shs_zb_ready g) then nop
    else emit (ZbSetAttribute endpoint ESP_ZB_ZCL_CLUSTER_ID_OCCUPANCY_SENSING
                 ESP_ZB_ZCL_ATTR_OCCUPANCY_SENSING_OCCUPANCY_ID
                 (if occupied then 1 else 0))).

Definition shs_zb_set_bool_attr (endpoint cluster attr_id : Z) (value : bool)
  : act :=
  reading (fun g =>
    if negb (shs_zb_ready g) then nop
    else emit (ZbSetAttribute endpoint cluster attr_id (Z_of_bool value))).

Definition shs_zb_set_ou_delay_ep2 (seconds : Z) : act :=
  reading (fun g =>
    if negb (shs_zb_ready g) then nop
    else emit (ZbSetAttribute SHS_EP_OCC ESP_ZB_ZCL_CLUSTER_ID_OCCUPANCY_SENSING
                 SHS_ZCL_ATTR_OCC_PIR_OU_DELAY seconds)).

(** ** ZCL write callback *)

(** The fields of [esp_zb_zcl_set_attr_value_message_t] the handler reads;
    [attr_value] is the pointed-to datum read at the handler's type. *)
Record zb_set_attr_msg := mk_msg {
  dst_endpoint : Z;
  cluster : Z;
  attr_id : Z;
  attr_type : Z;
  attr_value : Z
}.

(** The body of the [switch] over the attribute id of the config cluster;
    [now] is the value [esp_log_timestamp()] returns. *)
Definition shs_cfg_write (id v now : Z) : act :=
  if id =? SHS_ATTR_MOVEMENT_COOLDOWN then
    let v := if v >? SHS_COOLDOWN_MAX_SEC then SHS_COOLDOWN_MAX_SEC else v in
    reading (fun g0 =>
      let was_zero := shs_movement_cooldown_sec (g_cfg g0) =? 0 in
      assign (upd_cfg (set_movement_cooldown_sec v)) ;;
      shs_save_enqueue SHS_SAVE_IMMEDIATE_U16
        (Z.lor (Z.shiftl SHS_ATTR_MOVEMENT_COOLDOWN 8) 0) ;;
      reading (fun g =>
        if shs_movement_cooldown_sec (g_cfg g) =? 0 then
          assign (upd_cd (set_mv_cooldown_active false))
        else if was_zero && shs_moving_state (g_pub g)
                && negb (shs_mv_cooldown_active (g_cd g)) then
          assign (upd_cd (set_mv_cooldown_active true)) ;;
          assign (upd_cd (set_mv_cooldown_deadline_ms
                    (u32 (now + u32 (shs_movement_cooldown_sec (g_cfg g) * 1000)))))
        else nop))
  else if id =? SHS_ATTR_OCC_CLEAR_COOLDOWN then
    shs_ld2410_apply_no_one_duration v ;;
    reading (fun g => shs_zb_set_ou_delay_ep2 (shs_occupancy_clear_sec (g_cfg g))) ;;
    shs_save_enqueue SHS_SAVE_IMMEDIATE_U16
      (Z.lor (Z.shiftl SHS_ATTR_OCC_CLEAR_COOLDOWN 8) 0)
  else if id =? SHS_ATTR_MOVING_SENS_0_10 then
    let v := if v >? 10 then 10 else v in
    assign (upd_cfg (set_sens_mv_0_10 v)) ;;
    assign (upd_cfg (set_moving_sens_0_100 (u8 (v * 10)))) ;;
    shs_ld2410_apply_global_sensitivity ;;
    reading (fun g =>
      shs_save_enqueue SHS_SAVE_DEBOUNCE_SENS_MOVE (shs_moving_sens_0_100 (g_cfg g)))
  else if id =? SHS_ATTR_STATIC_SENS_0_10 then
    let v := if v >? 10 then 10 else v in
    assign (upd_cfg (set_sens_st_0_10 v)) ;;
    assign (upd_cfg (set_static_sens_0_100 (u8 (v * 10)))) ;;
    shs_ld2410_apply_global_sensitivity ;;
    reading (fun g =>
      shs_save_enqueue SHS_SAVE_DEBOUNCE_SENS_STATIC (shs_static_sens_0_100 (g_cfg g)))
  else if id =? SHS_ATTR_MOVING_MAX_GATE then
    let v := if v >? 8 then 8 else v in
    assign (upd_cfg (set_moving_max_gate v)) ;;
    shs_ld2410_apply_params_all ;;
    reading (fun g =>
      shs_save_enqueue SHS_SAVE_DEBOUNCE_GATE_MOVE (shs_moving_max_gate (g_cfg g)))
  else if id =? SHS_ATTR_STATIC_MAX_GATE then
    let v := if v <? 2 then 2 else if v >? 8 then 8 else v in
    assign (upd_cfg (set_static_max_gate v)) ;;
    shs_ld2410_apply_params_all ;;
    reading (fun g =>
      shs_save_enqueue SHS_SAVE_DEBOUNCE_GATE_STATIC (shs_static_max_gate (g_cfg g)))
  else nop.

(** [shs_zb_attribute_handler]; [None] is the null message. *)
Definition shs_zb_attribute_handler (message : option zb_set_attr_msg) (now : Z)
  : act :=
  match message with
  | None => nop
  | Some m =>
    if (dst_endpoint m =? SHS_EP_LIGHT)
       && (cluster m =? ESP_ZB_ZCL_CLUSTER_ID_ON_OFF)
       && (attr_id m =? ESP_ZB_ZCL_ATTR_ON_OFF_ON_OFF_ID)
       && (attr_type m =? ESP_ZB_ZCL_ATTR_TYPE_BOOL)
    then emit (LightSetPower (negb (attr_value m =? 0)))
    else if (dst_endpoint m =? SHS_EP_LIGHT)
            && (cluster m =? SHS_CL_CFG_ID)
            && (attr_type m =? ESP_ZB_ZCL_ATTR_TYPE_U16)
    then shs_cfg_write (attr_id m) (attr_value m) now
    else nop
  end.

(** A write of the 16-bit value [v] to attribute [id] of the config cluster. *)
Definition cfg_write_msg (id v : Z) : zb_set_attr_msg :=
  {| dst_endpoint := SHS_EP_LIGHT; cluster := SHS_CL_CFG_ID; attr_id := id;
     attr_type := ESP_ZB_ZCL_ATTR_TYPE_U16; attr_value := v |}.

(** ** Cooldown (moving) *)

(** [shs_mv_cooldown_tick] *)
Definition shs_mv_cooldown_tick (now_ms : Z) : act :=
  reading (fun g =>
    if (shs_movement_cooldown_sec (g_cfg g) =? 0)
       || negb (shs_mv_cooldown_active (g_cd g)) then nop
    else if shs_time_reached now_ms (shs_mv_cooldown_deadline_ms (g_cd g)) then
      if negb (shs_last_moving_sample (g_cd g)) then
        (if shs_moving_state (g_pub g) then
           assign (upd_pub (set_moving_state false)) ;;
           shs_zb_set_bool_attr SHS_EP_OCC ESP_ZB_ZCL_CLUSTER_ID_OCCUPANCY_SENSING
             SHS_ATTR_OCC_MOVING_TARGET false
         else nop) ;;
        assign (upd_cd (set_mv_cooldown_active false))
      else
        assign (upd_cd (set_mv_cooldown_deadline_ms
                  (u32 (now_ms + u32 (shs_movement_cooldown_sec (g_cfg g) * 1000)))))
    else nop).

(** ** Sensor state *)

(** [shs_process_sensor_state]; [now] is what [esp_log_timestamp()] returns
    when the cooldown branch reads it. *)
Definition shs_process_sensor_state (state_byte now : Z) : act :=
  let moving := negb (Z.land state_byte 0x01 =? 0) in
  let stat := negb (Z.land state_byte 0x02 =? 0) in
  let presence := negb (Z.land state_byte 0x03 =? 0) in
  assign (upd_cd (set_last_moving_sample moving)) ;;
  reading (fun g =>
    if shs_movement_cooldown_sec (g_cfg g) =? 0 then
      if negb (Bool.eqb moving (shs_moving_state (g_pub g))) then
        assign (upd_pub (set_moving_state moving)) ;;
        shs_zb_set_bool_attr SHS_EP_OCC ESP_ZB_ZCL_CLUSTER_ID_OCCUPANCY_SENSING
          SHS_ATTR_OCC_MOVING_TARGET moving
      else nop
    else
      if negb (shs_mv_cooldown_active (g_cd g)) then
        if moving && negb (shs_moving_state (g_pub g)) then
          assign (upd_pub (set_moving_state true)) ;;
          shs_zb_set_bool_attr SHS_EP_OCC ESP_ZB_ZCL_CLUSTER_ID_OCCUPANCY_SENSING
            SHS_ATTR_OCC_MOVING_TARGET true ;;
          assign (upd_cd (set_mv_cooldown_active true)) ;;
          assign (upd_cd (set_mv_cooldown_deadline_ms
                    (u32 (now + u32 (shs_movement_cooldown_sec (g_cfg g) * 1000)))))
        else nop
      else shs_mv_cooldown_tick now) ;;
  reading (fun g =>
    if negb (Bool.eqb stat (shs_static_state (g_pub g))) then
      assign (upd_pub (set_static_state stat)) ;;
      shs_zb_set_bool_attr SHS_EP_OCC ESP_ZB_ZCL_CLUSTER_ID_OCCUPANCY_SENSING
        SHS_ATTR_OCC_STATIC_TARGET stat
    else nop) ;;
  reading (fun g =>
    if negb (Bool.eqb presence (shs_occupancy_state (g_pub g))) then
      assign (upd_pub (set_occupancy_state presence)) ;;
      shs_zb_set_occ_bitmap SHS_EP_OCC presence
    else nop).

(** ** Start of the Zigbee stack and of the application *)

(** [esp_zb_app_signal_handler] on a successful first start or reboot: the
    stack is ready, and the delay and the three presence attributes are
    published as the globals have them.  (The Basic-cluster metadata and the
    commissioning calls of the same branch do not touch the globals and are
    left out.) *)
Definition shs_zb_device_started : act :=
  assign (set_zb_ready true) ;;
  reading (fun g => shs_zb_set_ou_delay_ep2 (shs_occupancy_clear_sec (g_cfg g))) ;;
  reading (fun g =>
    shs_zb_set_bool_attr SHS_EP_OCC ESP_ZB_ZCL_CLUSTER_ID_OCCUPANCY_SENSING
      SHS_ATTR_OCC_MOVING_TARGET (shs_moving_state (g_pub g))) ;;
  reading (fun g =>
    shs_zb_set_bool_attr SHS_EP_OCC ESP_ZB_ZCL_CLUSTER_ID_OCCUPANCY_SENSING
      SHS_ATTR_OCC_STATIC_TARGET (shs_static_state (g_pub g))) ;;
  reading (fun g => shs_zb_set_occ_bitmap SHS_EP_OCC (shs_occupancy_state (g_pub g))).

(** [app_main] up to the start of the tasks: load the settings, push them to
    the LD2410 and create the save queue; [queue_created] says that
    [xQueueCreate] returned a handle. *)
Definition app_main (nvs : option nvs_handle) (queue_created : bool) : act :=
  assign (upd_cfg (shs_cfg_load_from_nvs nvs)) ;;
  shs_ld2410_apply_global_sensitivity ;;
  shs_ld2410_apply_params_all ;;
  assign (set_save_q queue_created).

(** ** Runs of the firmware

    What the tasks do to the globals, one input at a time: a decoded state
    byte handed to [shs_process_sensor_state], the cooldown tick at the end
    of a pass of the UART task, an attribute write from the Zigbee stack, and
    the start of the stack.  Every input carries the millisecond timestamp
    its handler reads. *)
Inductive shs_input :=
| InSensorState (state_byte now : Z)
| InTick (now : Z)
| InAttrWrite (m : zb_set_attr_msg) (now : Z)
| InZbReady.

Definition shs_step (i : shs_input) : act :=
  match i with
  | InSensorState b now => shs_process_sensor_state b now
  | InTick now => shs_mv_cooldown_tick now
  | InAttrWrite m now => shs_zb_attribute_handler (Some m) now
  | InZbReady => shs_zb_device_started
  end.

(** A run takes the inputs one after the other, each handler running to its
    end before the next starts. *)
Fixpoint shs_run (ins : list shs_input) : act :=
  match ins with
  | [] => nop
  | i :: ins' => shs_step i ;; shs_run ins'
  end.

(** The globals when [app_main] has started the tasks. *)
Definition shs_boot (nvs : option nvs_handle) (queue_created : bool)
  : shs_globals :=
  fst (app_main nvs queue_created shs_globals_init).

(** The globals after a run from boot. *)
Definition shs_after (nvs : option nvs_handle) (queue_created : bool)
  (ins : list shs_input) : shs_globals :=
  fst (shs_run ins (shs_boot nvs queue_created)).

(** ** UART task: LD2410 live frames

    The accumulator is the array [acc] of [SHS_UART_ACC_BUF_SIZE] bytes with
    the two indices [start] and [acc_len]; the pending bytes are
    [acc[start .. start + acc_len)].  The indices are [size_t]; they are
    modelled in [nat], and [acc_wf] below is the invariant under which no
    subtraction of the C code goes below zero. *)

Local Open Scope nat_scope.

Record acc_buf := mk_acc {
  acc : list Z;
  start : nat;
  acc_len : nat
}.

(** The [static] array starts zeroed. *)
Definition acc_init : acc_buf :=
  {| acc := repeat 0%Z SHS_UART_ACC_BUF_SIZE; start := 0; acc_len := 0 |}.

Definition acc_wf (s : acc_buf) : Prop :=
  length (acc s) = SHS_UART_ACC_BUF_SIZE /\
  start s + acc_len s <= SHS_UART_ACC_BUF_SIZE.

(** The pending bytes, oldest first. *)
Definition pending (s : acc_buf) : list Z :=
  firstn (acc_len s) (skipn (start s) (acc s)).

(** [a[i]] *)
Definition rd (a : list Z) (i : nat) : Z := nth i a 0%Z.

(** [memmove(a, a + from, n)] *)
Definition memmove_front (a : list Z) (from n : nat) : list Z :=
  firstn n (skipn from a) ++ skipn n a.

(** [memcpy(a + off, src, n)] *)
Definition memcpy_at (a : list Z) (off : nat) (src : list Z) (n : nat) : list Z :=
  firstn off a ++ firstn n src ++ skipn (off + n) a.

(** The first half of the [if (len > 0)] block: make room, then copy what
    fits of the [len] bytes of [rxbuf]. *)
Definition shs_acc_append (rxbuf : list Z) (s : acc_buf) : acc_buf :=
  let len := length rxbuf in
  let s :=
    if SHS_UART_ACC_BUF_SIZE <? start s + acc_len s + len then
      {| acc := if 0 <? acc_len s
                then memmove_front (acc s) (start s) (acc_len s) else acc s;
         start := 0;
         acc_len := acc_len s |}
    else s in
  let copy := len in
  if SHS_UART_ACC_BUF_SIZE <? start s + acc_len s + copy then
    let free_space := SHS_UART_ACC_BUF_SIZE - (start s + acc_len s) in
    {| acc := memcpy_at (acc s) (start s + acc_len s) rxbuf free_space;
       start := start s;
       acc_len := acc_len s + free_space |}
  else
    {| acc := memcpy_at (acc s) (start s + acc_len s) rxbuf copy;
       start := start s;
       acc_len := acc_len s + copy |}.

(** The receive header at [a[p .. p+3]]. *)
Definition hdr_at (a : list Z) (p : nat) : bool :=
  ((rd a p =? SHS_LD2410_HDR_RX0) && (rd a (p + 1) =? SHS_LD2410_HDR_RX1) &&
   (rd a (p + 2) =? SHS_LD2410_HDR_RX2) && (rd a (p + 3) =? SHS_LD2410_HDR_RX3))%Z.

(** The receive trailer at [a[p .. p+3]]. *)
Definition tail_at (a : list Z) (p : nat) : bool :=
  ((rd a p =? SHS_LD2410_TAIL_RX0) && (rd a (p + 1) =? SHS_LD2410_TAIL_RX1) &&
   (rd a (p + 2) =? SHS_LD2410_TAIL_RX2) && (rd a (p + 3) =? SHS_LD2410_TAIL_RX3))%Z.

(** The header search [for (; h + 4 <= acc_len; ++h)]: [n] is the number of
    rounds the loop has left, [acc_len - 3 - h] when it is entered. *)
Fixpoint find_hdr (n : nat) (a : list Z) (start h : nat) : nat :=
  match n with
  | O => h
  | S n' => if hdr_at a (start + h) then h else find_hdr n' a start (S h)
  end.

(** Whether the candidate at [h] is a whole frame closed by the trailer, and
    its size [total]. *)
Definition frame_confirmed (s : acc_buf) (h : nat) : bool * nat :=
  if 10 <=? acc_len s - h then
    let le_len :=
      u16 (Z.lor (rd (acc s) (start s + h + 4))
                 (Z.shiftl (rd (acc s) (start s + h + 5)) 8)) in
    let total := 4 + 2 + Z.to_nat le_len + 4 in
    if h + total <=? acc_len s then
      (tail_at (acc s) (start s + h + total - 4), total)
    else (false, total)
  else (false, 0).

(** The [while (acc_len - i >= SHS_LD2410_MIN_FRAME_BYTES)] loop.  [i] is 0
    at every test of the loop condition (it is set to 0 after each drop, and
    the other assignments to it are followed by [break]).  The result is the
    accumulator and the state bytes handed to [shs_process_sensor_state], in
    order; [None] only when [fuel] rounds did not reach the end of the loop. *)
Fixpoint shs_scan (fuel : nat) (s : acc_buf) : option (acc_buf * list Z) :=
  match fuel with
  | O => None
  | S fuel' =>
    let i := 0 in
    if SHS_LD2410_MIN_FRAME_BYTES <=? acc_len s - i then
      let h := find_hdr (acc_len s - 3 - i) (acc s) (start s) i in
      if acc_len s <? h + SHS_LD2410_MIN_FRAME_BYTES then Some (s, [])
      else if acc_len s <=? h then Some (s, [])
      else
        let (consumed, total) := frame_confirmed s h in
        let state_byte := rd (acc s) (start s + h + 8) in
        let drop := if consumed then h + total
                    else h + SHS_LD2410_MIN_FRAME_BYTES in
        let s' := {| acc := acc s; start := start s + drop;
                     acc_len := acc_len s - drop |} in
        match shs_scan fuel' s' with
        | Some (s'', evs) => Some (s'', state_byte :: evs)
        | None => None
        end
    else Some (s, [])
  end.

(** One [uart_read_bytes] that returned the bytes [rxbuf]: the [if (len > 0)]
    block of the task loop.  Every round of the scan that goes on drops at
    least nine bytes, so [acc_len + 1] rounds are more than the loop runs. *)
Definition shs_ld2410_feed (rxbuf : list Z) (s : acc_buf)
  : option (acc_buf * list Z) :=
  if 0 <? length rxbuf then
    let s1 := shs_acc_append rxbuf s in
    shs_scan (S (acc_len s1)) s1
  else Some (s, []).

(** Successive reads. *)
Fixpoint shs_ld2410_feeds (reads : list (list Z)) (s : acc_buf)
  : option (acc_buf * list Z) :=
  match reads with
  | [] => Some (s, [])
  | rxbuf :: rest =>
    match shs_ld2410_feed rxbuf s with
    | Some (s1, e1) =>
      match shs_ld2410_feeds rest s1 with
      | Some (s2, e2) => Some (s2, e1 ++ e2)
      | None => None
      end
    | None => None
    end
  end.

(** A receive frame around [payload]: header, little-endian length, payload,
    trailer. *)
Definition rx_frame (payload : list Z) : list Z :=
  [SHS_LD2410_HDR_RX0; SHS_LD2410_HDR_RX1; SHS_LD2410_HDR_RX2; SHS_LD2410_HDR_RX3]
    ++ [lo8 (Z.of_nat (length payload)); hi8 (Z.of_nat (length payload))]
    ++ payload
    ++ [SHS_LD2410_TAIL_RX0; SHS_LD2410_TAIL_RX1; SHS_LD2410_TAIL_RX2;
        SHS_LD2410_TAIL_RX3].

(** No receive header anywhere in [l]. *)
Definition hdr_free (l : list Z) : Prop :=
  forall j, j + 4 <= length l -> hdr_at l j = false.

(** The same, as a test. *)
Definition hdr_freeb (l : list Z) : bool :=
  forallb (fun j => negb (hdr_at l j)) (List.seq 0 (length l - 3)).

Local Close Scope nat_scope.

(** The inputs one pass of the task loop gives the state machine: the state
    bytes of the read in order, then the cooldown tick; [clock k] is the
    timestamp [esp_log_timestamp()] returns at the [k]-th of them. *)
Fixpoint shs_ld2410_pass_inputs (evs : list Z) (clock : nat -> Z) (k : nat)
  : list shs_input :=
  match evs with
  | [] => [InTick (clock k)]
  | b :: rest => InSensorState b (clock k) :: shs_ld2410_pass_inputs rest clock (S k)
  end.

(** One pass of the [for (;;)] of [shs_ld2410_task]: the read, the state
    bytes it yields, the tick. *)
Definition shs_ld2410_task_pass (rxbuf : list Z) (clock : nat -> Z)
  (s : acc_buf) (g : shs_globals) : option (acc_buf * (shs_globals * list effect)) :=
  match shs_ld2410_feed rxbuf s with
  | Some (s', evs) => Some (s', shs_run (shs_ld2410_pass_inputs evs clock 0) g)
  | None => None
  end.

(** ** Save worker task

    The worker keeps, per debounced slider, the value to be saved, the tick
    of its last update and a pending flag.  The four triples of locals of
    [shs_save_worker] are grouped in one record each. *)

Record save_slot := mk_slot {
  slot_val : Z;     (* uint8_t  *_val  *)
  slot_last : Z;    (* TickType_t last_* *)
  slot_pend : bool  (* bool pend_* *)
}.

Record shs_save_state := mk_save_state {
  sv_mv_sens : save_slot;
  sv_st_sens : save_slot;
  sv_mv_gate : save_slot;
  sv_st_gate : save_slot
}.

(** The calls of [shs_cfg_save_u16] and [shs_cfg_save_u8]. *)
Inductive nvs_save :=
| CfgSaveU16 (key : string) (v : Z)
| CfgSaveU8 (key : string) (v : Z).

(** [pdMS_TO_TICKS] of FreeRTOS, for a tick rate of [hz] ticks per second
    ([configTICK_RATE_HZ], a build setting outside the source file). *)
Definition pdMS_TO_TICKS (hz ms : Z) : Z := u32 (u32 (ms * hz) / 1000).

Definition SHS_NVS_DEBOUNCE_MS : Z := 500.

(** The locals at the entry of the worker. *)
Definition shs_save_state_init (c : shs_config) : shs_save_state :=
  {| sv_mv_sens := mk_slot (shs_moving_sens_0_100 c) 0 false;
     sv_st_sens := mk_slot (shs_static_sens_0_100 c) 0 false;
     sv_mv_gate := mk_slot (u8 (shs_moving_max_gate c)) 0 false;
     sv_st_gate := mk_slot (u8 (shs_static_max_gate c)) 0 false |}.

(** One pass of the worker's loop, as its surroundings determine it: the
    message [xQueueReceive] delivered within its timeout if any, the tick
    count read in the [switch] when a debounced message is recorded, the tick
    count read after it, and the configuration globals as the pass reads
    them.  A tick count is the number of ticks since boot; the 32-bit
    [TickType_t] the code gets is its [u32]. *)
Record save_pass := mk_pass {
  sp_msg : option shs_save_msg_t;
  sp_tick_rx : Z;
  sp_tick_now : Z;
  sp_cfg : shs_config
}.

(** [x_val = (uint8_t)m.u16; pend_x = true; last_x = xTaskGetTickCount()] *)
Definition slot_record (m : shs_save_msg_t) (tick : Z) : save_slot :=
  {| slot_val := u8 (sm_u16 m); slot_pend := true; slot_last := u32 tick |}.

(** The [switch (m.type)] of a received message. *)
Definition shs_save_receive (p : save_pass) (m : shs_save_msg_t)
  (w : shs_save_state) : shs_save_state * list nvs_save :=
  match sm_type m with
  | SHS_SAVE_IMMEDIATE_U16 =>
    if Z.shiftr (sm_u16 m) 8 =? SHS_ATTR_MOVEMENT_COOLDOWN then
      (w, [CfgSaveU16 SHS_NVS_KEY_MV_CD (shs_movement_cooldown_sec (sp_cfg p))])
    else if Z.shiftr (sm_u16 m) 8 =? SHS_ATTR_OCC_CLEAR_COOLDOWN then
      (w, [CfgSaveU16 SHS_NVS_KEY_OCC_CD (shs_occupancy_clear_sec (sp_cfg p))])
    else (w, [])
  | SHS_SAVE_DEBOUNCE_SENS_MOVE =>
    (mk_save_state (slot_record m (sp_tick_rx p)) (sv_st_sens w) (sv_mv_gate w)
       (sv_st_gate w), [])
  | SHS_SAVE_DEBOUNCE_SENS_STATIC =>
    (mk_save_state (sv_mv_sens w) (slot_record m (sp_tick_rx p)) (sv_mv_gate w)
       (sv_st_gate w), [])
  | SHS_SAVE_DEBOUNCE_GATE_MOVE =>
    (mk_save_state (sv_mv_sens w) (sv_st_sens w) (slot_record m (sp_tick_rx p))
       (sv_st_gate w), [])
  | SHS_SAVE_DEBOUNCE_GATE_STATIC =>
    (mk_save_state (sv_mv_sens w) (sv_st_sens w) (sv_mv_gate w)
       (slot_record m (sp_tick_rx p)), [])
  end.

(** [if (pend_x && (now - last_x) >= pdMS_TO_TICKS(SHS_NVS_DEBOUNCE_MS))
    { shs_cfg_save_u8(key, x_val); pend_x = false; }] *)
Definition slot_flush (hz : Z) (key : string) (now : Z) (sl : save_slot)
  : save_slot * list nvs_save :=
  if slot_pend sl
     && (pdMS_TO_TICKS hz SHS_NVS_DEBOUNCE_MS <=? u32 (now - slot_last sl))
  then (mk_slot (slot_val sl) (slot_last sl) false, [CfgSaveU8 key (slot_val sl)])
  else (sl, []).

(** The body of the [for (;;)] of [shs_save_worker]. *)
Definition shs_save_worker_pass (hz : Z) (p : save_pass) (w : shs_save_state)
  : shs_save_state * list nvs_save :=
  let (w, o0) := match sp_msg p with
                 | Some m => shs_save_receive p m w
                 | None => (w, [])
                 end in
  let now := u32 (sp_tick_now p) in
  let (mv_sens, o1) := slot_flush hz SHS_NVS_KEY_MV_SENS now (sv_mv_sens w) in
  let (st_sens, o2) := slot_flush hz SHS_NVS_KEY_ST_SENS now (sv_st_sens w) in
  let (mv_gate, o3) := slot_flush hz SHS_NVS_KEY_MV_GATE now (sv_mv_gate w) in
  let (st_gate, o4) := slot_flush hz SHS_NVS_KEY_ST_GATE now (sv_st_gate w) in
  (mk_save_state mv_sens st_sens mv_gate st_gate, o0 ++ o1 ++ o2 ++ o3 ++ o4).

(** Successive passes; the saves are listed in the order they are made. *)
Fixpoint shs_save_worker_run (hz : Z) (passes : list save_pass)
  (w : shs_save_state) : shs_save_state * list nvs_save :=
  match passes with
  | [] => (w, [])
  | p :: rest =>
    let (w1, o1) := shs_save_worker_pass hz p w in
    let (w2, o2) := shs_save_worker_run hz rest w1 in
    (w2, o1 ++ o2)
  end.

(** *** Vocabulary for statements about the worker *)

(** The debounced fields. *)
Inductive dfield := FMvSens | FStSens | FMvGate | FStGate.

Definition dfield_evt (f : dfield) : shs_save_evt_t :=
  match f with
  | FMvSens => SHS_SAVE_DEBOUNCE_SENS_MOVE
  | FStSens => SHS_SAVE_DEBOUNCE_SENS_STATIC
  | FMvGate => SHS_SAVE_DEBOUNCE_GATE_MOVE
  | FStGate => SHS_SAVE_DEBOUNCE_GATE_STATIC
  end.

Definition dfield_key (f : dfield) : string :=
  match f with
  | FMvSens => SHS_NVS_KEY_MV_SENS
  | FStSens => SHS_NVS_KEY_ST_SENS
  | FMvGate => SHS_NVS_KEY_MV_GATE
  | FStGate => SHS_NVS_KEY_ST_GATE
  end.

Definition dfield_slot (f : dfield) (w : shs_save_state) : save_slot :=
  match f with
  | FMvSens => sv_mv_sens w
  | FStSens => sv_st_sens w
  | FMvGate => sv_mv_gate w
  | FStGate => sv_st_gate w
  end.

Definition evt_eqb (a b : shs_save_evt_t) : bool :=
  match a, b with
  | SHS_SAVE_IMMEDIATE_U16, SHS_SAVE_IMMEDIATE_U16
  | SHS_SAVE_DEBOUNCE_SENS_MOVE, SHS_SAVE_DEBOUNCE_SENS_MOVE
  | SHS_SAVE_DEBOUNCE_SENS_STATIC, SHS_SAVE_DEBOUNCE_SENS_STATIC
  | SHS_SAVE_DEBOUNCE_GATE_MOVE, SHS_SAVE_DEBOUNCE_GATE_MOVE
  | SHS_SAVE_DEBOUNCE_GATE_STATIC, SHS_SAVE_DEBOUNCE_GATE_STATIC => true
  | _, _ => false
  end.

(** The save request for field [f] a pass receives, if it receives one. *)
Definition request_of (f : dfield) (p : save_pass) : option Z :=
  match sp_msg p with
  | Some m => if evt_eqb (sm_type m) (dfield_evt f) then Some (sm_u16 m) else None
  | None => None
  end.

(** Whether a pass receives a debounced request, that is, reads the tick
    count in the [switch]. *)
Definition reads_rx_tick (p : save_pass) : bool :=
  match sp_msg p with
  | Some m => negb (evt_eqb (sm_type m) SHS_SAVE_IMMEDIATE_U16)
  | None => false
  end.

(** The values written under the key of field [f], in order. *)
Fixpoint saves_for (f : dfield) (log : list nvs_save) : list Z :=
  match log with
  | [] => []
  | CfgSaveU8 key v :: rest =>
    if String.eqb key (dfield_key f) then v :: saves_for f rest
    else saves_for f rest
  | CfgSaveU16 _ _ :: rest => saves_for f rest
  end.

(** The tick counts the passes read never go back: [t] is the latest tick
    read so far. *)
Fixpoint ticks_monotone (t : Z) (passes : list save_pass) : Prop :=
  match passes with
  | [] => True
  | p :: rest =>
    (if reads_rx_tick p
     then t <= sp_tick_rx p /\ sp_tick_rx p <= sp_tick_now p
     else t <= sp_tick_now p) /\
    ticks_monotone (sp_tick_now p) rest
  end.

(** Every request for [f] comes less than [d] ticks after the request for
    [f] before it; [prev] is the latest request so far, as (value, tick). *)
Fixpoint gaps_below (d : Z) (f : dfield) (prev : option (Z * Z))
  (passes : list save_pass) : Prop :=
  match passes with
  | [] => True
  | p :: rest =>
    match request_of f p with
    | Some v =>
      match prev with
      | Some (_, r) => sp_tick_rx p - r < d
      | None => True
      end /\ gaps_below d f (Some (v, sp_tick_rx p)) rest
    | None => gaps_below d f prev rest
    end
  end.

(** The latest request for [f] among the passes, as (value, tick), after
    the one in [prev]. *)
Fixpoint last_request (f : dfield) (prev : option (Z * Z))
  (passes : list save_pass) : option (Z * Z) :=
  match passes with
  | [] => prev
  | p :: rest =>
    match request_of f p with
    | Some v => last_request f (Some (v, sp_tick_rx p)) rest
    | None => last_request f prev rest
    end
  end.


(** The tick the last pass read at its end; [t] when there is no pass. *)
Fixpoint final_tick (t : Z) (passes : list save_pass) : Z :=
  match passes with
  | [] => t
  | p :: rest => final_tick (sp_tick_now p) rest
  end.


(** The ranges of the configuration record. *)
Definition cfg_in_range (c : shs_config) : Prop :=
  0 <= shs_movement_cooldown_sec c <= 300 /\
  0 <= shs_occupancy_clear_sec c <= 65535 /\
  0 <= shs_moving_sens_0_100 c <= 100 /\
  0 <= shs_static_sens_0_100 c <= 100 /\
  0 <= shs_moving_max_gate c <= 8 /\
  2 <= shs_static_max_gate c <= 8 /\
  0 <= shs_sens_mv_0_10 c <= 10 /\
  0 <= shs_sens_st_0_10 c <= 10.

(** The configuration after the handler has taken a write of [v] to [id]. *)
Definition cfg_after_write (id v now : Z) (g : shs_globals) : shs_config :=
  g_cfg (fst (shs_zb_attribute_handler (Some (cfg_write_msg id v)) now g)).

(** The store after [nvs_set_u8] or [nvs_set_u16] of [v] under [key]. *)
Definition nvs_put (h : nvs_handle) (key : string) (v : nvs_value) : nvs_handle :=
  fun k => if String.eqb k key then Some v else h k.

(** The empty namespace. *)
Definition nvs_empty : nvs_handle := fun _ => None.

(** The raw bits of a state byte. *)
Definition raw_moving (state_byte : Z) : bool := negb (Z.land state_byte 0x01 =? 0).
Definition raw_static (state_byte : Z) : bool := negb (Z.land state_byte 0x02 =? 0).

(** A store that holds a static gate of 1 and a cooldown of 400. *)
Definition nvs_example : nvs_handle :=
  nvs_put (nvs_put nvs_empty SHS_NVS_KEY_ST_GATE (NvsU8 1))
    SHS_NVS_KEY_MV_CD (NvsU16 400).

(** The variables the occupancy is computed with: what the last state byte
    said. *)
Definition occupancy_is_raw (g : shs_globals) : Prop :=
  shs_occupancy_state (g_pub g)
  = shs_last_moving_sample (g_cd g) || shs_static_state (g_pub g).

(** An input of the UART task (a sensor state or a tick) whose timestamp is
    less than [d] ms after [t0], in 32-bit wrap-around arithmetic. *)
Definition before_deadline (t0 d : Z) (i : shs_input) : bool :=
  match i with
  | InSensorState _ t => u32 (t - t0) <? d
  | InTick t => u32 (t - t0) <? d
  | InAttrWrite _ _ => false
  | InZbReady => true
  end.

(** The slot of field [f] after the receive of pass [p]. *)
Definition slot_received (f : dfield) (p : save_pass) (w : shs_save_state)
  : save_slot :=
  match request_of f p with
  | Some v => {| slot_val := u8 v; slot_last := u32 (sp_tick_rx p);
                 slot_pend := true |}
  | None => dfield_slot f w
  end.

(** Where field [f] stands when the latest tick read is [t], the latest
    request for it is [prev] and the values saved for it so far are [ws]:
    nothing asked and nothing pending; or the request pending, unsaved and
    younger than [d] at the last look; or the request saved, once, at a look
    that found it at least [d] old. *)
Definition save_inv (d : Z) (t : Z) (prev : option (Z * Z)) (sl : save_slot)
  (ws : list Z) : Prop :=
  match prev with
  | None => slot_pend sl = false /\ ws = []
  | Some (v, r) =>
    r <= t /\
    ((slot_pend sl = true /\ slot_last sl = u32 r /\ slot_val sl = u8 v /\
      ws = [] /\ u32 (t - r) < d) \/
     (slot_pend sl = false /\ ws = [u8 v] /\ d <= t - r))
  end.

(** A burst on the moving-sensitivity slider at 100 ticks per second: two
    requests ten ticks apart, a request for the static gate in between the
    polls, and polls until the field has been quiet for 55 ticks. *)
Definition burst_example : list save_pass :=
  [ mk_pass (Some (mk_save_msg SHS_SAVE_DEBOUNCE_SENS_MOVE 40)) 10 10 shs_config_init;
    mk_pass (Some (mk_save_msg SHS_SAVE_DEBOUNCE_SENS_MOVE 50)) 20 20 shs_config_init;
    mk_pass (Some (mk_save_msg SHS_SAVE_DEBOUNCE_GATE_STATIC 4)) 30 30 shs_config_init;
    mk_pass None 0 60 shs_config_init;
    mk_pass None 0 75 shs_config_init ].

(** ** Vocabulary for statements about runs *)

(** [shs_zb_action_handler]: only the set-attribute callback reaches the
    attribute handler.  [ESP_ZB_CORE_SET_ATTR_VALUE_CB_ID] is the SDK's id of
    that callback. *)
Definition ESP_ZB_CORE_SET_ATTR_VALUE_CB_ID : Z := 0x0000.

Definition shs_zb_action_handler (callback_id : Z)
  (message : option zb_set_attr_msg) (now : Z) : act :=
  if callback_id =? ESP_ZB_CORE_SET_ATTR_VALUE_CB_ID
  then shs_zb_attribute_handler message now
  else nop.

(** An attribute write carries a 16-bit value, as the stack delivers it. *)
Definition input_u16 (i : shs_input) : Prop :=
  match i with
  | InAttrWrite m _ => is_u16 (attr_value m)
  | _ => True
  end.

(** The 0..10 proxies are the 0..100 values rounded to the nearest ten. *)
Definition proxies_agree (c : shs_config) : Prop :=
  shs_sens_mv_0_10 c = (shs_moving_sens_0_100 c + 5) / 10 /\
  shs_sens_st_0_10 c = (shs_static_sens_0_100 c + 5) / 10.

(** The cooldown timer runs exactly while a cooldown is configured and
    moving is published. *)
Definition timer_matches (g : shs_globals) : Prop :=
  shs_mv_cooldown_active (g_cd g)
  = negb (shs_movement_cooldown_sec (g_cfg g) =? 0) && shs_moving_state (g_pub g).

(** The value last written to an attribute of the stack among [effs], after
    [prev]. *)
Fixpoint last_attr_write (endpoint cluster attr_id : Z) (effs : list effect)
  (prev : option Z) : option Z :=
  match effs with
  | [] => prev
  | ZbSetAttribute e c a v :: rest =>
    if (e =? endpoint) && (c =? cluster) && (a =? attr_id)
    then last_attr_write endpoint cluster attr_id rest (Some v)
    else last_attr_write endpoint cluster attr_id rest prev
  | _ :: rest => last_attr_write endpoint cluster attr_id rest prev
  end.

(** The attribute writes among the effects, and the queue sends. *)
Fixpoint zb_writes (effs : list effect) : list effect :=
  match effs with
  | [] => []
  | ZbSetAttribute e c a v :: rest => ZbSetAttribute e c a v :: zb_writes rest
  | _ :: rest => zb_writes rest
  end.

Fixpoint queue_sends (effs : list effect) : list shs_save_msg_t :=
  match effs with
  | [] => []
  | QueueSend m :: rest => m :: queue_sends rest
  | _ :: rest => queue_sends rest
  end.

(** Whether an input is the start of the stack. *)
Definition is_zb_ready_input (i : shs_input) : bool :=
  match i with InZbReady => true | _ => false end.

(** The attribute write that publishes a changed presence flag. *)
Definition publish_if_changed (attr_id : Z) (old new : bool) : list effect :=
  if Bool.eqb old new then []
  else [ZbSetAttribute SHS_EP_OCC ESP_ZB_ZCL_CLUSTER_ID_OCCUPANCY_SENSING
          attr_id (Z_of_bool new)].

(** What the stack was last told, seen against the globals: the value of
    each presence attribute and of the mirrored delay, once the stack is
    ready. *)
Definition stack_mirrors (g : shs_globals) (vm vs vo vd : option Z) : Prop :=
  shs_zb_ready g = true ->
  vm = Some (Z_of_bool (shs_moving_state (g_pub g))) /\
  vs = Some (Z_of_bool (shs_static_state (g_pub g))) /\
  vo = Some (Z_of_bool (shs_occupancy_state (g_pub g))) /\
  vd = Some (shs_occupancy_clear_sec (g_cfg g)).

Definition last_moving_write := 
  last_attr_write SHS_EP_OCC ESP_ZB_ZCL_CLUSTER_ID_OCCUPANCY_SENSING
    SHS_ATTR_OCC_MOVING_TARGET.
Definition last_static_write := 
  last_attr_write SHS_EP_OCC ESP_ZB_ZCL_CLUSTER_ID_OCCUPANCY_SENSING
    SHS_ATTR_OCC_STATIC_TARGET.
Definition last_occupancy_write := 
  last_attr_write SHS_EP_OCC ESP_ZB_ZCL_CLUSTER_ID_OCCUPANCY_SENSING
    ESP_ZB_ZCL_ATTR_OCCUPANCY_SENSING_OCCUPANCY_ID.
Definition last_delay_write := 
  last_attr_write SHS_EP_OCC ESP_ZB_ZCL_CLUSTER_ID_OCCUPANCY_SENSING
    SHS_ZCL_ATTR_OCC_PIR_OU_DELAY.

(** ** The durable store as the saves leave it *)

(** [shs_cfg_save_u16] and [shs_cfg_save_u8] on the store; [opened] is
    whether [nvs_open] succeeded (a failed open leaves the store as it is). *)
Definition shs_cfg_save_u16 (opened : bool) (key : string) (v : Z)
  (h : nvs_handle) : nvs_handle :=
  if opened then nvs_put h key (NvsU16 v) else h.
Definition shs_cfg_save_u8 (opened : bool) (key : string) (v : Z)
  (h : nvs_handle) : nvs_handle :=
  if opened then nvs_put h key (NvsU8 v) else h.

(** The key a save is made under. *)
Definition save_key (sv : nvs_save) : string :=
  match sv with CfgSaveU16 key _ | CfgSaveU8 key _ => key end.

(** The store after a sequence of save calls, each with the outcome of its
    [nvs_open]: a call that could not open the store leaves it as it was. *)
Fixpoint nvs_after (calls : list (bool * nvs_save)) (h : nvs_handle)
  : nvs_handle :=
  match calls with
  | [] => h
  | (opened, CfgSaveU16 key v) :: rest =>
    nvs_after rest (shs_cfg_save_u16 opened key v h)
  | (opened, CfgSaveU8 key v) :: rest =>
    nvs_after rest (shs_cfg_save_u8 opened key v h)
  end.

(** Every call under [key] could open the store. *)
Definition opened_under (key : string) (calls : list (bool * nvs_save)) : bool :=
  forallb (fun c => implb (String.eqb key (save_key (snd c))) (fst c)) calls.

(** The value a log saves last under [key], after [prev]. *)
Fixpoint last_save (key : string) (log : list nvs_save) (prev : option nvs_value)
  : option nvs_value :=
  match log with
  | [] => prev
  | CfgSaveU16 k v :: rest =>
    last_save key rest (if String.eqb key k then Some (NvsU16 v) else prev)
  | CfgSaveU8 k v :: rest =>
    last_save key rest (if String.eqb key k then Some (NvsU8 v) else prev)
  end.

(** A save as the load will read it: a cooldown as 16 bits under its key, a
    slider as a byte under its key. *)
Definition save_well_keyed (sv : nvs_save) : Prop :=
  match sv with
  | CfgSaveU16 k v => k = SHS_NVS_KEY_MV_CD \/ k = SHS_NVS_KEY_OCC_CD
  | CfgSaveU8 k v =>
    (k = SHS_NVS_KEY_MV_SENS \/ k = SHS_NVS_KEY_ST_SENS \/
     k = SHS_NVS_KEY_MV_GATE \/ k = SHS_NVS_KEY_ST_GATE) /\ is_u8 v
  end.

(** The bytes in the slots of the worker. *)
Definition save_state_bytes (w : shs_save_state) : Prop :=
  is_u8 (slot_val (sv_mv_sens w)) /\ is_u8 (slot_val (sv_st_sens w)) /\
  is_u8 (slot_val (sv_mv_gate w)) /\ is_u8 (slot_val (sv_st_gate w)).

(** The configuration variable behind a debounced field, and its range. *)
Definition dfield_value (f : dfield) (c : shs_config) : Z :=
  match f with
  | FMvSens => shs_moving_sens_0_100 c
  | FStSens => shs_static_sens_0_100 c
  | FMvGate => shs_moving_max_gate c
  | FStGate => shs_static_max_gate c
  end.

Definition dfield_in_range (f : dfield) (v : Z) : Prop :=
  match f with
  | FMvSens => 0 <= v <= 100
  | FStSens => 0 <= v <= 100
  | FMvGate => 0 <= v <= 8
  | FStGate => 2 <= v <= 8
  end.

(** The attribute that writes a debounced field. *)
Definition dfield_attr (f : dfield) : Z :=
  match f with
  | FMvSens => SHS_ATTR_MOVING_SENS_0_10
  | FStSens => SHS_ATTR_STATIC_SENS_0_10
  | FMvGate => SHS_ATTR_MOVING_MAX_GATE
  | FStGate => SHS_ATTR_STATIC_MAX_GATE
  end.

(** ** Reading the command stream *)

(** The byte strings handed to the UART, in order. *)
Fixpoint uart_writes (effs : list effect) : list (list Z) :=
  match effs with
  | [] => []
  | UartWriteBytes bytes :: rest => bytes :: uart_writes rest
  | _ :: rest => uart_writes rest
  end.

Definition bytes_eqb (a b : list Z) : bool :=
  if list_eq_dec Z.eq_dec a b then true else false.

(** The payload a receiver reads off a command frame: the header, the
    little-endian length, that many bytes and the tail, and nothing more;
    [None] when the bytes are no such frame. *)
Definition ld2410_cmd_payload (frame : list Z) : option (list Z) :=
  let n := Z.to_nat (Z.lor (nth 4 frame 0) (Z.shiftl (nth 5 frame 0) 8)) in
  if bytes_eqb (firstn 4 frame) SHS_LD2410_HDR_TX
     && Nat.eqb (length frame) (10 + n)
     && bytes_eqb (skipn (6 + n) frame) SHS_LD2410_TAIL_TX
  then Some (firstn n (skipn 6 frame)) else None.

Definition is_byte_list (l : list Z) : Prop := Forall is_u8 l.

(** The three payloads of a parameter update, for the values [mv_gate],
    [st_gate] and the two bytes [lo], [hi] of the no-one duration. *)
Definition params_payloads (mv_gate st_gate lo hi : Z) : list (list Z) :=
  [ [0xFF; 0x00; 0x01; 0x00];
    [0x60; 0x00; 0x00; 0x00; mv_gate; 0x00; 0x00; 0x00;
     0x01; 0x00; st_gate; 0x00; 0x00; 0x00;
     0x02; 0x00; lo; hi; 0x00; 0x00];
    [0xFE; 0x00] ].

(** The three payloads of a sensitivity update. *)
Definition sens_payloads (mv st : Z) : list (list Z) :=
  [ [0xFF; 0x00; 0x01; 0x00];
    [0x64; 0x00; 0xFF; 0xFF; mv; 0x00; st; 0x00];
    [0xFE; 0x00] ].

(** ** Streams of frames *)

(** Bytes that cannot be taken for a header, not even together with the
    first three bytes of the frame that follows them. *)
Definition gap_ok (junk : list Z) : Prop :=
  hdr_free (junk ++ [SHS_LD2410_HDR_RX0; SHS_LD2410_HDR_RX1; SHS_LD2410_HDR_RX2]).

(** Frames on the wire, each behind its gap: the pairs are (gap, payload). *)
Fixpoint rx_stream (items : list (list Z * list Z)) : list Z :=
  match items with
  | [] => []
  | (junk, payload) :: rest => junk ++ rx_frame payload ++ rx_stream rest
  end.

(** The ninth byte of each frame of the stream, in order. *)
Definition stream_state_bytes (items : list (list Z * list Z)) : list Z :=
  map (fun it => nth 8 (rx_frame (snd it)) 0) items.

Definition item_ok (it : list Z * list Z) : Prop :=
  gap_ok (fst it) /\ Z.of_nat (length (snd it)) < 65536.

(** ** BOOT button (factory reset) *)

Definition SHS_FACTORY_RESET_LONGPRESS_MS : Z := 6000.

(** The locals of [shs_boot_button_task]. *)
Record shs_button := mk_button {
  held : Z;      (* uint32_t *)
  armed : bool
}.

Definition shs_button_init : shs_button := {| held := 0; armed := false |}.

Definition required_ticks : Z := u32 (SHS_FACTORY_RESET_LONGPRESS_MS / 25).

(** One round of the [while (1)] loop of [shs_boot_button_task] with the
    GPIO at [level]; the flag says that the round called
    [esp_zb_factory_reset] and [esp_restart]. *)
Definition shs_boot_button_poll (level : Z) (b : shs_button)
  : shs_button * bool :=
  if level =? 0 then
    let held1 := if held b <? required_ticks then u32 (held b + 1) else held b in
    let armed1 := if negb (armed b) && (held1 >? 4) then true else armed b in
    ({| held := held1; armed := armed1 |}, held1 >=? required_ticks)
  else ({| held := 0; armed := false |}, false).

(** The task over the successive levels of the GPIO, up to the restart: the
    locals and the number of the round that restarted, if one did. *)
Fixpoint shs_boot_button_run (levels : list Z) (b : shs_button)
  : shs_button * option nat :=
  match levels with
  | [] => (b, None)
  | level :: rest =>
    let (b1, reset) := shs_boot_button_poll level b in
    if reset then (b1, Some O)
    else let (b2, r) := shs_boot_button_run rest b1 in (b2, option_map S r)
  end.

(** The number of pressed samples in a row at the end of [levels], counted
    on from [h]. *)
Definition pressed_streak_from (h : Z) (levels : list Z) : Z :=
  fold_left (fun n level => if level =? 0 then n + 1 else 0) levels h.

Definition pressed_streak (levels : list Z) : Z := pressed_streak_from 0 levels.

(** The six saves that put a whole configuration into the store, typed as
    [shs_save_worker] types them, each finding the store open. *)
Definition cfg_saves (c : shs_config) : list (bool * nvs_save) :=
  [(true, CfgSaveU16 SHS_NVS_KEY_MV_CD (shs_movement_cooldown_sec c));
   (true, CfgSaveU16 SHS_NVS_KEY_OCC_CD (shs_occupancy_clear_sec c));
   (true, CfgSaveU8 SHS_NVS_KEY_MV_SENS (shs_moving_sens_0_100 c));
   (true, CfgSaveU8 SHS_NVS_KEY_ST_SENS (shs_static_sens_0_100 c));
   (true, CfgSaveU8 SHS_NVS_KEY_MV_GATE (shs_moving_max_gate c));
   (true, CfgSaveU8 SHS_NVS_KEY_ST_GATE (shs_static_max_gate c))].

(** ** What the scan may drop

    The words of the decoder's contract for the scan, on the pending bytes
    alone: bytes leave only from the front, up to the end of a frame
    candidate, and each candidate hands on its state byte. *)

Local Open Scope nat_scope.

(** The first header of [p], with at least the minimum frame from it on. *)
Definition candidate_at (p : list Z) (h : nat) : Prop :=
  hdr_at p h = true /\
  (forall j, j < h -> hdr_at p j = false) /\
  h + SHS_LD2410_MIN_FRAME_BYTES <= length p.

(** The frame length that the two length bytes behind a header at [h]
    announce. *)
Definition announced_len (p : list Z) (h : nat) : nat :=
  4 + 2 + Z.to_nat (u16 (Z.lor (rd p (h + 4)) (Z.shiftl (rd p (h + 5)) 8))) + 4.

(** The candidate at [h] is a whole frame: its length field is there, all
    the bytes it announces are there, and they end in the trailer. *)
Definition confirmed_at (p : list Z) (h : nat) : bool :=
  (10 <=? length p - h) && (h + announced_len p h <=? length p)
  && tail_at p (h + announced_len p h - 4).

(** Where the drop of the candidate at [h] ends: at the end of the frame
    when it is confirmed, after the minimum frame otherwise. *)
Definition drop_end (p : list Z) (h : nat) : nat :=
  if confirmed_at p h then h + announced_len p h
  else h + SHS_LD2410_MIN_FRAME_BYTES.

(** [frame_drops p evs rest]: from the pending bytes [p] the candidates hand
    on the state bytes [evs] and leave [rest]. *)
Inductive frame_drops : list Z -> list Z -> list Z -> Prop :=
| drops_none p :
    (forall h, h + SHS_LD2410_MIN_FRAME_BYTES <= length p -> hdr_at p h = false) ->
    frame_drops p [] p
| drops_frame p h evs rest :
    candidate_at p h ->
    frame_drops (skipn (drop_end p h) p) evs rest ->
    frame_drops p (rd p (h + 8) :: evs) rest.

(** An accumulator with twenty bytes pending at the end of the array. *)
Definition acc_example : acc_buf :=
  {| acc := repeat 0%Z 1000 ++ map Z.of_nat (List.seq 1 20) ++ repeat 0%Z 4;
     start := 1000; acc_len := 20 |}.

Local Close Scope nat_scope.

(** * Theorems *)

Lemma u32_range x : 0 <= u32 x < 4294967296.
Proof. unfold u32. apply Z.mod_pos_bound. lia. Qed.

Lemma u32_small x : 0 <= x < 4294967296 -> u32 x = x.
Proof. intros H. unfold u32. apply Z.mod_small. exact H. Qed.

Lemma shs_time_reached_spec now deadline :
  shs_time_reached now deadline = (u32 (now - deadline) <? 2147483648).
Proof.
  unfold shs_time_reached, to_int32.
  pose proof (u32_range (now - deadline)) as R.
  destruct (u32 (now - deadline) <? 2147483648) eqn:E.
  - apply Z.leb_le. lia.
  - apply Z.ltb_ge in E. apply Z.leb_gt. lia.
Qed.

Lemma at_or_after_iff now deadline :
  is_u32 now -> is_u32 deadline ->
  at_or_after now deadline <-> u32 (now - deadline) < 2147483648.
Proof.
  unfold is_u32, at_or_after, u32. intros Hn Hd. split.
  - intros [d [Hd' ->]].
    replace ((deadline + d) mod 4294967296 - deadline)
      with (d + (-1) * ((deadline + d) / 4294967296) * 4294967296)
      by (pose proof (Z.div_mod (deadline + d) 4294967296); lia).
    rewrite Z.mod_add by lia. rewrite Z.mod_small by lia. lia.
  - intros H. exists ((now - deadline) mod 4294967296). split.
    + pose proof (Z.mod_pos_bound (now - deadline) 4294967296). lia.
    + rewrite Zplus_mod_idemp_r.
      replace (deadline + (now - deadline)) with now by lia.
      symmetry. apply Z.mod_small. lia.
Qed.

Lemma strictly_before_iff now deadline :
  is_u32 now -> is_u32 deadline ->
  strictly_before now deadline ->
  2147483648 < u32 (now - deadline).
Proof.
  unfold is_u32, strictly_before, u32. intros Hn Hd [d [Hd' E]].
  assert (Hq : (now + d) / 4294967296 = 0 \/ (now + d) / 4294967296 = 1).
  { assert (0 <= (now + d) / 4294967296 < 2).
    { split; [apply Z.div_pos; lia | apply Z.div_lt_upper_bound; lia]. }
    lia. }
  pose proof (Z.div_mod (now + d) 4294967296) as DM.
  destruct Hq as [Hq | Hq]; rewrite Hq in DM.
  - replace (now - deadline) with (4294967296 - d + (-1) * 4294967296) by lia.
    rewrite Z.mod_add by lia. rewrite Z.mod_small by lia. lia.
  - replace (now - deadline) with (4294967296 - d) by lia.
    rewrite Z.mod_small by lia. lia.
Qed.

(** C10: for 32-bit timestamps whose modulo-2^32 distance is below 2^31,
    [shs_time_reached now deadline] is true exactly when [now] is at or
    after [deadline] in wrap-around order, and false when [now] is strictly
    before it, so the test survives the wrap of the millisecond counter. *)
Theorem shs_time_reached_wraparound (now deadline : Z) :
  is_u32 now -> is_u32 deadline ->
  wrap_distance now deadline < 2147483648 ->
  (shs_time_reached now deadline = true <-> at_or_after now deadline) /\
  (strictly_before now deadline -> shs_time_reached now deadline = false).
Proof.
  intros Hn Hd _. rewrite shs_time_reached_spec. split.
  - rewrite at_or_after_iff by assumption. apply Z.ltb_lt.
  - intros Hb. apply strictly_before_iff in Hb; try assumption.
    apply Z.ltb_ge. lia.
Qed.

(** The deadline test across the wrap: the counter is 96 ms past zero, the
    deadline was set 200 ms before the wrap. *)
Lemma shs_time_reached_wraparound_witness :
  (shs_time_reached 96 4294967096 = true <-> at_or_after 96 4294967096) /\
  (strictly_before 96 4294967096 -> shs_time_reached 96 4294967096 = false).
Proof.
  apply (shs_time_reached_wraparound 96 4294967096).
  - unfold is_u32; lia.
  - unfold is_u32; lia.
  - vm_compute. reflexivity.
Defined.

(** ** Configuration store *)

Lemma clamp_hi_min (v hi : Z) : (if v >? hi then hi else v) = Z.min v hi.
Proof. destruct (v >? hi) eqn:E; [apply Z.gtb_lt in E | rewrite Z.gtb_ltb in E; apply Z.ltb_ge in E]; lia. Qed.

Lemma clamp_lo_hi (v lo hi : Z) :
  lo <= hi ->
  (if v <? lo then lo else if v >? hi then hi else v) = Z.max lo (Z.min v hi).
Proof.
  intros H. destruct (v <? lo) eqn:E.
  - apply Z.ltb_lt in E. lia.
  - apply Z.ltb_ge in E. rewrite clamp_hi_min. lia.
Qed.

Lemma u8_small x : 0 <= x < 256 -> u8 x = x.
Proof. intros H. unfold u8. apply Z.mod_small. exact H. Qed.

Lemma u16_small x : 0 <= x < 65536 -> u16 x = x.
Proof. intros H. unfold u16. apply Z.mod_small. exact H. Qed.

(** The handler dispatches a config-cluster write to the [switch]. *)
Lemma handler_cfg_write id v now g :
  shs_zb_attribute_handler (Some (cfg_write_msg id v)) now g
  = shs_cfg_write id v now g.
Proof. reflexivity. Qed.

Lemma cfg_after_write_cooldown v now g :
  shs_movement_cooldown_sec (cfg_after_write SHS_ATTR_MOVEMENT_COOLDOWN v now g)
  = Z.min v 300.
Proof.
  unfold cfg_after_write. rewrite handler_cfg_write.
  unfold shs_cfg_write. simpl (_ =? _). cbv iota.
  rewrite clamp_hi_min. unfold SHS_COOLDOWN_MAX_SEC.
  unfold reading, act_seq, assign, shs_save_enqueue, emit, nop. simpl.
  destruct (Z.min v 300 =? 0); [reflexivity|].
  destruct (_ && _); reflexivity.
Qed.

(** Running a statement symbolically: unfold the combinators. *)
Ltac act_unfold :=
  unfold shs_ld2410_apply_no_one_duration, shs_ld2410_apply_params_all,
    shs_ld2410_apply_global_sensitivity, shs_ld2410_write_cmd,
    shs_zb_set_ou_delay_ep2, shs_zb_set_bool_attr, shs_zb_set_occ_bitmap,
    shs_save_enqueue, reading, act_seq, assign, emit, nop.

Lemma cfg_after_write_occ_clear v now g :
  shs_occupancy_clear_sec (cfg_after_write SHS_ATTR_OCC_CLEAR_COOLDOWN v now g) = v.
Proof.
  unfold cfg_after_write. rewrite handler_cfg_write.
  unfold shs_cfg_write. simpl (_ =? _). cbv iota.
  act_unfold. simpl. destruct (negb (shs_zb_ready g)); reflexivity.
Qed.

Lemma cfg_after_write_mv_sens v now g :
  0 <= v ->
  let c := cfg_after_write SHS_ATTR_MOVING_SENS_0_10 v now g in
  shs_sens_mv_0_10 c = Z.min v 10 /\ shs_moving_sens_0_100 c = Z.min v 10 * 10.
Proof.
  intros Hv. unfold cfg_after_write. rewrite handler_cfg_write.
  unfold shs_cfg_write. simpl (_ =? _). cbv iota.
  rewrite clamp_hi_min. act_unfold. simpl.
  split; [reflexivity | apply u8_small; lia].
Qed.

Lemma cfg_after_write_st_sens v now g :
  0 <= v ->
  let c := cfg_after_write SHS_ATTR_STATIC_SENS_0_10 v now g in
  shs_sens_st_0_10 c = Z.min v 10 /\ shs_static_sens_0_100 c = Z.min v 10 * 10.
Proof.
  intros Hv. unfold cfg_after_write. rewrite handler_cfg_write.
  unfold shs_cfg_write. simpl (_ =? _). cbv iota.
  rewrite clamp_hi_min. act_unfold. simpl.
  split; [reflexivity | apply u8_small; lia].
Qed.

Lemma cfg_after_write_mv_gate v now g :
  shs_moving_max_gate (cfg_after_write SHS_ATTR_MOVING_MAX_GATE v now g)
  = Z.min v 8.
Proof.
  unfold cfg_after_write. rewrite handler_cfg_write.
  unfold shs_cfg_write. simpl (_ =? _). cbv iota.
  rewrite clamp_hi_min. act_unfold. reflexivity.
Qed.

Lemma cfg_after_write_st_gate v now g :
  shs_static_max_gate (cfg_after_write SHS_ATTR_STATIC_MAX_GATE v now g)
  = Z.max 2 (Z.min v 8).
Proof.
  unfold cfg_after_write. rewrite handler_cfg_write.
  unfold shs_cfg_write. simpl (_ =? _). cbv iota.
  rewrite clamp_lo_hi by lia. act_unfold. reflexivity.
Qed.

(** A write leaves every field in its range. *)
Lemma cfg_write_in_range id v now g :
  is_u16 v -> cfg_in_range (g_cfg g) ->
  cfg_in_range (g_cfg (fst (shs_cfg_write id v now g))).
Proof.
  unfold is_u16, cfg_in_range. intros Hv Hc.
  unfold shs_cfg_write.
  destruct (id =? SHS_ATTR_MOVEMENT_COOLDOWN).
  { rewrite clamp_hi_min. unfold SHS_COOLDOWN_MAX_SEC. act_unfold. simpl.
    destruct (Z.min v 300 =? 0); [simpl; lia|].
    destruct (_ && _); simpl; lia. }
  destruct (id =? SHS_ATTR_OCC_CLEAR_COOLDOWN).
  { act_unfold. simpl. destruct (negb (shs_zb_ready g)); simpl; lia. }
  destruct (id =? SHS_ATTR_MOVING_SENS_0_10).
  { rewrite clamp_hi_min. act_unfold. simpl.
    rewrite u8_small by lia. lia. }
  destruct (id =? SHS_ATTR_STATIC_SENS_0_10).
  { rewrite clamp_hi_min. act_unfold. simpl.
    rewrite u8_small by lia. lia. }
  destruct (id =? SHS_ATTR_MOVING_MAX_GATE).
  { rewrite clamp_hi_min. act_unfold. simpl. lia. }
  destruct (id =? SHS_ATTR_STATIC_MAX_GATE).
  { rewrite clamp_lo_hi by lia. act_unfold. simpl. lia. }
  act_unfold. simpl. lia.
Qed.

(** *** The load *)

Lemma sync_fields c :
  let c' := shs_cfg_sync_sens_proxies c in
  shs_movement_cooldown_sec c' = shs_movement_cooldown_sec c /\
  shs_occupancy_clear_sec c' = shs_occupancy_clear_sec c /\
  shs_moving_sens_0_100 c' = shs_moving_sens_0_100 c /\
  shs_static_sens_0_100 c' = shs_static_sens_0_100 c /\
  shs_moving_max_gate c' = shs_moving_max_gate c /\
  shs_static_max_gate c' = shs_static_max_gate c /\
  shs_sens_mv_0_10 c' = Z.min (u16 ((shs_moving_sens_0_100 c + 5) / 10)) 10 /\
  shs_sens_st_0_10 c' = Z.min (u16 ((shs_static_sens_0_100 c + 5) / 10)) 10.
Proof.
  unfold shs_cfg_sync_sens_proxies. simpl.
  rewrite <- !clamp_hi_min.
  destruct (u16 ((shs_moving_sens_0_100 c + 5) / 10) >? 10); simpl;
    destruct (u16 ((shs_static_sens_0_100 c + 5) / 10) >? 10); simpl;
    repeat split; reflexivity.
Qed.

(** Rounding to the nearest ten: for a primary value in 0..100 the proxy is
    the nearest integer to a tenth of it, halves going up. *)
Lemma round_tenth p :
  0 <= p <= 100 ->
  let q := Z.min (u16 ((p + 5) / 10)) 10 in
  q = (p + 5) / 10 /\ 10 * q - 5 <= p < 10 * q + 5 /\ 0 <= q <= 10.
Proof.
  intros Hp.
  assert (H0 : 0 <= (p + 5) / 10 <= 10).
  { split; [apply Z.div_pos; lia|].
    assert ((p + 5) / 10 < 11) by (apply Z.div_lt_upper_bound; lia). lia. }
  cbv zeta. rewrite u16_small by lia.
  assert (DM : p + 5 = 10 * ((p + 5) / 10) + (p + 5) mod 10)
    by (apply Z.div_mod; lia).
  assert (MB : 0 <= (p + 5) mod 10 < 10) by (apply Z.mod_pos_bound; lia).
  rewrite Z.min_l by lia. lia.
Qed.

(** What the load leaves in each variable. *)
Lemma load_fields h c :
  let c' := shs_cfg_load_from_nvs (Some h) c in
  shs_movement_cooldown_sec c'
    = match nvs_get_u16 h SHS_NVS_KEY_MV_CD with
      | Some x => Z.min x 300 | None => shs_movement_cooldown_sec c end /\
  shs_occupancy_clear_sec c'
    = match nvs_get_u16 h SHS_NVS_KEY_OCC_CD with
      | Some x => x | None => shs_occupancy_clear_sec c end /\
  shs_moving_sens_0_100 c'
    = match nvs_get_u8 h SHS_NVS_KEY_MV_SENS with
      | Some x => Z.min x 100 | None => shs_moving_sens_0_100 c end /\
  shs_static_sens_0_100 c'
    = match nvs_get_u8 h SHS_NVS_KEY_ST_SENS with
      | Some x => Z.min x 100 | None => shs_static_sens_0_100 c end /\
  shs_moving_max_gate c'
    = match nvs_get_u8 h SHS_NVS_KEY_MV_GATE with
      | Some x => Z.min x 8 | None => shs_moving_max_gate c end /\
  shs_static_max_gate c'
    = match nvs_get_u8 h SHS_NVS_KEY_ST_GATE with
      | Some x => Z.max 2 (Z.min x 8) | None => shs_static_max_gate c end /\
  shs_sens_mv_0_10 c' = Z.min (u16 ((shs_moving_sens_0_100 c' + 5) / 10)) 10 /\
  shs_sens_st_0_10 c' = Z.min (u16 ((shs_static_sens_0_100 c' + 5) / 10)) 10.
Proof.
  unfold shs_cfg_load_from_nvs.
  match goal with |- context [shs_cfg_sync_sens_proxies ?x] =>
    pose proof (sync_fields x) as S; cbv zeta in S; cbv zeta;
    destruct S as (S1 & S2 & S3 & S4 & S5 & S6 & S7 & S8);
    rewrite S1, S2, S3, S4, S5, S6, S7, S8; clear S1 S2 S3 S4 S5 S6 S7 S8
  end.
  unfold SHS_COOLDOWN_MAX_SEC.
  destruct (nvs_get_u16 h SHS_NVS_KEY_MV_CD);
  destruct (nvs_get_u16 h SHS_NVS_KEY_OCC_CD);
  destruct (nvs_get_u8 h SHS_NVS_KEY_MV_SENS);
  destruct (nvs_get_u8 h SHS_NVS_KEY_ST_SENS);
  destruct (nvs_get_u8 h SHS_NVS_KEY_MV_GATE);
  destruct (nvs_get_u8 h SHS_NVS_KEY_ST_GATE);
  simpl; rewrite ?clamp_lo_hi by lia; rewrite ?clamp_hi_min;
  repeat split; reflexivity.
Qed.

Lemma nvs_get_u16_typed h key x :
  nvs_well_typed h -> nvs_get_u16 h key = Some x -> is_u16 x.
Proof.
  intros W E. specialize (W key). unfold nvs_get_u16 in E.
  destruct (h key) as [[v|v]|]; try discriminate. congruence.
Qed.

Lemma nvs_get_u8_typed h key x :
  nvs_well_typed h -> nvs_get_u8 h key = Some x -> is_u8 x.
Proof.
  intros W E. specialize (W key). unfold nvs_get_u8 in E.
  destruct (h key) as [[v|v]|]; try discriminate. congruence.
Qed.

(** The load leaves every field in its range. *)
Lemma load_in_range nvs c :
  match nvs with Some h => nvs_well_typed h | None => True end ->
  cfg_in_range c -> cfg_in_range (shs_cfg_load_from_nvs nvs c).
Proof.
  destruct nvs as [h|]; [|intros _ H; exact H].
  intros W Hc. pose proof (load_fields h c) as L. cbv zeta in L.
  destruct L as (L1 & L2 & L3 & L4 & L5 & L6 & L7 & L8).
  unfold cfg_in_range in *.
  assert (R3 : 0 <= shs_moving_sens_0_100 (shs_cfg_load_from_nvs (Some h) c) <= 100).
  { rewrite L3. destruct (nvs_get_u8 h SHS_NVS_KEY_MV_SENS) eqn:E; [|lia].
    apply (nvs_get_u8_typed _ _ _ W) in E. unfold is_u8 in E. lia. }
  assert (R4 : 0 <= shs_static_sens_0_100 (shs_cfg_load_from_nvs (Some h) c) <= 100).
  { rewrite L4. destruct (nvs_get_u8 h SHS_NVS_KEY_ST_SENS) eqn:E; [|lia].
    apply (nvs_get_u8_typed _ _ _ W) in E. unfold is_u8 in E. lia. }
  pose proof (round_tenth _ R3) as Q3. pose proof (round_tenth _ R4) as Q4.
  cbv zeta in Q3, Q4. rewrite <- L7 in Q3. rewrite <- L8 in Q4.
  repeat split; try lia.
  - rewrite L1. destruct (nvs_get_u16 h SHS_NVS_KEY_MV_CD) eqn:E; [|lia].
    apply (nvs_get_u16_typed _ _ _ W) in E. unfold is_u16 in E. lia.
  - rewrite L1. destruct (nvs_get_u16 h SHS_NVS_KEY_MV_CD) eqn:E; lia.
  - rewrite L2. destruct (nvs_get_u16 h SHS_NVS_KEY_OCC_CD) eqn:E; [|lia].
    apply (nvs_get_u16_typed _ _ _ W) in E. unfold is_u16 in E. lia.
  - rewrite L2. destruct (nvs_get_u16 h SHS_NVS_KEY_OCC_CD) eqn:E; [|lia].
    apply (nvs_get_u16_typed _ _ _ W) in E. unfold is_u16 in E. lia.
  - rewrite L5. destruct (nvs_get_u8 h SHS_NVS_KEY_MV_GATE) eqn:E; [|lia].
    apply (nvs_get_u8_typed _ _ _ W) in E. unfold is_u8 in E. lia.
  - rewrite L5. destruct (nvs_get_u8 h SHS_NVS_KEY_MV_GATE) eqn:E; lia.
  - rewrite L6. destruct (nvs_get_u8 h SHS_NVS_KEY_ST_GATE) eqn:E; lia.
  - rewrite L6. destruct (nvs_get_u8 h SHS_NVS_KEY_ST_GATE) eqn:E; lia.
Qed.

Lemma nvs_get_u8_put h key v : nvs_get_u8 (nvs_put h key (NvsU8 v)) key = Some v.
Proof. unfold nvs_get_u8, nvs_put. rewrite String.eqb_refl. reflexivity. Qed.

Lemma nvs_get_u16_put h key v : nvs_get_u16 (nvs_put h key (NvsU16 v)) key = Some v.
Proof. unfold nvs_get_u16, nvs_put. rewrite String.eqb_refl. reflexivity. Qed.

(** C7: every configuration write clamps to the field's range before it
    stores.  For a 16-bit value [v] written through the attribute handler the
    stored value is [v] cut to the range of the field, and the whole record
    stays in range; the load from a well-typed durable store cuts each stored
    value the same way and leaves the record in range.  In particular a static
    max gate write of 0 or 1 stores 2 and of 9 stores 8, a moving max gate
    write of 9 stores 8, an occupancy-clear write of 400 stores 400 and a
    movement-cooldown write of 400 stores 300. *)
Theorem config_writes_clamp (v now : Z) (g : shs_globals) (h : nvs_handle) :
  is_u16 v -> nvs_well_typed h -> cfg_in_range (g_cfg g) ->
  (shs_movement_cooldown_sec (cfg_after_write SHS_ATTR_MOVEMENT_COOLDOWN v now g)
     = Z.min v 300 /\
   shs_occupancy_clear_sec (cfg_after_write SHS_ATTR_OCC_CLEAR_COOLDOWN v now g)
     = v /\
   shs_sens_mv_0_10 (cfg_after_write SHS_ATTR_MOVING_SENS_0_10 v now g)
     = Z.min v 10 /\
   shs_moving_sens_0_100 (cfg_after_write SHS_ATTR_MOVING_SENS_0_10 v now g)
     = Z.min v 10 * 10 /\
   shs_sens_st_0_10 (cfg_after_write SHS_ATTR_STATIC_SENS_0_10 v now g)
     = Z.min v 10 /\
   shs_static_sens_0_100 (cfg_after_write SHS_ATTR_STATIC_SENS_0_10 v now g)
     = Z.min v 10 * 10 /\
   shs_moving_max_gate (cfg_after_write SHS_ATTR_MOVING_MAX_GATE v now g)
     = Z.min v 8 /\
   shs_static_max_gate (cfg_after_write SHS_ATTR_STATIC_MAX_GATE v now g)
     = Z.max 2 (Z.min v 8)) /\
  (forall id, cfg_in_range (cfg_after_write id v now g)) /\
  (shs_movement_cooldown_sec
     (shs_cfg_load_from_nvs (Some (nvs_put h SHS_NVS_KEY_MV_CD (NvsU16 v))) (g_cfg g))
     = Z.min v 300 /\
   shs_occupancy_clear_sec
     (shs_cfg_load_from_nvs (Some (nvs_put h SHS_NVS_KEY_OCC_CD (NvsU16 v))) (g_cfg g))
     = v /\
   shs_moving_sens_0_100
     (shs_cfg_load_from_nvs (Some (nvs_put h SHS_NVS_KEY_MV_SENS (NvsU8 (u8 v)))) (g_cfg g))
     = Z.min (u8 v) 100 /\
   shs_static_sens_0_100
     (shs_cfg_load_from_nvs (Some (nvs_put h SHS_NVS_KEY_ST_SENS (NvsU8 (u8 v)))) (g_cfg g))
     = Z.min (u8 v) 100 /\
   shs_moving_max_gate
     (shs_cfg_load_from_nvs (Some (nvs_put h SHS_NVS_KEY_MV_GATE (NvsU8 (u8 v)))) (g_cfg g))
     = Z.min (u8 v) 8 /\
   shs_static_max_gate
     (shs_cfg_load_from_nvs (Some (nvs_put h SHS_NVS_KEY_ST_GATE (NvsU8 (u8 v)))) (g_cfg g))
     = Z.max 2 (Z.min (u8 v) 8)) /\
  cfg_in_range (shs_cfg_load_from_nvs (Some h) (g_cfg g)) /\
  cfg_in_range (shs_cfg_load_from_nvs None (g_cfg g)) /\
  (shs_static_max_gate (cfg_after_write SHS_ATTR_STATIC_MAX_GATE 0 now g) = 2 /\
   shs_static_max_gate (cfg_after_write SHS_ATTR_STATIC_MAX_GATE 1 now g) = 2 /\
   shs_static_max_gate (cfg_after_write SHS_ATTR_STATIC_MAX_GATE 9 now g) = 8 /\
   shs_moving_max_gate (cfg_after_write SHS_ATTR_MOVING_MAX_GATE 9 now g) = 8 /\
   shs_occupancy_clear_sec (cfg_after_write SHS_ATTR_OCC_CLEAR_COOLDOWN 400 now g)
     = 400 /\
   shs_movement_cooldown_sec (cfg_after_write SHS_ATTR_MOVEMENT_COOLDOWN 400 now g)
     = 300).
Proof.
  intros Hv W Hc.
  split; [|split; [|split; [|split; [|split]]]].
  - pose proof (cfg_after_write_mv_sens v now g) as M.
    pose proof (cfg_after_write_st_sens v now g) as S.
    unfold is_u16 in Hv. cbv zeta in M, S.
    destruct M as [M1 M2]; [lia|]. destruct S as [S1 S2]; [lia|].
    repeat split; try assumption.
    + apply cfg_after_write_cooldown.
    + apply cfg_after_write_occ_clear.
    + apply cfg_after_write_mv_gate.
    + apply cfg_after_write_st_gate.
  - intros id. unfold cfg_after_write. rewrite handler_cfg_write.
    apply cfg_write_in_range; assumption.
  - repeat split.
    + pose proof (load_fields (nvs_put h SHS_NVS_KEY_MV_CD (NvsU16 v)) (g_cfg g)) as L.
      cbv zeta in L. destruct L as (L & _). rewrite L, nvs_get_u16_put. reflexivity.
    + pose proof (load_fields (nvs_put h SHS_NVS_KEY_OCC_CD (NvsU16 v)) (g_cfg g)) as L.
      cbv zeta in L. destruct L as (_ & L & _). rewrite L, nvs_get_u16_put. reflexivity.
    + pose proof (load_fields (nvs_put h SHS_NVS_KEY_MV_SENS (NvsU8 (u8 v))) (g_cfg g)) as L.
      cbv zeta in L. destruct L as (_ & _ & L & _). rewrite L, nvs_get_u8_put. reflexivity.
    + pose proof (load_fields (nvs_put h SHS_NVS_KEY_ST_SENS (NvsU8 (u8 v))) (g_cfg g)) as L.
      cbv zeta in L. destruct L as (_ & _ & _ & L & _). rewrite L, nvs_get_u8_put. reflexivity.
    + pose proof (load_fields (nvs_put h SHS_NVS_KEY_MV_GATE (NvsU8 (u8 v))) (g_cfg g)) as L.
      cbv zeta in L. destruct L as (_ & _ & _ & _ & L & _). rewrite L, nvs_get_u8_put. reflexivity.
    + pose proof (load_fields (nvs_put h SHS_NVS_KEY_ST_GATE (NvsU8 (u8 v))) (g_cfg g)) as L.
      cbv zeta in L. destruct L as (_ & _ & _ & _ & _ & L & _). rewrite L, nvs_get_u8_put. reflexivity.
  - apply (load_in_range (Some h)); assumption.
  - apply (load_in_range None); [exact I | assumption].
  - rewrite !cfg_after_write_st_gate, cfg_after_write_mv_gate,
      cfg_after_write_occ_clear, cfg_after_write_cooldown.
    repeat split; reflexivity.
Qed.

Lemma nvs_example_well_typed : nvs_well_typed nvs_example.
Proof.
  intros key. unfold nvs_example, nvs_put, nvs_empty.
  destruct (String.eqb key SHS_NVS_KEY_MV_CD); [unfold is_u16; lia|].
  destruct (String.eqb key SHS_NVS_KEY_ST_GATE); [unfold is_u8; lia | exact I].
Defined.

(** The clamps at a write of 400 and a load of the example store. *)
Lemma config_writes_clamp_witness :
  is_u16 400 /\ nvs_well_typed nvs_example /\
  cfg_in_range (g_cfg shs_globals_init) /\
  cfg_in_range (shs_cfg_load_from_nvs (Some nvs_example) (g_cfg shs_globals_init)).
Proof.
  assert (H1 : is_u16 400) by (unfold is_u16; lia).
  assert (H3 : cfg_in_range (g_cfg shs_globals_init))
    by (unfold cfg_in_range; simpl; lia).
  split; [exact H1|]. split; [exact nvs_example_well_typed|].
  split; [exact H3|].
  exact (proj1 (proj2 (proj2 (proj2
    (config_writes_clamp 400 0 shs_globals_init nvs_example
       H1 nvs_example_well_typed H3))))).
Defined.

(** C8: the two sensitivity representations stay consistent under both
    write paths.  For [p] in 0..100, setting the primary value to [p] (the
    load of a store holding [p]) leaves the primary at [p] and the proxy at
    [p/10] rounded to the nearest integer, at most 10; for [q] in 0..10,
    setting the proxy to [q] (the attribute write) leaves the proxy at [q]
    and the primary at [q*10].  Both variables are assigned by either write,
    for the moving and for the static sensitivity. *)
Theorem sens_proxy_consistent (p q now : Z) (g : shs_globals) (h : nvs_handle) :
  0 <= p <= 100 -> 0 <= q <= 10 ->
  (let c := shs_cfg_load_from_nvs
              (Some (nvs_put h SHS_NVS_KEY_MV_SENS (NvsU8 p))) (g_cfg g) in
   shs_moving_sens_0_100 c = p /\
   shs_sens_mv_0_10 c = (p + 5) / 10 /\
   10 * shs_sens_mv_0_10 c - 5 <= p < 10 * shs_sens_mv_0_10 c + 5 /\
   0 <= shs_sens_mv_0_10 c <= 10) /\
  (let c := shs_cfg_load_from_nvs
              (Some (nvs_put h SHS_NVS_KEY_ST_SENS (NvsU8 p))) (g_cfg g) in
   shs_static_sens_0_100 c = p /\
   shs_sens_st_0_10 c = (p + 5) / 10 /\
   10 * shs_sens_st_0_10 c - 5 <= p < 10 * shs_sens_st_0_10 c + 5 /\
   0 <= shs_sens_st_0_10 c <= 10) /\
  (let c := cfg_after_write SHS_ATTR_MOVING_SENS_0_10 q now g in
   shs_sens_mv_0_10 c = q /\ shs_moving_sens_0_100 c = q * 10) /\
  (let c := cfg_after_write SHS_ATTR_STATIC_SENS_0_10 q now g in
   shs_sens_st_0_10 c = q /\ shs_static_sens_0_100 c = q * 10).
Proof.
  intros Hp Hq. pose proof (round_tenth p Hp) as R. cbv zeta in R.
  destruct R as (R1 & R2 & R3).
  split; [|split; [|split]]; cbv zeta.
  - pose proof (load_fields (nvs_put h SHS_NVS_KEY_MV_SENS (NvsU8 p)) (g_cfg g)) as L.
    cbv zeta in L. destruct L as (_ & _ & L3 & _ & _ & _ & L7 & _).
    rewrite nvs_get_u8_put in L3. rewrite Z.min_l in L3 by lia.
    rewrite L3 in L7. rewrite L7, L3. rewrite R1 in *. repeat split; lia.
  - pose proof (load_fields (nvs_put h SHS_NVS_KEY_ST_SENS (NvsU8 p)) (g_cfg g)) as L.
    cbv zeta in L. destruct L as (_ & _ & _ & L4 & _ & _ & _ & L8).
    rewrite nvs_get_u8_put in L4. rewrite Z.min_l in L4 by lia.
    rewrite L4 in L8. rewrite L8, L4. rewrite R1 in *. repeat split; lia.
  - pose proof (cfg_after_write_mv_sens q now g) as M. cbv zeta in M.
    destruct M as [M1 M2]; [lia|]. rewrite M1, M2. rewrite Z.min_l by lia.
    split; reflexivity.
  - pose proof (cfg_after_write_st_sens q now g) as M. cbv zeta in M.
    destruct M as [M1 M2]; [lia|]. rewrite M1, M2. rewrite Z.min_l by lia.
    split; reflexivity.
Qed.

(** Primary 47 gives proxy 5; proxy 7 gives primary 70. *)
Lemma sens_proxy_consistent_witness :
  shs_sens_mv_0_10
    (shs_cfg_load_from_nvs (Some (nvs_put nvs_empty SHS_NVS_KEY_MV_SENS (NvsU8 47)))
       (g_cfg shs_globals_init)) = 5 /\
  shs_moving_sens_0_100
    (cfg_after_write SHS_ATTR_MOVING_SENS_0_10 7 0 shs_globals_init) = 70.
Proof.
  assert (Hp : 0 <= 47 <= 100) by lia.
  assert (Hq : 0 <= 7 <= 10) by lia.
  pose proof (sens_proxy_consistent 47 7 0 shs_globals_init nvs_empty Hp Hq) as T.
  cbv zeta in T.
  destruct T as ((_ & T1 & _) & _ & (_ & T3) & _).
  split; [exact T1 | exact T3].
Defined.

(** ** Presence state machine *)

(** Case analysis on everything a run of the state machine tests. *)
Ltac presence_crush :=
  unfold shs_process_sensor_state, shs_mv_cooldown_tick;
  act_unfold; simpl;
  repeat match goal with
         | |- context [if ?b then _ else _] =>
           match b with
           | context [if _ then _ else _] => fail 1
           | _ => destruct b eqn:?; simpl in *
           end
         end.

Lemma cooldown_ms_small c :
  0 <= c <= 300 -> u32 (c * 1000) = c * 1000.
Proof. intros H. apply u32_small. lia. Qed.

(** The tick does nothing without a cooldown or without a running timer. *)
Lemma tick_idle t g :
  shs_movement_cooldown_sec (g_cfg g) = 0 \/
  shs_mv_cooldown_active (g_cd g) = false ->
  shs_mv_cooldown_tick t g = (g, []).
Proof.
  intros H. unfold shs_mv_cooldown_tick, reading.
  destruct H as [H | H]; rewrite H; simpl.
  - reflexivity.
  - rewrite orb_true_r. reflexivity.
Qed.

(** Sensor states and ticks leave the configuration and the ready flag. *)
Lemma tick_keeps_cfg t g :
  g_cfg (fst (shs_mv_cooldown_tick t g)) = g_cfg g /\
  shs_zb_ready (fst (shs_mv_cooldown_tick t g)) = shs_zb_ready g.
Proof. destruct g as [c [m s o] [a d l] r sq]. presence_crush; split; reflexivity. Qed.

Lemma process_keeps_cfg b now g :
  g_cfg (fst (shs_process_sensor_state b now g)) = g_cfg g /\
  shs_zb_ready (fst (shs_process_sensor_state b now g)) = shs_zb_ready g.
Proof. destruct g as [c [m s o] [a d l] r sq]. presence_crush; split; reflexivity. Qed.

(** What a sensor state leaves in the variables that track the raw bits. *)
Lemma process_raw_tracking b now g :
  let g' := fst (shs_process_sensor_state b now g) in
  shs_static_state (g_pub g') = raw_static b /\
  shs_occupancy_state (g_pub g') = negb (Z.land b 0x03 =? 0) /\
  shs_last_moving_sample (g_cd g') = raw_moving b.
Proof.
  destruct g as [c [m s o] [a d l] r sq]. unfold raw_static, raw_moving.
  presence_crush; repeat split;
    repeat match goal with
           | H : negb (Bool.eqb _ _) = false |- _ =>
             apply negb_false_iff, Bool.eqb_prop in H
           end; congruence.
Qed.

(** Without a cooldown the moving flag follows the raw bit and the timer
    variables stay. *)
Lemma process_direct b now g :
  shs_movement_cooldown_sec (g_cfg g) = 0 ->
  let g' := fst (shs_process_sensor_state b now g) in
  shs_moving_state (g_pub g') = raw_moving b /\
  shs_mv_cooldown_active (g_cd g') = shs_mv_cooldown_active (g_cd g) /\
  shs_mv_cooldown_deadline_ms (g_cd g') = shs_mv_cooldown_deadline_ms (g_cd g).
Proof.
  destruct g as [c [m s o] [a d l] r sq]. simpl. intros H. unfold raw_moving.
  unfold shs_process_sensor_state. act_unfold. simpl. rewrite H. simpl.
  repeat match goal with
         | |- context [if ?b then _ else _] =>
           match b with
           | context [if _ then _ else _] => fail 1
           | _ => destruct b eqn:?; simpl in *
           end
         end; repeat split;
    repeat match goal with
           | H : negb (Bool.eqb _ _) = false |- _ =>
             apply negb_false_iff, Bool.eqb_prop in H
           end; congruence.
Qed.

(** C6: a write of the cooldown from zero to a nonzero value, while moving
    is published and no timer runs, arms the timer with the deadline at
    [now] plus the (clamped) cooldown; a write of zero stops any timer, the
    next sample sets the published moving signal to its raw moving bit, and
    no tick holds it open any more. *)
Theorem cooldown_write_arms_and_cancels
  (g g' : shs_globals) (v now now0 b now' : Z) :
  is_u16 v -> v <> 0 ->
  shs_movement_cooldown_sec (g_cfg g) = 0 ->
  shs_moving_state (g_pub g) = true ->
  shs_mv_cooldown_active (g_cd g) = false ->
  (let g1 := fst (shs_zb_attribute_handler
                    (Some (cfg_write_msg SHS_ATTR_MOVEMENT_COOLDOWN v)) now g) in
   shs_movement_cooldown_sec (g_cfg g1) = Z.min v 300 /\
   shs_mv_cooldown_active (g_cd g1) = true /\
   shs_mv_cooldown_deadline_ms (g_cd g1) = u32 (now + Z.min v 300 * 1000) /\
   shs_moving_state (g_pub g1) = true) /\
  (let g0 := fst (shs_zb_attribute_handler
                    (Some (cfg_write_msg SHS_ATTR_MOVEMENT_COOLDOWN 0)) now0 g') in
   shs_movement_cooldown_sec (g_cfg g0) = 0 /\
   shs_mv_cooldown_active (g_cd g0) = false /\
   let g2 := fst (shs_process_sensor_state b now' g0) in
   shs_moving_state (g_pub g2) = raw_moving b /\
   shs_mv_cooldown_active (g_cd g2) = false /\
   forall t, shs_mv_cooldown_tick t g2 = (g2, [])).
Proof.
  intros Hv Hnz Hcd Hmv Hact. unfold is_u16 in Hv. split; cbv zeta.
  - rewrite handler_cfg_write. unfold shs_cfg_write.
    simpl (_ =? _). cbv iota. rewrite clamp_hi_min.
    unfold SHS_COOLDOWN_MAX_SEC. act_unfold. simpl.
    rewrite Hcd, Hmv, Hact. simpl.
    destruct (Z.min v 300 =? 0) eqn:E; [apply Z.eqb_eq in E; lia|].
    simpl. rewrite cooldown_ms_small by lia. repeat split; try reflexivity.
    exact Hmv.
  - rewrite handler_cfg_write.
    set (g0 := fst (shs_cfg_write SHS_ATTR_MOVEMENT_COOLDOWN 0 now0 g')).
    assert (C0 : shs_movement_cooldown_sec (g_cfg g0) = 0) by reflexivity.
    assert (A0 : shs_mv_cooldown_active (g_cd g0) = false) by reflexivity.
    split; [exact C0|]. split; [exact A0|].
    pose proof (process_direct b now' g0 C0) as P. cbv zeta in P.
    destruct P as (P1 & P2 & _).
    split; [exact P1|]. split; [congruence|].
    intros t. apply tick_idle. left.
    rewrite (proj1 (process_keeps_cfg b now' g0)). exact C0.
Qed.

(** A cooldown of 5 s written at 1000 ms while moving is published. *)
Lemma cooldown_write_arms_and_cancels_witness :
  let g := upd_pub (set_moving_state true) shs_globals_init in
  shs_mv_cooldown_deadline_ms
    (g_cd (fst (shs_zb_attribute_handler
                  (Some (cfg_write_msg SHS_ATTR_MOVEMENT_COOLDOWN 5)) 1000 g)))
  = 6000.
Proof.
  intros g.
  assert (H1 : is_u16 5) by (unfold is_u16; lia).
  assert (H2 : 5 <> 0) by lia.
  pose proof (cooldown_write_arms_and_cancels g g 5 1000 0 0 0 H1 H2
                eq_refl eq_refl eq_refl) as T.
  cbv zeta in T. destruct T as ((_ & _ & T & _) & _). exact T.
Defined.

(** *** Occupancy *)

Lemma presence_bits b :
  negb (Z.land b 0x03 =? 0) = raw_moving b || raw_static b.
Proof.
  unfold raw_moving, raw_static.
  replace 3 with (Z.lor 1 2) by reflexivity.
  rewrite Z.land_lor_distr_r.
  destruct (Z.land b 1 =? 0) eqn:E1; destruct (Z.land b 2 =? 0) eqn:E2; simpl;
    rewrite ?Z.eqb_eq, ?Z.eqb_neq in *.
  - apply negb_false_iff, Z.eqb_eq, Z.lor_eq_0_iff. split; assumption.
  - apply negb_true_iff, Z.eqb_neq. intros H. apply Z.lor_eq_0_iff in H. tauto.
  - apply negb_true_iff, Z.eqb_neq. intros H. apply Z.lor_eq_0_iff in H. tauto.
  - apply negb_true_iff, Z.eqb_neq. intros H. apply Z.lor_eq_0_iff in H. tauto.
Qed.

Lemma tick_keeps_raw t g :
  let g' := fst (shs_mv_cooldown_tick t g) in
  shs_static_state (g_pub g') = shs_static_state (g_pub g) /\
  shs_occupancy_state (g_pub g') = shs_occupancy_state (g_pub g) /\
  shs_last_moving_sample (g_cd g') = shs_last_moving_sample (g_cd g).
Proof. destruct g as [c [m s o] [a d l] r sq]. presence_crush; repeat split; reflexivity. Qed.

Lemma cfg_write_keeps_raw id v now g :
  let g' := fst (shs_cfg_write id v now g) in
  g_pub g' = g_pub g /\
  shs_last_moving_sample (g_cd g') = shs_last_moving_sample (g_cd g).
Proof.
  destruct g as [c [m s o] [a d l] r sq]. unfold shs_cfg_write.
  repeat match goal with
         | |- context [if ?i =? ?k then _ else _] => destruct (i =? k)
         end;
    act_unfold; simpl;
    repeat match goal with
           | |- context [if ?b then _ else _] => destruct b; simpl
           end; split; reflexivity.
Qed.

Lemma handler_keeps_raw m now g :
  let g' := fst (shs_zb_attribute_handler m now g) in
  g_pub g' = g_pub g /\
  shs_last_moving_sample (g_cd g') = shs_last_moving_sample (g_cd g).
Proof.
  destruct m as [m|]; [|split; reflexivity].
  unfold shs_zb_attribute_handler.
  destruct (_ && _); [split; reflexivity|].
  destruct (_ && _); [apply cfg_write_keeps_raw | split; reflexivity].
Qed.

Lemma step_keeps_occupancy_is_raw i g :
  occupancy_is_raw g -> occupancy_is_raw (fst (shs_step i g)).
Proof.
  unfold occupancy_is_raw. intros H.
  destruct i as [b now | now | m now |]; unfold shs_step.
  - pose proof (process_raw_tracking b now g) as P. cbv zeta in P.
    destruct P as (P1 & P2 & P3). rewrite P1, P2, P3. apply presence_bits.
  - pose proof (tick_keeps_raw now g) as P. cbv zeta in P.
    destruct P as (P1 & P2 & P3). rewrite P1, P2, P3. exact H.
  - pose proof (handler_keeps_raw (Some m) now g) as P. cbv zeta in P.
    destruct P as (P1 & P2). rewrite P1, P2. exact H.
  - exact H.
Qed.

Lemma run_cons i ins g :
  fst (shs_run (i :: ins) g) = fst (shs_run ins (fst (shs_step i g))).
Proof.
  simpl. unfold act_seq. destruct (shs_step i g) as [g1 e1]. simpl.
  destruct (shs_run ins g1). reflexivity.
Qed.

Lemma run_keeps_occupancy_is_raw ins g :
  occupancy_is_raw g -> occupancy_is_raw (fst (shs_run ins g)).
Proof.
  revert g. induction ins as [|i ins IH]; intros g H.
  - exact H.
  - rewrite run_cons. apply IH, step_keeps_occupancy_is_raw, H.
Qed.

Lemma after_occupancy_is_raw nvs q ins : occupancy_is_raw (shs_after nvs q ins).
Proof. apply run_keeps_occupancy_is_raw. reflexivity. Qed.

(** When the tick changes the moving flag it clears it, on a false sample. *)
Lemma tick_changes_moving t g :
  let g' := fst (shs_mv_cooldown_tick t g) in
  shs_moving_state (g_pub g') <> shs_moving_state (g_pub g) ->
  shs_moving_state (g_pub g') = false /\ shs_last_moving_sample (g_cd g) = false.
Proof.
  destruct g as [c [m s o] [a d l] r sq]. presence_crush; intros H;
    try (exfalso; apply H; reflexivity); split; try reflexivity;
    match goal with H : negb _ = true |- _ => apply negb_true_iff in H; exact H end.
Qed.

(** What [shs_process_sensor_state] stores as occupancy, in every state
    reached from boot: the raw moving bit or the raw static bit of the state
    byte, next to a static flag that is the raw static bit.  That is moving
    or static whenever the published moving flag agrees with the raw moving
    bit, as it always does when the cooldown is 0, and after a cooldown tick
    that changes the moving flag. *)
Theorem occupancy_tracks_raw_bits
  (nvs : option nvs_handle) (q : bool) (ins : list shs_input) (b now : Z) :
  let g := shs_after nvs q ins in
  let g' := fst (shs_process_sensor_state b now g) in
  shs_occupancy_state (g_pub g') = raw_moving b || raw_static b /\
  shs_static_state (g_pub g') = raw_static b /\
  (shs_moving_state (g_pub g') = raw_moving b ->
   shs_occupancy_state (g_pub g')
   = shs_moving_state (g_pub g') || shs_static_state (g_pub g')) /\
  (shs_movement_cooldown_sec (g_cfg g) = 0 ->
   shs_occupancy_state (g_pub g')
   = shs_moving_state (g_pub g') || shs_static_state (g_pub g')) /\
  (forall t, let g'' := fst (shs_mv_cooldown_tick t g) in
     shs_moving_state (g_pub g'') <> shs_moving_state (g_pub g) ->
     shs_occupancy_state (g_pub g'')
     = shs_moving_state (g_pub g'') || shs_static_state (g_pub g'')).
Proof.
  intros g g'.
  pose proof (process_raw_tracking b now g) as P. cbv zeta in P.
  destruct P as (P1 & P2 & P3). fold g' in P1, P2, P3.
  rewrite presence_bits in P2.
  split; [exact P2|]. split; [exact P1|]. split; [|split].
  - intros E. rewrite E, P1. exact P2.
  - intros C. pose proof (process_direct b now g C) as D. cbv zeta in D.
    destruct D as (D & _). fold g' in D. rewrite D, P1. exact P2.
  - intros t g'' Hch.
    pose proof (tick_changes_moving t g Hch) as (M & L).
    pose proof (tick_keeps_raw t g) as K. cbv zeta in K.
    destruct K as (K1 & K2 & _). fold g'' in M, K1, K2.
    rewrite M, K1, K2. simpl.
    pose proof (after_occupancy_is_raw nvs q ins) as R. unfold occupancy_is_raw in R.
    fold g in R. rewrite R, L. reflexivity.
Qed.

(** C1, where the code departs from it: the cooldown is set to 5 s, a state
    byte 1 comes at 0 ms and a state byte 0 at 1000 ms.  The cooldown holds
    moving, and the occupancy, stored from the raw byte, is cleared: moving
    is published and occupancy is not, against the declaration of
    [shs_occupancy_state] as moving or static.  On the path of the same
    function for a cooldown of 0 the same two bytes leave occupancy equal to
    moving or static, after the first and after the second. *)
Theorem occupancy_not_moving_or_static :
  let g := shs_after None true
             [InAttrWrite (cfg_write_msg SHS_ATTR_MOVEMENT_COOLDOWN 5) 0;
              InSensorState 1 0; InSensorState 0 1000] in
  let g1 := shs_after None true [InSensorState 1 0] in
  let g2 := shs_after None true [InSensorState 1 0; InSensorState 0 1000] in
  (shs_moving_state (g_pub g) = true /\
   shs_static_state (g_pub g) = false /\
   shs_occupancy_state (g_pub g) = false /\
   shs_occupancy_state (g_pub g)
   <> shs_moving_state (g_pub g) || shs_static_state (g_pub g)) /\
  (shs_moving_state (g_pub g1) = true /\
   shs_occupancy_state (g_pub g1)
   = shs_moving_state (g_pub g1) || shs_static_state (g_pub g1)) /\
  (shs_moving_state (g_pub g2) = false /\
   shs_occupancy_state (g_pub g2)
   = shs_moving_state (g_pub g2) || shs_static_state (g_pub g2)).
Proof. vm_compute. repeat split; try reflexivity. discriminate. Qed.

(** The tick that ends a cooldown, reached from boot. *)
Lemma occupancy_tracks_raw_bits_witness :
  let g := shs_after None true
             [InAttrWrite (cfg_write_msg SHS_ATTR_MOVEMENT_COOLDOWN 5) 0;
              InSensorState 1 0; InSensorState 0 1000] in
  let g'' := fst (shs_mv_cooldown_tick 5000 g) in
  shs_moving_state (g_pub g'') <> shs_moving_state (g_pub g) /\
  shs_occupancy_state (g_pub g'')
  = shs_moving_state (g_pub g'') || shs_static_state (g_pub g'').
Proof.
  intros g g''.
  assert (H : shs_moving_state (g_pub g'') <> shs_moving_state (g_pub g))
    by (vm_compute; discriminate).
  split; [exact H|].
  exact (proj2 (proj2 (proj2 (proj2
    (occupancy_tracks_raw_bits None true
       [InAttrWrite (cfg_write_msg SHS_ATTR_MOVEMENT_COOLDOWN 5) 0;
        InSensorState 1 0; InSensorState 0 1000] 0 0)))) 5000 H).
Defined.

(** *** Cooldown *)

Lemma not_reached_before t t0 d :
  0 < d <= 2147483648 -> u32 (t - t0) < d ->
  shs_time_reached t (u32 (t0 + d)) = false.
Proof.
  intros Hd H. rewrite shs_time_reached_spec. apply Z.ltb_ge.
  pose proof (u32_range (t - t0)) as R. unfold u32 in *.
  rewrite Zminus_mod_idemp_r.
  replace (t - (t0 + d)) with ((t - t0) - d) by lia.
  rewrite <- Zminus_mod_idemp_l.
  replace ((t - t0) mod 4294967296 - d)
    with (((t - t0) mod 4294967296 - d + 4294967296) + (-1) * 4294967296) by lia.
  rewrite Z.mod_add by lia. rewrite Z.mod_small by lia. lia.
Qed.

(** A running timer holds the moving flag through every sensor state and
    tick before its deadline. *)
Lemma hold_step i g c t0 :
  0 < c <= 300 ->
  shs_movement_cooldown_sec (g_cfg g) = c ->
  shs_moving_state (g_pub g) = true ->
  shs_mv_cooldown_active (g_cd g) = true ->
  shs_mv_cooldown_deadline_ms (g_cd g) = u32 (t0 + c * 1000) ->
  before_deadline t0 (c * 1000) i = true ->
  let g' := fst (shs_step i g) in
  shs_movement_cooldown_sec (g_cfg g') = c /\
  shs_moving_state (g_pub g') = true /\
  shs_mv_cooldown_active (g_cd g') = true /\
  shs_mv_cooldown_deadline_ms (g_cd g') = u32 (t0 + c * 1000).
Proof.
  intros Hc C M A D B.
  destruct g as [cf [m s o] [a d l] r sq]. simpl in C, M, A, D. subst m a d.
  assert (Z0 : (shs_movement_cooldown_sec cf =? 0) = false)
    by (apply Z.eqb_neq; lia).
  destruct i as [b t | t | msg t |]; simpl in B; try discriminate.
  - apply Z.ltb_lt in B.
    pose proof (not_reached_before t t0 (c * 1000) ltac:(lia) B) as N.
    unfold shs_step, shs_process_sensor_state, shs_mv_cooldown_tick.
    act_unfold. simpl. rewrite Z0. simpl. rewrite N. simpl.
    repeat match goal with
           | |- context [if ?x then _ else _] => destruct x; simpl
           end; repeat split; assumption || reflexivity.
  - apply Z.ltb_lt in B.
    pose proof (not_reached_before t t0 (c * 1000) ltac:(lia) B) as N.
    unfold shs_step, shs_mv_cooldown_tick.
    act_unfold. simpl. rewrite Z0. simpl. rewrite N. simpl.
    repeat split; assumption || reflexivity.
  - simpl. repeat split; assumption || reflexivity.
Qed.

Lemma hold_run ins g c t0 :
  0 < c <= 300 ->
  shs_movement_cooldown_sec (g_cfg g) = c ->
  shs_moving_state (g_pub g) = true ->
  shs_mv_cooldown_active (g_cd g) = true ->
  shs_mv_cooldown_deadline_ms (g_cd g) = u32 (t0 + c * 1000) ->
  forallb (before_deadline t0 (c * 1000)) ins = true ->
  let g' := fst (shs_run ins g) in
  shs_movement_cooldown_sec (g_cfg g') = c /\
  shs_moving_state (g_pub g') = true /\
  shs_mv_cooldown_active (g_cd g') = true /\
  shs_mv_cooldown_deadline_ms (g_cd g') = u32 (t0 + c * 1000).
Proof.
  intros Hc. revert g. induction ins as [|i ins IH]; intros g C M A D B.
  - simpl. repeat split; assumption.
  - simpl in B. apply andb_true_iff in B. destruct B as [B1 B2].
    cbv zeta. rewrite run_cons.
    pose proof (hold_step i g c t0 Hc C M A D B1) as S. cbv zeta in S.
    destruct S as (S1 & S2 & S3 & S4).
    apply IH; assumption.
Qed.

(** At or after the deadline the tick clears the flag on a false last
    sample and re-arms the timer on a true one. *)
Lemma tick_at_deadline t g c :
  0 < c <= 300 ->
  shs_movement_cooldown_sec (g_cfg g) = c ->
  shs_moving_state (g_pub g) = true ->
  shs_mv_cooldown_active (g_cd g) = true ->
  shs_time_reached t (shs_mv_cooldown_deadline_ms (g_cd g)) = true ->
  let g' := fst (shs_mv_cooldown_tick t g) in
  if shs_last_moving_sample (g_cd g)
  then shs_moving_state (g_pub g') = true /\
       shs_mv_cooldown_active (g_cd g') = true /\
       shs_mv_cooldown_deadline_ms (g_cd g') = u32 (t + c * 1000)
  else shs_moving_state (g_pub g') = false /\
       shs_mv_cooldown_active (g_cd g') = false.
Proof.
  intros Hc C M A R.
  destruct g as [cf [m s o] [a d l] r sq]. simpl in C, M, A, R. subst m a c.
  assert (Z0 : (shs_movement_cooldown_sec cf =? 0) = false)
    by (apply Z.eqb_neq; lia).
  unfold shs_mv_cooldown_tick. act_unfold. simpl. rewrite Z0, R. simpl.
  destruct l; simpl.
  - rewrite cooldown_ms_small by lia. repeat split; reflexivity.
  - destruct (negb r); simpl; split; reflexivity.
Qed.

Lemma process_at_deadline b t g c :
  0 < c <= 300 ->
  shs_movement_cooldown_sec (g_cfg g) = c ->
  shs_moving_state (g_pub g) = true ->
  shs_mv_cooldown_active (g_cd g) = true ->
  shs_time_reached t (shs_mv_cooldown_deadline_ms (g_cd g)) = true ->
  let g' := fst (shs_process_sensor_state b t g) in
  if raw_moving b
  then shs_moving_state (g_pub g') = true /\
       shs_mv_cooldown_active (g_cd g') = true /\
       shs_mv_cooldown_deadline_ms (g_cd g') = u32 (t + c * 1000)
  else shs_moving_state (g_pub g') = false /\
       shs_mv_cooldown_active (g_cd g') = false.
Proof.
  intros Hc C M A R.
  destruct g as [cf [m s o] [a d l] r sq]. simpl in C, M, A, R. subst m a c.
  assert (Z0 : (shs_movement_cooldown_sec cf =? 0) = false)
    by (apply Z.eqb_neq; lia).
  unfold raw_moving, shs_process_sensor_state, shs_mv_cooldown_tick.
  act_unfold. simpl. rewrite Z0. simpl. rewrite R. simpl.
  rewrite ?Z0. simpl.
  destruct (negb (Z.land b 1 =? 0)); simpl.
  - rewrite cooldown_ms_small by lia.
    repeat match goal with
           | |- context [if ?x then _ else _] => destruct x; simpl
           end; repeat split; reflexivity.
  - repeat match goal with
           | |- context [if ?x then _ else _] => destruct x; simpl
           end; repeat split; reflexivity.
Qed.

(** The rising edge publishes the flag and starts the timer. *)
Lemma process_rising_edge b t g c :
  0 < c <= 300 ->
  shs_movement_cooldown_sec (g_cfg g) = c ->
  shs_moving_state (g_pub g) = false ->
  shs_mv_cooldown_active (g_cd g) = false ->
  raw_moving b = true ->
  let g' := fst (shs_process_sensor_state b t g) in
  shs_movement_cooldown_sec (g_cfg g') = c /\
  shs_moving_state (g_pub g') = true /\
  shs_mv_cooldown_active (g_cd g') = true /\
  shs_mv_cooldown_deadline_ms (g_cd g') = u32 (t + c * 1000).
Proof.
  intros Hc C M A R.
  destruct g as [cf [m s o] [a d l] r sq]. simpl in C, M, A. subst m a c.
  assert (Z0 : (shs_movement_cooldown_sec cf =? 0) = false)
    by (apply Z.eqb_neq; lia).
  unfold raw_moving in R.
  unfold shs_process_sensor_state. act_unfold. simpl. rewrite Z0, R. simpl.
  rewrite cooldown_ms_small by lia.
  repeat match goal with
         | |- context [if ?x then _ else _] => destruct x; simpl
         end; repeat split; reflexivity.
Qed.

(** C2 (as the code has it): with the cooldown at 5 s, a rising moving
    sample at [t0] publishes moving and arms the deadline [t0 + 5000] ms;
    moving then stays published through every sensor state and tick that
    comes less than 5 s after the rising edge, whatever the samples report;
    the first tick or sensor state at or after the deadline clears moving when
    the latest raw sample is false, and otherwise keeps it and moves the
    deadline 5 s past that instant.  The hold is counted from the rising edge
    or the latest re-arming, not from the last positive sample. *)
Theorem cooldown_holds_from_rising_edge
  (g : shs_globals) (b t0 : Z) (ins : list shs_input) :
  shs_movement_cooldown_sec (g_cfg g) = 5 ->
  shs_moving_state (g_pub g) = false ->
  shs_mv_cooldown_active (g_cd g) = false ->
  raw_moving b = true ->
  forallb (before_deadline t0 5000) ins = true ->
  let g1 := fst (shs_process_sensor_state b t0 g) in
  let g2 := fst (shs_run ins g1) in
  (shs_moving_state (g_pub g1) = true /\
   shs_mv_cooldown_active (g_cd g1) = true /\
   shs_mv_cooldown_deadline_ms (g_cd g1) = u32 (t0 + 5000)) /\
  (shs_moving_state (g_pub g2) = true /\
   shs_mv_cooldown_active (g_cd g2) = true /\
   shs_mv_cooldown_deadline_ms (g_cd g2) = u32 (t0 + 5000)) /\
  (forall t, shs_time_reached t (u32 (t0 + 5000)) = true ->
     let g3 := fst (shs_mv_cooldown_tick t g2) in
     if shs_last_moving_sample (g_cd g2)
     then shs_moving_state (g_pub g3) = true /\
          shs_mv_cooldown_active (g_cd g3) = true /\
          shs_mv_cooldown_deadline_ms (g_cd g3) = u32 (t + 5000)
     else shs_moving_state (g_pub g3) = false /\
          shs_mv_cooldown_active (g_cd g3) = false) /\
  (forall t b', shs_time_reached t (u32 (t0 + 5000)) = true ->
     let g3 := fst (shs_process_sensor_state b' t g2) in
     if raw_moving b'
     then shs_moving_state (g_pub g3) = true /\
          shs_mv_cooldown_active (g_cd g3) = true /\
          shs_mv_cooldown_deadline_ms (g_cd g3) = u32 (t + 5000)
     else shs_moving_state (g_pub g3) = false /\
          shs_mv_cooldown_active (g_cd g3) = false).
Proof.
  intros C M A R B g1 g2.
  assert (Hc : 0 < 5 <= 300) by lia.
  pose proof (process_rising_edge b t0 g 5 Hc C M A R) as E. cbv zeta in E.
  fold g1 in E. destruct E as (E1 & E2 & E3 & E4).
  change (5 * 1000) with 5000 in E4.
  pose proof (hold_run ins g1 5 t0 Hc E1 E2 E3 E4 B) as H. cbv zeta in H.
  fold g2 in H. destruct H as (H1 & H2 & H3 & H4).
  change (5 * 1000) with 5000 in H4.
  split; [repeat split; assumption|]. split; [repeat split; assumption|]. split.
  - intros t T. rewrite <- H4 in T.
    exact (tick_at_deadline t g2 5 Hc H1 H2 H3 T).
  - intros t b' T. rewrite <- H4 in T.
    exact (process_at_deadline b' t g2 5 Hc H1 H2 H3 T).
Qed.

(** The run that C2 as stated excludes: cooldown 5 s, moving samples at 0 and
    at 4000 ms, a sample without motion at 5000 ms.  Moving is published at
    4000 ms and cleared at 5000 ms, 1 s after the last positive sample. *)
Lemma moving_cleared_one_second_after_last_positive :
  let run := [InAttrWrite (cfg_write_msg SHS_ATTR_MOVEMENT_COOLDOWN 5) 0;
              InSensorState 1 0; InSensorState 1 4000] in
  shs_moving_state (g_pub (shs_after None true run)) = true /\
  shs_last_moving_sample (g_cd (shs_after None true run)) = true /\
  shs_moving_state (g_pub (shs_after None true (run ++ [InSensorState 0 5000]))) = false /\
  5000 - 4000 < 5000.
Proof. vm_compute. repeat split; reflexivity. Qed.

(** A rising edge at 0, samples at 2000 and 4000 ms, the tick at 5000 ms. *)
Lemma cooldown_holds_from_rising_edge_witness :
  let g := fst (shs_zb_attribute_handler
                  (Some (cfg_write_msg SHS_ATTR_MOVEMENT_COOLDOWN 5)) 0
                  shs_globals_init) in
  let g2 := fst (shs_run [InSensorState 1 2000; InTick 2020; InSensorState 0 4000]
                   (fst (shs_process_sensor_state 1 0 g))) in
  shs_moving_state (g_pub g2) = true /\
  shs_moving_state (g_pub (fst (shs_mv_cooldown_tick 5000 g2))) = false.
Proof.
  intros g g2.
  pose proof (cooldown_holds_from_rising_edge g 1 0
                [InSensorState 1 2000; InTick 2020; InSensorState 0 4000]
                eq_refl eq_refl eq_refl eq_refl eq_refl) as T.
  cbv zeta in T. destruct T as (_ & (T2 & _) & T3 & _).
  split; [exact T2|].
  exact (proj1 (T3 5000 eq_refl)).
Defined.

(** ** Frame reassembly *)

Local Open Scope nat_scope.

(** *** The accumulator as its pending bytes *)

Lemma pending_length s : acc_wf s -> length (pending s) = acc_len s.
Proof.
  unfold acc_wf, pending. intros [L B].
  rewrite length_firstn, length_skipn. lia.
Qed.

Lemma rd_pending s k :
  acc_wf s -> k < acc_len s ->
  rd (acc s) (start s + k) = nth k (pending s) 0%Z.
Proof.
  intros _ H. unfold rd, pending. rewrite nth_firstn.
  apply Nat.ltb_lt in H. rewrite H. rewrite nth_skipn. reflexivity.
Qed.

Lemma hdr_at_pending s h :
  acc_wf s -> h + 4 <= acc_len s ->
  hdr_at (acc s) (start s + h) = hdr_at (pending s) h.
Proof.
  intros W H. unfold hdr_at.
  rewrite <- !Nat.add_assoc.
  rewrite !(rd_pending s) by (assumption || lia).
  unfold rd. reflexivity.
Qed.

Lemma tail_at_pending s h :
  acc_wf s -> h + 4 <= acc_len s ->
  tail_at (acc s) (start s + h) = tail_at (pending s) h.
Proof.
  intros W H. unfold tail_at.
  rewrite <- !Nat.add_assoc.
  rewrite !(rd_pending s) by (assumption || lia).
  unfold rd. reflexivity.
Qed.

(** Dropping [d] bytes: [start += d; acc_len -= d]. *)
Lemma pending_drop s d :
  d <= acc_len s ->
  pending {| acc := acc s; start := start s + d; acc_len := acc_len s - d |}
  = skipn d (pending s).
Proof.
  intros H. unfold pending. simpl.
  rewrite skipn_firstn_comm, skipn_skipn.
  rewrite (Nat.add_comm d). reflexivity.
Qed.

Lemma wf_drop s d :
  acc_wf s -> d <= acc_len s ->
  acc_wf {| acc := acc s; start := start s + d; acc_len := acc_len s - d |}.
Proof. unfold acc_wf. simpl. intros [L B] H. split; [exact L | lia]. Qed.

(** *** Appending a read *)

Lemma memmove_front_length a from n :
  from + n <= length a -> length (memmove_front a from n) = length a.
Proof.
  intros H. unfold memmove_front.
  rewrite length_app, length_firstn, !length_skipn. lia.
Qed.

Lemma memmove_front_window a from n :
  from + n <= length a ->
  firstn n (memmove_front a from n) = firstn n (skipn from a).
Proof.
  intros H. unfold memmove_front.
  rewrite firstn_app, length_firstn, length_skipn.
  replace (n - Nat.min n (length a - from)) with 0 by lia.
  simpl. rewrite app_nil_r. rewrite firstn_firstn.
  f_equal. lia.
Qed.

Lemma memcpy_at_length a off src n :
  off + n <= length a -> n <= length src ->
  length (memcpy_at a off src n) = length a.
Proof.
  intros H1 H2. unfold memcpy_at.
  rewrite !length_app, !length_firstn, length_skipn. lia.
Qed.

Lemma memcpy_at_window a st len src n :
  st + len + n <= length a -> n <= length src ->
  firstn (len + n) (skipn st (memcpy_at a (st + len) src n))
  = firstn len (skipn st a) ++ firstn n src.
Proof.
  intros H1 H2. unfold memcpy_at.
  rewrite skipn_app, length_firstn.
  replace (st - Nat.min (st + len) (length a)) with 0 by lia.
  simpl (skipn 0 _).
  rewrite skipn_firstn_comm.
  replace (st + len - st) with len by lia.
  rewrite firstn_app, length_firstn, length_skipn.
  replace (Nat.min len (length a - st)) with len by lia.
  replace (len + n - len) with n by lia.
  rewrite firstn_firstn.
  replace (Nat.min (len + n) len) with len by lia.
  f_equal.
  rewrite firstn_app, length_firstn.
  replace (n - Nat.min n (length src)) with 0 by lia.
  simpl. rewrite app_nil_r. rewrite firstn_firstn.
  f_equal. lia.
Qed.

(** The append keeps every pending byte, in place or moved to the front, and
    adds the new bytes as far as the array has room after them. *)
Lemma append_pending rxbuf s :
  acc_wf s ->
  let s1 := shs_acc_append rxbuf s in
  acc_wf s1 /\
  pending s1 = pending s ++ firstn (SHS_UART_ACC_BUF_SIZE - acc_len s) rxbuf /\
  start s1 = (if SHS_UART_ACC_BUF_SIZE <? start s + acc_len s + length rxbuf
              then 0 else start s).
Proof.
  unfold acc_wf, shs_acc_append, pending. intros [L B].
  generalize dependent SHS_UART_ACC_BUF_SIZE. intros N L B.
  destruct (N <? start s + acc_len s + length rxbuf) eqn:E1.
  - apply Nat.ltb_lt in E1. cbn [acc start acc_len].
    set (a := if 0 <? acc_len s
              then memmove_front (acc s) (start s) (acc_len s) else acc s).
    assert (L' : length a = N).
    { subst a. destruct (0 <? acc_len s);
        [rewrite memmove_front_length; lia | exact L]. }
    assert (Wd : firstn (acc_len s) a
                 = firstn (acc_len s) (skipn (start s) (acc s))).
    { subst a. destruct (0 <? acc_len s) eqn:E0.
      - apply memmove_front_window. lia.
      - apply Nat.ltb_ge in E0. replace (acc_len s) with 0 by lia. reflexivity. }
    rewrite !Nat.add_0_l.
    destruct (N <? acc_len s + length rxbuf) eqn:E2; cbn [acc start acc_len].
    + apply Nat.ltb_lt in E2.
      split; [split; [rewrite memcpy_at_length; lia | lia]|].
      split; [|reflexivity].
      pose proof (memcpy_at_window a 0 (acc_len s) rxbuf (N - acc_len s)
                    ltac:(lia) ltac:(lia)) as M.
      rewrite !Nat.add_0_l in M. rewrite M.
      change (skipn 0 a) with a. rewrite Wd. reflexivity.
    + apply Nat.ltb_ge in E2.
      split; [split; [rewrite memcpy_at_length; lia | lia]|].
      split; [|reflexivity].
      pose proof (memcpy_at_window a 0 (acc_len s) rxbuf (length rxbuf)
                    ltac:(lia) ltac:(lia)) as M.
      rewrite !Nat.add_0_l in M. rewrite M.
      change (skipn 0 a) with a. rewrite Wd.
      rewrite (firstn_all2 (n := N - acc_len s)) by lia.
      rewrite firstn_all. reflexivity.
  - rewrite E1. apply Nat.ltb_ge in E1. cbn [acc start acc_len].
    split; [split; [rewrite memcpy_at_length; lia | lia]|].
    split; [|reflexivity].
    rewrite memcpy_at_window by lia.
    rewrite (firstn_all2 (n := N - acc_len s)) by lia.
    rewrite firstn_all. reflexivity.
Qed.

Local Close Scope nat_scope.

Local Open Scope nat_scope.

(** *** The scan *)

Lemma scan_step fuel s :
  shs_scan (S fuel) s =
  if 9 <=? acc_len s then
    let h := find_hdr (acc_len s - 3) (acc s) (start s) 0 in
    if acc_len s <? h + 9 then Some (s, [])
    else if acc_len s <=? h then Some (s, [])
    else
      let (consumed, total) := frame_confirmed s h in
      let drop := if consumed then h + total else h + 9 in
      match shs_scan fuel {| acc := acc s; start := start s + drop;
                             acc_len := acc_len s - drop |} with
      | Some (s'', evs) => Some (s'', rd (acc s) (start s + h + 8) :: evs)
      | None => None
      end
  else Some (s, []).
Proof.
  cbn [shs_scan]. unfold SHS_LD2410_MIN_FRAME_BYTES.
  rewrite !Nat.sub_0_r. reflexivity.
Qed.

Lemma find_hdr_spec n a st h :
  let r := find_hdr n a st h in
  h <= r <= h + n /\
  (forall j, h <= j < r -> hdr_at a (st + j) = false) /\
  (r < h + n -> hdr_at a (st + r) = true).
Proof.
  revert h. induction n as [|n IH]; intros h; cbn [find_hdr].
  - split; [lia|]. split; [intros j Hj; lia | intros Hr; lia].
  - destruct (hdr_at a (st + h)) eqn:E.
    + split; [lia|]. split; [intros j Hj; lia | intros _; exact E].
    + specialize (IH (S h)). cbv zeta in IH. destruct IH as (I1 & I2 & I3).
      split; [lia|]. split.
      * intros j Hj. destruct (Nat.eq_dec j h) as [-> | Hne]; [exact E|].
        apply I2. lia.
      * intros Hr. apply I3. lia.
Qed.

Lemma frame_confirmed_true s h total :
  frame_confirmed s h = (true, total) -> 10 <= total /\ h + total <= acc_len s.
Proof.
  unfold frame_confirmed.
  destruct (10 <=? acc_len s - h); [|discriminate].
  match goal with |- context [h + ?t <=? acc_len s] => set (tt := t) end.
  destruct (h + tt <=? acc_len s) eqn:E; [|discriminate].
  apply Nat.leb_le in E. intros H. inversion H. subst total. subst tt. lia.
Qed.

(** A scan only moves [start] forward: the bytes it leaves are a tail of the
    bytes it found, every state byte it hands on costs at least nine bytes,
    and without one nothing is dropped. *)
Lemma scan_props fuel : forall s s' evs,
  acc_wf s -> shs_scan fuel s = Some (s', evs) ->
  acc_wf s' /\ acc s' = acc s /\
  exists n, start s' = start s + n /\ acc_len s' + n = acc_len s /\
            9 * length evs <= n /\ (evs = [] -> s' = s).
Proof.
  induction fuel as [|fuel IH]; intros s s' evs W H; [discriminate|].
  rewrite scan_step in H.
  destruct (9 <=? acc_len s) eqn:E9.
  2:{ inversion H; subst. split; [exact W|]. split; [reflexivity|].
      exists 0. simpl. repeat split; lia || reflexivity. }
  cbv zeta in H.
  set (h := find_hdr (acc_len s - 3) (acc s) (start s) 0) in *.
  destruct (acc_len s <? h + 9) eqn:E1.
  { inversion H; subst. split; [exact W|]. split; [reflexivity|].
    exists 0. simpl. repeat split; lia || reflexivity. }
  destruct (acc_len s <=? h) eqn:E2.
  { inversion H; subst. split; [exact W|]. split; [reflexivity|].
    exists 0. simpl. repeat split; lia || reflexivity. }
  apply Nat.ltb_ge in E1.
  destruct (frame_confirmed s h) as [consumed total] eqn:FC.
  set (drop := if consumed then h + total else h + 9) in *.
  assert (D : 9 <= drop <= acc_len s).
  { subst drop. destruct consumed.
    - apply frame_confirmed_true in FC. lia.
    - lia. }
  destruct (shs_scan fuel _) as [[s'' evs']|] eqn:R; [|discriminate].
  inversion H; subst s'' evs. clear H.
  apply IH in R; [|apply wf_drop; [exact W | lia]].
  cbn [acc start acc_len] in R.
  destruct R as (W' & A' & n & N1 & N2 & N3 & _).
  split; [exact W'|]. split; [exact A'|].
  exists (drop + n). cbn [length]. repeat split; try lia. discriminate.
Qed.

Lemma scan_pending fuel s s' evs :
  acc_wf s -> shs_scan fuel s = Some (s', evs) ->
  exists n, acc_len s' + n = acc_len s /\ pending s' = skipn n (pending s).
Proof.
  intros W H. destruct (scan_props fuel s s' evs W H)
    as (W' & A & n & N1 & N2 & _).
  exists n. split; [exact N2|].
  rewrite <- (pending_drop s n) by lia.
  unfold pending. cbn [acc start acc_len]. rewrite A, N1.
  f_equal. lia.
Qed.

(** The loop ends within [acc_len + 1] rounds. *)
Lemma scan_total fuel : forall s, acc_len s < fuel -> exists r, shs_scan fuel s = Some r.
Proof.
  induction fuel as [|fuel IH]; intros s H; [lia|].
  rewrite scan_step.
  destruct (9 <=? acc_len s) eqn:E9; [|eexists; reflexivity].
  apply Nat.leb_le in E9. cbv zeta.
  destruct (acc_len s <? _ + 9); [eexists; reflexivity|].
  destruct (acc_len s <=? _); [eexists; reflexivity|].
  destruct (frame_confirmed s _) as [consumed total] eqn:FC.
  match goal with |- context [shs_scan fuel ?x] =>
    destruct (IH x) as [[s'' evs] R]
  end.
  - cbn [acc_len]. destruct consumed; [|lia].
    apply frame_confirmed_true in FC. lia.
  - rewrite R. eexists; reflexivity.
Qed.

(** Without a header in the pending bytes the scan drops nothing. *)
Lemma scan_hdr_free fuel s :
  acc_wf s -> hdr_free (pending s) -> shs_scan (S fuel) s = Some (s, []).
Proof.
  intros W F. rewrite scan_step.
  destruct (9 <=? acc_len s) eqn:E9; [|reflexivity].
  apply Nat.leb_le in E9. cbv zeta.
  pose proof (find_hdr_spec (acc_len s - 3) (acc s) (start s) 0) as S.
  cbv zeta in S. destruct S as (S1 & _ & S3).
  set (h := find_hdr (acc_len s - 3) (acc s) (start s) 0) in *.
  assert (Hh : h = acc_len s - 3).
  { destruct (Nat.eq_dec h (acc_len s - 3)) as [E|E]; [exact E|].
    assert (Hlt : h < 0 + (acc_len s - 3)) by lia.
    specialize (S3 Hlt). rewrite hdr_at_pending in S3 by (assumption || lia).
    rewrite F in S3; [discriminate|].
    rewrite pending_length by assumption. lia. }
  destruct (acc_len s <? h + 9) eqn:E1; [reflexivity|].
  apply Nat.ltb_ge in E1. lia.
Qed.

Lemma hdr_freeb_spec l : hdr_freeb l = true -> hdr_free l.
Proof.
  unfold hdr_freeb, hdr_free. intros H j Hj.
  rewrite forallb_forall in H. apply negb_true_iff. apply H.
  apply in_seq. lia.
Qed.

Lemma hdr_free_firstn n l : hdr_free l -> hdr_free (firstn n l).
Proof.
  unfold hdr_free. intros F j Hj. rewrite length_firstn in Hj.
  specialize (F j ltac:(lia)). unfold hdr_at, rd in *.
  rewrite !nth_firstn.
  replace (j <? n) with true by (symmetry; apply Nat.ltb_lt; lia).
  replace (j + 1 <? n) with true by (symmetry; apply Nat.ltb_lt; lia).
  replace (j + 2 <? n) with true by (symmetry; apply Nat.ltb_lt; lia).
  replace (j + 3 <? n) with true by (symmetry; apply Nat.ltb_lt; lia).
  exact F.
Qed.

Local Close Scope nat_scope.

Local Open Scope nat_scope.

(** The candidate the code looks at, seen on the pending bytes. *)
Lemma frame_confirmed_pending s h consumed total :
  acc_wf s -> h + 9 <= acc_len s ->
  frame_confirmed s h = (consumed, total) ->
  (if consumed then h + total else h + 9) = drop_end (pending s) h /\
  (if consumed then h + total else h + 9) <= acc_len s.
Proof.
  intros W Hh FC. unfold frame_confirmed in FC.
  unfold drop_end, confirmed_at, announced_len, SHS_LD2410_MIN_FRAME_BYTES.
  rewrite (pending_length s W).
  destruct (10 <=? acc_len s - h) eqn:E10.
  - apply Nat.leb_le in E10. cbv zeta in FC.
    replace (start s + h + 4) with (start s + (h + 4)) in FC by lia.
    replace (start s + h + 5) with (start s + (h + 5)) in FC by lia.
    rewrite (rd_pending s (h + 4)), (rd_pending s (h + 5)) in FC
      by (assumption || lia).
    unfold rd.
    remember (Z.to_nat (u16 (Z.lor (nth (h + 4) (pending s) 0%Z)
                              (Z.shiftl (nth (h + 5) (pending s) 0%Z) 8))))
      as n eqn:Hn. clear Hn.
    destruct (h + (4 + 2 + n + 4) <=? acc_len s) eqn:E.
    + apply Nat.leb_le in E. cbn [andb].
      replace (start s + h + (4 + 2 + n + 4) - 4)
        with (start s + (h + (4 + 2 + n + 4) - 4)) in FC by lia.
      rewrite tail_at_pending in FC by (assumption || lia).
      destruct (tail_at (pending s) (h + (4 + 2 + n + 4) - 4));
        injection FC as <- <-; split; lia.
    + injection FC as <- <-. rewrite andb_false_r. cbn [andb]. split; lia.
  - injection FC as <- <-. cbn [andb]. split; lia.
Qed.

(** The scan drops what the contract lets it drop, and nothing else. *)
Lemma scan_refines fuel : forall s s' evs,
  acc_wf s -> shs_scan fuel s = Some (s', evs) ->
  frame_drops (pending s) evs (pending s').
Proof.
  induction fuel as [|fuel IH]; intros s s' evs W R; [discriminate|].
  rewrite scan_step in R.
  pose proof (pending_length s W) as PL.
  destruct (9 <=? acc_len s) eqn:E9.
  - apply Nat.leb_le in E9. cbv zeta in R.
    pose proof (find_hdr_spec (acc_len s - 3) (acc s) (start s) 0) as S.
    cbv zeta in S. destruct S as (S1 & S2 & S3).
    set (h := find_hdr (acc_len s - 3) (acc s) (start s) 0) in *.
    destruct (acc_len s <? h + 9) eqn:E1.
    + apply Nat.ltb_lt in E1. inversion R; subst. apply drops_none.
      unfold SHS_LD2410_MIN_FRAME_BYTES. intros h' Hh'. rewrite PL in Hh'.
      rewrite <- hdr_at_pending by (assumption || lia). apply S2. lia.
    + apply Nat.ltb_ge in E1.
      replace (acc_len s <=? h) with false in R
        by (symmetry; apply Nat.leb_gt; lia).
      destruct (frame_confirmed s h) as [consumed total] eqn:FC.
      destruct (frame_confirmed_pending s h consumed total W E1 FC) as [D Dle].
      cbv zeta in R. rewrite D in R.
      destruct (shs_scan fuel _) as [[s2 evs2]|] eqn:R2; [|discriminate].
      inversion R; subst.
      replace (start s + h + 8) with (start s + (h + 8)) by lia.
      rewrite (rd_pending s (h + 8)) by (assumption || lia).
      change (nth (h + 8) (pending s) 0%Z) with (rd (pending s) (h + 8)).
      apply drops_frame.
      * split; [|split].
        -- rewrite <- hdr_at_pending by (assumption || lia). apply S3. lia.
        -- intros j Hj. rewrite <- hdr_at_pending by (assumption || lia).
           apply S2. lia.
        -- unfold SHS_LD2410_MIN_FRAME_BYTES. lia.
      * rewrite D in Dle. rewrite <- (pending_drop s _ Dle).
        apply IH; [apply wf_drop; assumption | exact R2].
  - apply Nat.leb_gt in E9. inversion R; subst. apply drops_none.
    unfold SHS_LD2410_MIN_FRAME_BYTES. intros h' Hh'. lia.
Qed.

(** C3 (as amended): a read never costs a pending byte.  The append keeps
    all pending bytes, compacted to the front when the read would not fit
    behind them, and adds the newly arrived bytes only as far as the array
    has room: the first [1024 - acc_len] of them, all of them when they fit.
    The scan then drops bytes only from the front and only candidate by
    candidate: from the first header that has nine bytes from it on, up to
    the end of the frame when the candidate is confirmed and up to the end of
    the minimum frame otherwise, handing on the candidate's state byte each
    time; with no such header it drops nothing, so it leaves the accumulator
    as it is whenever it hands on nothing.  The read always ends. *)
Theorem accumulator_loses_no_pending_byte (s : acc_buf) (rxbuf : list Z) :
  acc_wf s -> 0 < length rxbuf ->
  let s1 := shs_acc_append rxbuf s in
  acc_wf s1 /\
  pending s1 = pending s ++ firstn (SHS_UART_ACC_BUF_SIZE - acc_len s) rxbuf /\
  (acc_len s + length rxbuf <= SHS_UART_ACC_BUF_SIZE ->
   pending s1 = pending s ++ rxbuf) /\
  (exists s2 evs n,
     shs_ld2410_feed rxbuf s = Some (s2, evs) /\ acc_wf s2 /\
     n <= length (pending s1) /\ pending s2 = skipn n (pending s1) /\
     9 * length evs <= n /\ (evs = [] -> s2 = s1) /\
     frame_drops (pending s1) evs (pending s2)) /\
  (hdr_free (pending s1) -> shs_ld2410_feed rxbuf s = Some (s1, [])).
Proof.
  intros W Hlen s1.
  pose proof (append_pending rxbuf s W) as A. cbv zeta in A. fold s1 in A.
  destruct A as (W1 & P1 & _).
  assert (Feed : shs_ld2410_feed rxbuf s = shs_scan (S (acc_len s1)) s1).
  { unfold shs_ld2410_feed. apply Nat.ltb_lt in Hlen. rewrite Hlen. reflexivity. }
  split; [exact W1|]. split; [exact P1|]. split; [|split].
  - intros Fit. rewrite P1. f_equal. apply firstn_all2. lia.
  - destruct (scan_total (S (acc_len s1)) s1 ltac:(lia)) as [[s2 evs] R].
    destruct (scan_props _ _ _ _ W1 R) as (W2 & A2 & n & N1 & N2 & N3 & N4).
    destruct (scan_pending _ _ _ _ W1 R) as (n' & N5 & N6).
    assert (n' = n) by lia. subst n'.
    exists s2, evs, n. rewrite Feed.
    split; [exact R|]. split; [exact W2|].
    split; [rewrite pending_length by assumption; lia|].
    split; [exact N6|]. split; [exact N3|]. split; [exact N4|].
    exact (scan_refines _ _ _ _ W1 R).
  - intros F. rewrite Feed. apply scan_hdr_free; assumption.
Qed.

(** The read that C3 as stated excludes: 1024 bytes without a header have
    arrived in two reads and are all pending; the byte 7 of the next read is
    not taken, and no state byte was handed on. *)
Lemma full_accumulator_discards_new_byte :
  option_map (fun r => (pending (fst r), snd r))
    (shs_ld2410_feeds [repeat 0%Z 512; repeat 0%Z 512; [7%Z]] acc_init)
  = Some (repeat 0%Z 1024, []).
Proof. vm_compute. reflexivity. Qed.

(** Twenty bytes are pending at the end of the array and ten more arrive:
    the pending bytes are moved to the front and all thirty are pending. *)
Lemma accumulator_loses_no_pending_byte_witness :
  pending (shs_acc_append (map Z.of_nat (List.seq 21 10)) acc_example)
  = map Z.of_nat (List.seq 1 30).
Proof.
  assert (W : acc_wf acc_example) by (split; vm_compute; [reflexivity | lia]).
  assert (L : 0 < length (map Z.of_nat (List.seq 21 10))) by (simpl; lia).
  exact (proj1 (proj2 (proj2
    (accumulator_loses_no_pending_byte acc_example
       (map Z.of_nat (List.seq 21 10)) W L)))
    ltac:(vm_compute; lia)).
Defined.

Local Close Scope nat_scope.

(** *** Frames *)

Lemma byte_mask_low i : (0 <= i < 8)%Z -> Z.testbit 255 i = true.
Proof. intros H. change 255%Z with (Z.ones 8). apply Z.ones_spec_low. exact H. Qed.

Lemma byte_mask_high i : (8 <= i)%Z -> Z.testbit 255 i = false.
Proof. intros H. change 255%Z with (Z.ones 8). apply Z.ones_spec_high. lia. Qed.

(** The two length bytes of a frame give back the length. *)
Lemma le16_roundtrip n :
  (0 <= n < 65536)%Z -> u16 (Z.lor (lo8 n) (Z.shiftl (hi8 n) 8)) = n.
Proof.
  intros H.
  assert (E : Z.lor (lo8 n) (Z.shiftl (hi8 n) 8) = n).
  { apply Z.bits_inj'. intros i Hi. unfold lo8, hi8.
    rewrite Z.lor_spec, Z.land_spec.
    destruct (Z.ltb i 8) eqn:E8.
    - apply Z.ltb_lt in E8. rewrite byte_mask_low by lia.
      rewrite Z.shiftl_spec_low by lia. rewrite andb_true_r, orb_false_r.
      reflexivity.
    - apply Z.ltb_ge in E8. rewrite byte_mask_high by lia.
      rewrite andb_false_r, orb_false_l.
      rewrite Z.shiftl_spec by lia. rewrite Z.land_spec.
      rewrite Z.shiftr_spec by lia.
      replace (i - 8 + 8)%Z with i by lia.
      destruct (Z.ltb i 16) eqn:E16.
      + apply Z.ltb_lt in E16. rewrite byte_mask_low by lia.
        apply andb_true_r.
      + apply Z.ltb_ge in E16. rewrite byte_mask_high by lia.
        rewrite andb_false_r. symmetry.
        destruct (Z.eq_dec n 0) as [-> | Hn]; [apply Z.testbit_0_l|].
        apply Z.bits_above_log2; [lia|].
        apply Z.log2_lt_pow2; [lia|].
        apply Z.lt_le_trans with (2 ^ 16)%Z; [simpl; lia|].
        apply Z.pow_le_mono_r; lia. }
  rewrite E. apply u16_small. exact H.
Qed.

Local Open Scope nat_scope.

Lemma rx_frame_length payload : length (rx_frame payload) = 10 + length payload.
Proof. unfold rx_frame. rewrite !length_app. simpl. lia. Qed.

Lemma rx_frame_hdr payload : hdr_at (rx_frame payload) 0 = true.
Proof. reflexivity. Qed.

Lemma rx_frame_len_bytes payload :
  rd (rx_frame payload) 4 = lo8 (Z.of_nat (length payload)) /\
  rd (rx_frame payload) 5 = hi8 (Z.of_nat (length payload)).
Proof. split; reflexivity. Qed.

Lemma rx_frame_tail payload :
  tail_at (rx_frame payload) (6 + length payload) = true.
Proof.
  unfold tail_at, rd, rx_frame.
  cbn [app Nat.add nth].
  replace (length payload) with (length payload + 0) at 1 by lia.
  rewrite !app_nth2_plus. reflexivity.
Qed.

Lemma rx_frame_state_byte d0 d1 b rest :
  nth 8 (rx_frame (d0 :: d1 :: b :: rest)) 0%Z = b.
Proof. reflexivity. Qed.

(** A whole frame pending alone is confirmed: its state byte is handed on
    and all its bytes are dropped. *)
Lemma scan_whole_frame fuel s payload :
  acc_wf s -> pending s = rx_frame payload ->
  (Z.of_nat (length payload) < 65536)%Z ->
  shs_scan (S (S fuel)) s =
  Some ({| acc := acc s; start := start s + (10 + length payload);
           acc_len := 0 |},
        [nth 8 (rx_frame payload) 0%Z]).
Proof.
  intros W P Hlen.
  pose proof (pending_length s W) as L. rewrite P, rx_frame_length in L.
  assert (H0 : find_hdr (acc_len s - 3) (acc s) (start s) 0 = 0).
  { replace (acc_len s - 3) with (S (6 + length payload)) by lia.
    cbn [find_hdr]. rewrite hdr_at_pending by (assumption || lia).
    rewrite P, rx_frame_hdr. reflexivity. }
  assert (FC : frame_confirmed s 0 = (true, 10 + length payload)).
  { unfold frame_confirmed.
    replace (10 <=? acc_len s - 0) with true
      by (symmetry; apply Nat.leb_le; lia).
    rewrite !Nat.add_0_r.
    rewrite (rd_pending s 4), (rd_pending s 5) by (assumption || lia).
    rewrite P.
    destruct (rx_frame_len_bytes payload) as [B4 B5]. unfold rd in B4, B5.
    rewrite B4, B5. rewrite le16_roundtrip by lia. rewrite Nat2Z.id.
    replace (4 + 2 + length payload + 4) with (10 + length payload) by lia.
    rewrite Nat.add_0_l.
    replace (10 + length payload <=? acc_len s) with true
      by (symmetry; apply Nat.leb_le; lia).
    replace (start s + (10 + length payload) - 4)
      with (start s + (6 + length payload)) by lia.
    rewrite tail_at_pending by (assumption || lia).
    rewrite P, rx_frame_tail. reflexivity. }
  rewrite scan_step.
  replace (9 <=? acc_len s) with true by (symmetry; apply Nat.leb_le; lia).
  cbv zeta. rewrite H0, FC.
  replace (acc_len s <? 0 + 9) with false by (symmetry; apply Nat.ltb_ge; lia).
  replace (acc_len s <=? 0) with false by (symmetry; apply Nat.leb_gt; lia).
  rewrite !Nat.add_0_l, !Nat.add_0_r.
  replace (acc_len s - (10 + length payload)) with 0 by lia.
  rewrite scan_step. cbn [acc_len Nat.leb].
  rewrite (rd_pending s 8) by (assumption || lia). rewrite P. reflexivity.
Qed.

Local Close Scope nat_scope.

Local Open Scope nat_scope.

Lemma nth_firstn_lt (l : list Z) k j : j < k -> nth j (firstn k l) 0%Z = nth j l 0%Z.
Proof. intros H. rewrite nth_firstn. apply Nat.ltb_lt in H. rewrite H. reflexivity. Qed.

(** The first [k >= 9] bytes of a frame pending alone: the candidate is not
    confirmed, its state byte is handed on all the same and the minimum frame
    length is dropped. *)
Lemma scan_frame_prefix fuel s payload k :
  acc_wf s -> pending s = firstn k (rx_frame payload) ->
  9 <= k < 10 + length payload ->
  (Z.of_nat (length payload) < 65536)%Z ->
  hdr_free (skipn 9 (rx_frame payload)) ->
  shs_scan (S (S fuel)) s =
  Some ({| acc := acc s; start := start s + 9; acc_len := acc_len s - 9 |},
        [nth 8 (rx_frame payload) 0%Z]).
Proof.
  intros W P Hk Hlen F.
  pose proof (pending_length s W) as L.
  rewrite P, length_firstn, rx_frame_length in L.
  assert (Lk : acc_len s = k) by lia. clear L.
  assert (H0 : find_hdr (acc_len s - 3) (acc s) (start s) 0 = 0).
  { replace (acc_len s - 3) with (S (k - 4)) by lia.
    cbn [find_hdr]. rewrite hdr_at_pending by (assumption || lia).
    rewrite P. unfold hdr_at, rd. rewrite !nth_firstn_lt by lia.
    reflexivity. }
  assert (FC : fst (frame_confirmed s 0) = false).
  { unfold frame_confirmed.
    destruct (10 <=? acc_len s - 0) eqn:E10; [|reflexivity].
    apply Nat.leb_le in E10.
    rewrite !Nat.add_0_r.
    rewrite (rd_pending s 4), (rd_pending s 5) by (assumption || lia).
    rewrite P. rewrite !nth_firstn_lt by lia.
    destruct (rx_frame_len_bytes payload) as [B4 B5]. unfold rd in B4, B5.
    rewrite B4, B5. rewrite le16_roundtrip by lia. rewrite Nat2Z.id.
    replace (0 + (4 + 2 + length payload + 4) <=? acc_len s) with false
      by (symmetry; apply Nat.leb_gt; lia).
    reflexivity. }
  rewrite scan_step.
  replace (9 <=? acc_len s) with true by (symmetry; apply Nat.leb_le; lia).
  cbv zeta. rewrite H0.
  replace (acc_len s <? 0 + 9) with false by (symmetry; apply Nat.ltb_ge; lia).
  replace (acc_len s <=? 0) with false by (symmetry; apply Nat.leb_gt; lia).
  destruct (frame_confirmed s 0) as [consumed total]. simpl in FC. subst consumed.
  rewrite !Nat.add_0_l, !Nat.add_0_r.
  rewrite scan_hdr_free.
  - rewrite (rd_pending s 8) by (assumption || lia).
    rewrite P, nth_firstn_lt by lia. reflexivity.
  - apply wf_drop; [exact W | lia].
  - rewrite pending_drop by lia. rewrite P, skipn_firstn_comm.
    apply hdr_free_firstn. exact F.
Qed.

(** A read that is not empty: append, then scan. *)
Lemma feed_nonempty rxbuf s :
  0 < length rxbuf ->
  shs_ld2410_feed rxbuf s
  = shs_scan (S (acc_len (shs_acc_append rxbuf s))) (shs_acc_append rxbuf s).
Proof.
  intros H. unfold shs_ld2410_feed. apply Nat.ltb_lt in H. rewrite H. reflexivity.
Qed.

Lemma pending_empty s : acc_len s = 0 -> pending s = [].
Proof. intros H. unfold pending. rewrite H. reflexivity. Qed.

(** A whole frame read into the empty accumulator. *)
Lemma feed_whole_frame s0 payload :
  acc_wf s0 -> acc_len s0 = 0 ->
  length (rx_frame payload) <= SHS_UART_BUF_SIZE ->
  exists s1,
    shs_ld2410_feed (rx_frame payload) s0
    = Some (s1, [nth 8 (rx_frame payload) 0%Z]) /\
    acc_wf s1 /\ acc_len s1 = 0.
Proof.
  intros W E Hfit. unfold SHS_UART_BUF_SIZE in Hfit.
  pose proof (rx_frame_length payload) as FL.
  pose proof (append_pending (rx_frame payload) s0 W) as A. cbv zeta in A.
  destruct A as (W1 & P1 & _).
  rewrite (pending_empty s0 E), E in P1. cbn [app] in P1.
  rewrite firstn_all2 in P1 by (unfold SHS_UART_ACC_BUF_SIZE; lia).
  pose proof (pending_length _ W1) as L1. rewrite P1, FL in L1.
  rewrite feed_nonempty by lia.
  rewrite <- L1. cbn [Nat.add].
  rewrite (scan_whole_frame _ _ payload W1 P1) by lia.
  eexists. split; [reflexivity|]. split; [|reflexivity].
  destruct W1 as [La Ba]. split; cbn [acc start acc_len]; [exact La | lia].
Qed.

Local Close Scope nat_scope.

Local Open Scope nat_scope.

(** C4 (as amended): a correctly framed receive packet (header,
    little-endian length of its payload, payload, trailer) of at most 512
    bytes, the most one read delivers, that carries [b] at the state-byte
    offset and is read in one piece into an empty accumulator, hands on
    exactly the one state byte [b] and leaves the accumulator empty. *)
Theorem whole_frame_one_event (s0 : acc_buf) (d0 d1 b : Z) (rest : list Z) :
  acc_wf s0 -> acc_len s0 = 0 ->
  length (rx_frame (d0 :: d1 :: b :: rest)) <= SHS_UART_BUF_SIZE ->
  exists s1,
    shs_ld2410_feed (rx_frame (d0 :: d1 :: b :: rest)) s0 = Some (s1, [b]) /\
    acc_len s1 = 0 /\ pending s1 = [].
Proof.
  intros W E Hfit.
  destruct (feed_whole_frame s0 (d0 :: d1 :: b :: rest) W E Hfit)
    as (s1 & F & W1 & E1).
  exists s1. rewrite rx_frame_state_byte in F.
  split; [exact F|]. split; [exact E1 | apply pending_empty; exact E1].
Qed.

(** The packet that C4 as stated includes: a correctly framed packet of 600
    bytes with state byte 3 comes in two reads, of 512 and of 88 bytes.  Its
    state byte is handed on once, from the first read taken as a candidate
    that is not confirmed, and 591 of its bytes stay pending. *)
Lemma long_frame_leaves_bytes_pending :
  let frame := rx_frame (2 :: 170 :: 3 :: repeat 0 587)%Z in
  length frame = 600 /\
  option_map (fun r => (length (pending (fst r)), snd r))
    (shs_ld2410_feeds [firstn 512 frame; skipn 512 frame] acc_init)
  = Some (591, [3%Z]).
Proof. vm_compute. split; reflexivity. Qed.

(** A basic target frame of the radar with state byte 3. *)
Lemma whole_frame_one_event_witness :
  exists s1,
    shs_ld2410_feed
      (rx_frame [0x02; 0xAA; 0x03; 0x1E; 0x00; 0x3C; 0x00; 0x00; 0x39; 0x00;
                 0x00; 0x55; 0x00]%Z) acc_init = Some (s1, [3%Z]) /\
    acc_len s1 = 0 /\ pending s1 = [].
Proof.
  apply (whole_frame_one_event acc_init).
  - split; vm_compute; [reflexivity | lia].
  - reflexivity.
  - vm_compute. lia.
Defined.

(** The two reads of a split frame. *)
Lemma feeds_two r1 r2 s0 s1 s2 e1 e2 :
  shs_ld2410_feed r1 s0 = Some (s1, e1) ->
  shs_ld2410_feed r2 s1 = Some (s2, e2) ->
  shs_ld2410_feeds [r1; r2] s0 = Some (s2, e1 ++ e2).
Proof.
  intros H1 H2. cbn [shs_ld2410_feeds]. rewrite H1, H2.
  rewrite app_nil_r. reflexivity.
Qed.

Lemma feed_split_frame s0 payload k :
  acc_wf s0 -> acc_len s0 = 0 ->
  length (rx_frame payload) <= SHS_UART_BUF_SIZE ->
  0 < k < length (rx_frame payload) ->
  hdr_free (skipn 9 (rx_frame payload)) ->
  exists s2,
    shs_ld2410_feeds [firstn k (rx_frame payload); skipn k (rx_frame payload)] s0
    = Some (s2, [nth 8 (rx_frame payload) 0%Z]) /\ acc_wf s2.
Proof.
  intros W E Hfit Hk F. unfold SHS_UART_BUF_SIZE in Hfit.
  pose proof (rx_frame_length payload) as FL.
  assert (N : SHS_UART_ACC_BUF_SIZE = 1024) by reflexivity.
  remember (rx_frame payload) as frame eqn:Hframe.
  assert (L1 : length (firstn k frame) = k) by (rewrite length_firstn; lia).
  assert (L2 : length (skipn k frame) = length frame - k) by apply length_skipn.
  (* first read *)
  pose proof (append_pending (firstn k frame) s0 W) as A. cbv zeta in A.
  destruct A as (WA & PA & _).
  rewrite (pending_empty s0 E), E in PA. cbn [app] in PA.
  rewrite firstn_firstn in PA.
  replace (Nat.min (SHS_UART_ACC_BUF_SIZE - 0) k) with k in PA by lia.
  pose proof (feed_nonempty (firstn k frame) s0 ltac:(lia)) as F1.
  remember (shs_acc_append (firstn k frame) s0) as sA eqn:HsA.
  pose proof (pending_length _ WA) as LA. rewrite PA, L1 in LA.
  destruct (Nat.lt_ge_cases k 9) as [Hlt | Hge].
  - (* the first read is too short to be scanned *)
    rewrite scan_step in F1.
    replace (9 <=? acc_len sA) with false in F1
      by (symmetry; apply Nat.leb_gt; lia).
    pose proof (append_pending (skipn k frame) sA WA) as B. cbv zeta in B.
    destruct B as (WB & PB & _).
    rewrite PA in PB.
    rewrite (firstn_all2 (n := SHS_UART_ACC_BUF_SIZE - acc_len sA)) in PB by lia.
    rewrite firstn_skipn in PB.
    pose proof (feed_nonempty (skipn k frame) sA ltac:(lia)) as F2.
    remember (shs_acc_append (skipn k frame) sA) as sB eqn:HsB.
    pose proof (pending_length _ WB) as LB. rewrite PB, FL in LB.
    rewrite <- LB in F2. cbn [Nat.add] in F2. rewrite Hframe in PB.
    rewrite (scan_whole_frame _ sB payload WB PB) in F2 by lia.
    rewrite <- Hframe in F2.
    eexists. split; [exact (feeds_two _ _ _ _ _ _ _ F1 F2)|].
    destruct WB as [La Ba]. split; cbn [acc start acc_len]; [exact La | lia].
  - (* the first read is scanned as a candidate *)
    replace (S (acc_len sA)) with (S (S (acc_len sA - 1))) in F1 by lia.
    rewrite Hframe in PA, F.
    rewrite (scan_frame_prefix _ sA payload k WA PA) in F1
      by (assumption || lia).
    rewrite <- Hframe in PA, F1, F.
    remember {| acc := acc sA; start := start sA + 9;
                acc_len := acc_len sA - 9 |} as sA' eqn:HsA'.
    assert (WA' : acc_wf sA') by (subst sA'; apply wf_drop; [exact WA | lia]).
    assert (LA' : acc_len sA' = k - 9) by (subst sA'; cbn [acc_len]; lia).
    assert (PA' : pending sA' = firstn (k - 9) (skipn 9 frame)).
    { subst sA'. rewrite pending_drop by lia.
      rewrite PA. apply skipn_firstn_comm. }
    pose proof (append_pending (skipn k frame) sA' WA') as B. cbv zeta in B.
    destruct B as (WB & PB & _).
    rewrite PA' in PB.
    rewrite (firstn_all2 (n := SHS_UART_ACC_BUF_SIZE - acc_len sA')) in PB by lia.
    assert (SK : firstn (k - 9) (skipn 9 frame) ++ skipn k frame
                 = skipn 9 frame).
    { replace (skipn k frame) with (skipn (k - 9) (skipn 9 frame))
        by (rewrite skipn_skipn; f_equal; lia).
      apply firstn_skipn. }
    rewrite SK in PB.
    pose proof (feed_nonempty (skipn k frame) sA' ltac:(lia)) as F2.
    remember (shs_acc_append (skipn k frame) sA') as sB eqn:HsB.
    rewrite scan_hdr_free in F2; [|exact WB | rewrite PB; exact F].
    exists sB. split; [exact (feeds_two _ _ _ _ _ _ _ F1 F2) | exact WB].
Qed.

(** C5 (as the code has it): for a correctly framed receive packet whose
    bytes after the first nine hold no receive header, split anywhere into
    two non-empty reads, the two reads into an empty accumulator hand on
    exactly the one state byte that the frame read in one piece hands on. *)
Theorem split_frame_same_event
  (s0 : acc_buf) (d0 d1 b : Z) (rest : list Z) (k : nat) :
  acc_wf s0 -> acc_len s0 = 0 ->
  length (rx_frame (d0 :: d1 :: b :: rest)) <= SHS_UART_BUF_SIZE ->
  0 < k < length (rx_frame (d0 :: d1 :: b :: rest)) ->
  hdr_freeb (skipn 9 (rx_frame (d0 :: d1 :: b :: rest))) = true ->
  exists s1 s2,
    shs_ld2410_feed (rx_frame (d0 :: d1 :: b :: rest)) s0 = Some (s1, [b]) /\
    shs_ld2410_feeds [firstn k (rx_frame (d0 :: d1 :: b :: rest));
                      skipn k (rx_frame (d0 :: d1 :: b :: rest))] s0
    = Some (s2, [b]).
Proof.
  intros W E Hfit Hk F. apply hdr_freeb_spec in F.
  destruct (feed_whole_frame s0 (d0 :: d1 :: b :: rest) W E Hfit)
    as (s1 & F1 & _).
  destruct (feed_split_frame s0 (d0 :: d1 :: b :: rest) k W E Hfit Hk F)
    as (s2 & F2 & _).
  rewrite rx_frame_state_byte in F1, F2.
  exists s1, s2. split; assumption.
Qed.

(** The frame that C5 as stated excludes: its payload holds the four header
    bytes after the state byte.  Read whole, it hands on the state byte 1;
    split after nine bytes, it hands on 1 and then the byte 2 found eight
    bytes after the header inside the payload. *)
Lemma split_frame_second_event :
  let frame := rx_frame [0x02; 0xAA; 0x01; 0xF4; 0xF3; 0xF2; 0xF1;
                         0x05; 0x06; 0x07; 0x08; 0x02; 0x00]%Z in
  option_map snd (shs_ld2410_feed frame acc_init) = Some [1%Z] /\
  option_map snd (shs_ld2410_feeds [firstn 9 frame; skipn 9 frame] acc_init)
  = Some [1%Z; 2%Z].
Proof. vm_compute. split; reflexivity. Qed.

(** A basic target frame split after its twelfth byte. *)
Lemma split_frame_same_event_witness :
  let frame := rx_frame [0x02; 0xAA; 0x03; 0x1E; 0x00; 0x3C; 0x00; 0x00;
                         0x39; 0x00; 0x00; 0x55; 0x00]%Z in
  exists s1 s2,
    shs_ld2410_feed frame acc_init = Some (s1, [3%Z]) /\
    shs_ld2410_feeds [firstn 12 frame; skipn 12 frame] acc_init
    = Some (s2, [3%Z]).
Proof.
  apply (split_frame_same_event acc_init).
  - split; vm_compute; [reflexivity | lia].
  - reflexivity.
  - vm_compute. lia.
  - vm_compute. lia.
  - vm_compute. reflexivity.
Defined.

Local Close Scope nat_scope.

(** ** Save worker *)

Lemma saves_for_app f l1 l2 :
  saves_for f (l1 ++ l2) = saves_for f l1 ++ saves_for f l2.
Proof.
  induction l1 as [|[key v | key v] l1 IH]; simpl; [reflexivity | exact IH |].
  destruct (String.eqb key (dfield_key f)); simpl; rewrite IH; reflexivity.
Qed.

Lemma slot_flush_saves hz key now sl f :
  saves_for f (snd (slot_flush hz key now sl))
  = if String.eqb key (dfield_key f)
    then if slot_pend sl && (pdMS_TO_TICKS hz SHS_NVS_DEBOUNCE_MS
                             <=? u32 (now - slot_last sl))
         then [slot_val sl] else []
    else [].
Proof.
  unfold slot_flush.
  destruct (slot_pend sl && _); simpl;
    destruct (String.eqb key (dfield_key f)); reflexivity.
Qed.

Lemma receive_saves f p m w : saves_for f (snd (shs_save_receive p m w)) = [].
Proof.
  unfold shs_save_receive. destruct (sm_type m); try reflexivity.
  destruct (_ =? _); [reflexivity|]. destruct (_ =? _); reflexivity.
Qed.

Lemma receive_slot f p m w :
  dfield_slot f (fst (shs_save_receive p m w))
  = if evt_eqb (sm_type m) (dfield_evt f)
    then slot_record m (sp_tick_rx p) else dfield_slot f w.
Proof.
  unfold shs_save_receive.
  destruct (sm_type m), f; simpl; try reflexivity;
    destruct (_ =? _); try reflexivity; destruct (_ =? _); reflexivity.
Qed.

(** A pass, seen from one field: the receive, then the flush test of that
    field's slot. *)
Lemma pass_slot hz f p w :
  dfield_slot f (fst (shs_save_worker_pass hz p w))
  = fst (slot_flush hz (dfield_key f) (u32 (sp_tick_now p)) (slot_received f p w)) /\
  saves_for f (snd (shs_save_worker_pass hz p w))
  = saves_for f (snd (slot_flush hz (dfield_key f) (u32 (sp_tick_now p))
                        (slot_received f p w))).
Proof.
  unfold shs_save_worker_pass.
  assert (R : exists w1 o0,
             match sp_msg p with
             | Some m => shs_save_receive p m w
             | None => (w, [])
             end = (w1, o0) /\
             dfield_slot f w1 = slot_received f p w /\ saves_for f o0 = []).
  { unfold slot_received, request_of. destruct (sp_msg p) as [m|].
    - exists (fst (shs_save_receive p m w)), (snd (shs_save_receive p m w)).
      split; [apply surjective_pairing|]. split; [|apply receive_saves].
      rewrite receive_slot. destruct (evt_eqb _ _); reflexivity.
    - exists w, []. repeat split. }
  destruct R as (w1 & o0 & -> & S1 & S0).
  rewrite <- S1.
  destruct (slot_flush hz SHS_NVS_KEY_MV_SENS _ (sv_mv_sens w1)) as [a oa] eqn:Ea.
  destruct (slot_flush hz SHS_NVS_KEY_ST_SENS _ (sv_st_sens w1)) as [b ob] eqn:Eb.
  destruct (slot_flush hz SHS_NVS_KEY_MV_GATE _ (sv_mv_gate w1)) as [c oc] eqn:Ec.
  destruct (slot_flush hz SHS_NVS_KEY_ST_GATE _ (sv_st_gate w1)) as [d od] eqn:Ed.
  cbn [fst snd]. rewrite !saves_for_app, S0.
  pose proof (slot_flush_saves hz SHS_NVS_KEY_MV_SENS (u32 (sp_tick_now p)) (sv_mv_sens w1) f) as Fa.
  pose proof (slot_flush_saves hz SHS_NVS_KEY_ST_SENS (u32 (sp_tick_now p)) (sv_st_sens w1) f) as Fb.
  pose proof (slot_flush_saves hz SHS_NVS_KEY_MV_GATE (u32 (sp_tick_now p)) (sv_mv_gate w1) f) as Fc.
  pose proof (slot_flush_saves hz SHS_NVS_KEY_ST_GATE (u32 (sp_tick_now p)) (sv_st_gate w1) f) as Fd.
  rewrite Ea in Fa. rewrite Eb in Fb. rewrite Ec in Fc. rewrite Ed in Fd.
  cbn [snd] in Fa, Fb, Fc, Fd.
  destruct f;
    cbn [dfield_slot dfield_key sv_mv_sens sv_st_sens sv_mv_gate sv_st_gate] in *;
    (split;
     [ rewrite ?Ea, ?Eb, ?Ec, ?Ed; reflexivity
     | rewrite ?Ea, ?Eb, ?Ec, ?Ed; cbn [snd]; rewrite Fa, Fb, Fc, Fd;
       repeat match goal with
              | |- context [String.eqb ?x ?y] =>
                let r := eval vm_compute in (String.eqb x y) in
                change (String.eqb x y) with r
              end;
       cbn iota; cbn [app]; rewrite ?app_nil_r; reflexivity ]).
Qed.

Lemma u32_sub a b : u32 (u32 a - u32 b) = u32 (a - b).
Proof. unfold u32. rewrite <- Zminus_mod. reflexivity. Qed.

Lemma u32_le x : 0 <= x -> u32 x <= x.
Proof. intros H. unfold u32. apply Z.mod_le; lia. Qed.

Lemma request_reads_tick f p v : request_of f p = Some v -> reads_rx_tick p = true.
Proof.
  unfold request_of, reads_rx_tick. destruct (sp_msg p) as [m|]; [|discriminate].
  destruct (sm_type m), f; simpl; intros H; try discriminate; reflexivity.
Qed.

(** One pass keeps the standing of a field, given that the ticks do not go
    back and that a request comes less than the debounce time after the one
    before. *)
Lemma save_inv_pass hz f p w t prev ws :
  (if reads_rx_tick p
   then t <= sp_tick_rx p /\ sp_tick_rx p <= sp_tick_now p
   else t <= sp_tick_now p) ->
  match request_of f p, prev with
  | Some _, Some (_, r) => sp_tick_rx p - r < pdMS_TO_TICKS hz SHS_NVS_DEBOUNCE_MS
  | _, _ => True
  end ->
  save_inv (pdMS_TO_TICKS hz SHS_NVS_DEBOUNCE_MS) t prev (dfield_slot f w) ws ->
  save_inv (pdMS_TO_TICKS hz SHS_NVS_DEBOUNCE_MS) (sp_tick_now p)
    (match request_of f p with
     | Some v => Some (v, sp_tick_rx p)
     | None => prev
     end)
    (dfield_slot f (fst (shs_save_worker_pass hz p w)))
    (ws ++ saves_for f (snd (shs_save_worker_pass hz p w))).
Proof.
  intros Mono Gap Inv.
  destruct (pass_slot hz f p w) as [-> ->].
  rewrite slot_flush_saves, String.eqb_refl.
  unfold slot_flush, slot_received.
  set (D := pdMS_TO_TICKS hz SHS_NVS_DEBOUNCE_MS) in *.
  destruct (request_of f p) as [v|] eqn:Rq.
  - rewrite (request_reads_tick f p v Rq) in Mono. destruct Mono as [M1 M2].
    assert (Hws : ws = []).
    { destruct prev as [[v0 r0]|]; simpl in Inv.
      - destruct Inv as (R0 & [(_ & _ & _ & E & _) | (_ & _ & Q)]); [exact E | lia].
      - destruct Inv as [_ E]. exact E. }
    subst ws. cbn [slot_pend slot_last slot_val andb app].
    rewrite u32_sub.
    pose proof (u32_le (sp_tick_now p - sp_tick_rx p) ltac:(lia)) as Le.
    destruct (D <=? u32 (sp_tick_now p - sp_tick_rx p)) eqn:E; simpl.
    + apply Z.leb_le in E. split; [exact M2|]. right. repeat split; try reflexivity. lia.
    + apply Z.leb_gt in E. split; [exact M2|]. left. repeat split; try reflexivity. exact E.
  - assert (M : t <= sp_tick_now p) by (destruct (reads_rx_tick p); lia).
    destruct prev as [[v0 r0]|]; simpl in Inv.
    + destruct Inv as (R0 & [(P & L & V & E & Q) | (P & E & Q)]).
      * rewrite P, L, V. cbn [andb]. rewrite u32_sub. subst ws.
        pose proof (u32_le (sp_tick_now p - r0) ltac:(lia)) as Le.
        destruct (D <=? u32 (sp_tick_now p - r0)) eqn:E; simpl.
        -- apply Z.leb_le in E. split; [lia|]. right. repeat split; try reflexivity. lia.
        -- apply Z.leb_gt in E. split; [lia|]. left. repeat split; try assumption.
      * rewrite P. cbn [andb]. rewrite app_nil_r. simpl.
        split; [lia|]. right. repeat split; try assumption. lia.
    + destruct Inv as [P E]. rewrite P. cbn [andb]. rewrite app_nil_r. simpl.
      split; assumption.
Qed.

Lemma run_cons_worker hz p rest w :
  shs_save_worker_run hz (p :: rest) w
  = (fst (shs_save_worker_run hz rest (fst (shs_save_worker_pass hz p w))),
     snd (shs_save_worker_pass hz p w)
     ++ snd (shs_save_worker_run hz rest (fst (shs_save_worker_pass hz p w)))).
Proof.
  cbn [shs_save_worker_run].
  destruct (shs_save_worker_pass hz p w) as [w1 o1]. cbn [fst snd].
  destruct (shs_save_worker_run hz rest w1). reflexivity.
Qed.

(** The standing of a field along a whole run. *)
Lemma save_inv_run hz f passes : forall w t prev ws,
  ticks_monotone t passes ->
  gaps_below (pdMS_TO_TICKS hz SHS_NVS_DEBOUNCE_MS) f prev passes ->
  save_inv (pdMS_TO_TICKS hz SHS_NVS_DEBOUNCE_MS) t prev (dfield_slot f w) ws ->
  save_inv (pdMS_TO_TICKS hz SHS_NVS_DEBOUNCE_MS) (final_tick t passes)
    (last_request f prev passes)
    (dfield_slot f (fst (shs_save_worker_run hz passes w)))
    (ws ++ saves_for f (snd (shs_save_worker_run hz passes w))).
Proof.
  induction passes as [|p rest IH]; intros w t prev ws Mono Gap Inv.
  - simpl. rewrite app_nil_r. exact Inv.
  - rewrite run_cons_worker. cbn [fst snd final_tick last_request].
    rewrite saves_for_app, app_assoc.
    destruct Mono as [M1 M2]. cbn [gaps_below] in Gap.
    pose proof (save_inv_pass hz f p w t prev ws M1) as Step.
    destruct (request_of f p) as [v|] eqn:Rq.
    + destruct Gap as [G1 G2].
      apply IH; [exact M2 | exact G2 |].
      apply Step; [|exact Inv]. destruct prev as [[v0 r0]|]; [exact G1 | exact I].
    + apply IH; [exact M2 | exact Gap |].
      apply Step; [exact I | exact Inv].
Qed.

Lemma run_app_worker hz p1 : forall p2 w,
  snd (shs_save_worker_run hz (p1 ++ p2) w)
  = snd (shs_save_worker_run hz p1 w)
    ++ snd (shs_save_worker_run hz p2 (fst (shs_save_worker_run hz p1 w))).
Proof.
  induction p1 as [|p rest IH]; intros p2 w.
  - reflexivity.
  - rewrite <- app_comm_cons, !run_cons_worker. cbn [fst snd].
    rewrite IH, app_assoc. reflexivity.
Qed.









(** ** The UART task as a whole *)

(** A pass of the task loop always comes to its end. *)
Lemma task_pass_returns rxbuf clock s g :
  exists r, shs_ld2410_task_pass rxbuf clock s g = Some r.
Proof.
  unfold shs_ld2410_task_pass, shs_ld2410_feed.
  destruct (0 <? length rxbuf)%nat.
  - destruct (scan_total (S (acc_len (shs_acc_append rxbuf s)))
                (shs_acc_append rxbuf s) ltac:(lia)) as [[s' evs] R].
    rewrite R. eexists. reflexivity.
  - eexists. reflexivity.
Qed.

(** Whatever a pass reads, it leaves the occupancy at what the last state
    byte said. *)
Lemma task_pass_occupancy_is_raw rxbuf clock s g s' g' out :
  occupancy_is_raw g ->
  shs_ld2410_task_pass rxbuf clock s g = Some (s', (g', out)) ->
  occupancy_is_raw g'.
Proof.
  unfold shs_ld2410_task_pass. intros H E.
  destruct (shs_ld2410_feed rxbuf s) as [[s1 evs]|]; [|discriminate].
  inversion E as [[E1 E2]].
  change g' with (fst (g', out)). rewrite <- E2.
  apply run_keeps_occupancy_is_raw. exact H.
Qed.

(** * Further properties of the code *)

(** ** The configuration record along runs *)

Lemma cfg_write_proxies_agree id v now g :
  is_u16 v -> proxies_agree (g_cfg g) ->
  proxies_agree (g_cfg (fst (shs_cfg_write id v now g))).
Proof.
  unfold is_u16, proxies_agree. intros Hv [P1 P2].
  assert (R : forall q, 0 <= q <= 10 -> (q * 10 + 5) / 10 = q).
  { intros q Hq. symmetry. apply Z.div_unique with (r := 5); lia. }
  unfold shs_cfg_write.
  destruct (id =? SHS_ATTR_MOVEMENT_COOLDOWN).
  { rewrite clamp_hi_min. unfold SHS_COOLDOWN_MAX_SEC. act_unfold. simpl.
    destruct (Z.min v 300 =? 0); [simpl; tauto|].
    destruct (_ && _); simpl; tauto. }
  destruct (id =? SHS_ATTR_OCC_CLEAR_COOLDOWN).
  { act_unfold. simpl. destruct (negb (shs_zb_ready g)); simpl; tauto. }
  destruct (id =? SHS_ATTR_MOVING_SENS_0_10).
  { rewrite clamp_hi_min. act_unfold. simpl.
    rewrite u8_small by lia. rewrite R by lia. tauto. }
  destruct (id =? SHS_ATTR_STATIC_SENS_0_10).
  { rewrite clamp_hi_min. act_unfold. simpl.
    rewrite u8_small by lia. rewrite R by lia. tauto. }
  destruct (id =? SHS_ATTR_MOVING_MAX_GATE).
  { rewrite clamp_hi_min. act_unfold. simpl. tauto. }
  destruct (id =? SHS_ATTR_STATIC_MAX_GATE).
  { rewrite clamp_lo_hi by lia. act_unfold. simpl. tauto. }
  act_unfold. simpl. tauto.
Qed.

Lemma handler_keeps_cfg_ok m now g :
  match m with Some m' => is_u16 (attr_value m') | None => True end ->
  cfg_in_range (g_cfg g) /\ proxies_agree (g_cfg g) ->
  cfg_in_range (g_cfg (fst (shs_zb_attribute_handler m now g))) /\
  proxies_agree (g_cfg (fst (shs_zb_attribute_handler m now g))).
Proof.
  intros Hv [R P]. destruct m as [m|]; [|split; assumption].
  unfold shs_zb_attribute_handler.
  destruct (_ && _); [split; assumption|].
  destruct (_ && _); [|split; assumption].
  split; [apply cfg_write_in_range | apply cfg_write_proxies_agree]; assumption.
Qed.

Lemma step_keeps_cfg_ok i g :
  input_u16 i ->
  cfg_in_range (g_cfg g) /\ proxies_agree (g_cfg g) ->
  cfg_in_range (g_cfg (fst (shs_step i g))) /\
  proxies_agree (g_cfg (fst (shs_step i g))).
Proof.
  intros Hi H. destruct i as [b now | now | m now |]; unfold shs_step.
  - rewrite (proj1 (process_keeps_cfg b now g)). exact H.
  - rewrite (proj1 (tick_keeps_cfg now g)). exact H.
  - apply (handler_keeps_cfg_ok (Some m)); assumption.
  - exact H.
Qed.

Lemma boot_cfg nvs q : g_cfg (shs_boot nvs q) = shs_cfg_load_from_nvs nvs shs_config_init.
Proof. reflexivity. Qed.

Lemma init_cfg_in_range : cfg_in_range shs_config_init.
Proof. unfold cfg_in_range. simpl. lia. Qed.

Lemma load_proxies_agree nvs c :
  match nvs with Some h => nvs_well_typed h | None => True end ->
  cfg_in_range c -> proxies_agree c ->
  proxies_agree (shs_cfg_load_from_nvs nvs c).
Proof.
  intros W R P. pose proof (load_in_range nvs c W R) as R'.
  destruct nvs as [h|]; [|exact P].
  pose proof (load_fields h c) as L. cbv zeta in L.
  destruct L as (_ & _ & _ & _ & _ & _ & L7 & L8).
  unfold cfg_in_range in R'. destruct R' as (_ & _ & R3 & R4 & _).
  pose proof (round_tenth _ R3) as Q3. pose proof (round_tenth _ R4) as Q4.
  cbv zeta in Q3, Q4. destruct Q3 as (Q3 & _). destruct Q4 as (Q4 & _).
  split; [rewrite L7; exact Q3 | rewrite L8; exact Q4].
Qed.

(** X1.  In every state the firmware reaches from boot (any well-typed
    durable store or none, any sensor states, ticks and 16-bit attribute
    writes), every field of the configuration record is in its range and
    both 0..10 proxies are the 0..100 sensitivities rounded to the nearest
    ten. *)
Theorem config_in_range_along_runs
  (nvs : option nvs_handle) (q : bool) (ins : list shs_input) :
  match nvs with Some h => nvs_well_typed h | None => True end ->
  Forall input_u16 ins ->
  cfg_in_range (g_cfg (shs_after nvs q ins)) /\
  proxies_agree (g_cfg (shs_after nvs q ins)).
Proof.
  intros W F. unfold shs_after.
  assert (B : cfg_in_range (g_cfg (shs_boot nvs q)) /\
              proxies_agree (g_cfg (shs_boot nvs q))).
  { rewrite boot_cfg. split.
    - apply load_in_range; [exact W | exact init_cfg_in_range].
    - apply load_proxies_agree; [exact W | exact init_cfg_in_range|].
      split; reflexivity. }
  generalize dependent (shs_boot nvs q). clear W.
  induction F as [|i ins Hi F IH]; intros g B.
  - exact B.
  - rewrite run_cons. apply IH. apply step_keeps_cfg_ok; assumption.
Qed.

Lemma config_in_range_along_runs_witness :
  cfg_in_range
    (g_cfg (shs_after (Some nvs_example) true
              [InAttrWrite (cfg_write_msg SHS_ATTR_MOVING_SENS_0_10 40000) 0;
               InSensorState 3 10])).
Proof.
  apply (config_in_range_along_runs (Some nvs_example) true).
  - exact nvs_example_well_typed.
  - repeat constructor. unfold input_u16, is_u16. simpl. lia.
Defined.

(** ** The cooldown timer along runs *)

Lemma cfg_write_keeps_timer_matches id v now g :
  timer_matches g -> timer_matches (fst (shs_cfg_write id v now g)).
Proof.
  unfold timer_matches. destruct g as [c [m s o] [a d l] r sq]. simpl. intros H.
  unfold shs_cfg_write.
  destruct (id =? SHS_ATTR_MOVEMENT_COOLDOWN).
  { generalize (if v >? SHS_COOLDOWN_MAX_SEC then SHS_COOLDOWN_MAX_SEC else v).
    intros v'. act_unfold. simpl.
    destruct (v' =? 0) eqn:E0; simpl.
    - rewrite E0. reflexivity.
    - destruct (shs_movement_cooldown_sec c =? 0) eqn:E1; simpl in *.
      + subst a. destruct m; simpl; rewrite ?E0; reflexivity.
      + subst a. simpl. rewrite ?E0. destruct m; reflexivity. }
  repeat match goal with
         | |- context [if ?i =? ?k then _ else _] => destruct (i =? k)
         end;
    act_unfold; simpl;
    repeat match goal with
           | |- context [if ?b then _ else _] => destruct b; simpl
           end; exact H.
Qed.

Ltac crush_ifs :=
  repeat match goal with
         | |- context [if ?b then _ else _] =>
           match b with
           | context [if _ then _ else _] => fail 1
           | _ => destruct b eqn:?; simpl in *
           end
         end.

Lemma tick_keeps_timer_matches t g :
  timer_matches g -> timer_matches (fst (shs_mv_cooldown_tick t g)).
Proof.
  unfold timer_matches. destruct g as [c [m s o] [a d l] r sq]. simpl. intros H.
  unfold shs_mv_cooldown_tick. act_unfold. simpl.
  destruct (shs_movement_cooldown_sec c =? 0) eqn:E0; simpl in *.
  - rewrite E0. exact H.
  - subst a. destruct m; simpl; crush_ifs; rewrite ?E0; reflexivity.
Qed.

Lemma process_keeps_timer_matches b now g :
  timer_matches g -> timer_matches (fst (shs_process_sensor_state b now g)).
Proof.
  unfold timer_matches. destruct g as [c [m s o] [a d l] r sq]. simpl. intros H.
  unfold shs_process_sensor_state, shs_mv_cooldown_tick. act_unfold. simpl.
  destruct (shs_movement_cooldown_sec c =? 0) eqn:E0; simpl in *.
  - subst a. crush_ifs; rewrite ?E0; reflexivity.
  - subst a. destruct m; simpl; rewrite ?E0; simpl;
      crush_ifs; rewrite ?E0; reflexivity.
Qed.

Lemma step_keeps_timer_matches i g :
  timer_matches g -> timer_matches (fst (shs_step i g)).
Proof.
  intros H. destruct i as [b now | now | m now |]; unfold shs_step.
  - apply process_keeps_timer_matches, H.
  - apply tick_keeps_timer_matches, H.
  - unfold shs_zb_attribute_handler.
    destruct (_ && _); [exact H|].
    destruct (_ && _); [apply cfg_write_keeps_timer_matches, H | exact H].
  - exact H.
Qed.

(** X2.  Each handler, run from its entry to its return, keeps the cooldown
    timer in step with the hold.  When a sensor state, a cooldown tick, an
    attribute write or the start of the stack is handled on globals in which
    the timer is active exactly when the movement cooldown is not zero and
    moving is published, it is so again in the globals the handler returns.
    This is about one handler run on its own: it says nothing of the globals
    while a handler is between two of its assignments, where a write from
    another task can come in. *)
Theorem handlers_keep_timer_in_step (i : shs_input) (g : shs_globals) :
  shs_mv_cooldown_active (g_cd g)
  = negb (shs_movement_cooldown_sec (g_cfg g) =? 0) && shs_moving_state (g_pub g) ->
  let g' := fst (shs_step i g) in
  shs_mv_cooldown_active (g_cd g')
  = negb (shs_movement_cooldown_sec (g_cfg g') =? 0)
    && shs_moving_state (g_pub g').
Proof. exact (step_keeps_timer_matches i g). Qed.

(** A cooldown of 5 s holds moving with the timer running; a write of 0 to
    the cooldown stops the timer and leaves moving published. *)
Lemma handlers_keep_timer_in_step_witness :
  let g := shs_after None true
             [InAttrWrite (cfg_write_msg SHS_ATTR_MOVEMENT_COOLDOWN 5) 0;
              InSensorState 1 0] in
  let g' := fst (shs_step
                   (InAttrWrite (cfg_write_msg SHS_ATTR_MOVEMENT_COOLDOWN 0) 10)
                   g) in
  shs_mv_cooldown_active (g_cd g) = true /\
  shs_mv_cooldown_active (g_cd g')
  = negb (shs_movement_cooldown_sec (g_cfg g') =? 0)
    && shs_moving_state (g_pub g').
Proof.
  intros g g'. split; [reflexivity|].
  apply (handlers_keep_timer_in_step
           (InAttrWrite (cfg_write_msg SHS_ATTR_MOVEMENT_COOLDOWN 0) 10) g).
  vm_compute. reflexivity.
Defined.

(** ** What is published *)

Lemma presence_effects (b now : Z) (g : shs_globals) :
  let g1 := fst (shs_process_sensor_state b now g) in
  let g2 := fst (shs_mv_cooldown_tick now g) in
  snd (shs_process_sensor_state b now g)
  = (if shs_zb_ready g
     then publish_if_changed SHS_ATTR_OCC_MOVING_TARGET
            (shs_moving_state (g_pub g)) (shs_moving_state (g_pub g1))
          ++ publish_if_changed SHS_ATTR_OCC_STATIC_TARGET
               (shs_static_state (g_pub g)) (shs_static_state (g_pub g1))
          ++ publish_if_changed ESP_ZB_ZCL_ATTR_OCCUPANCY_SENSING_OCCUPANCY_ID
               (shs_occupancy_state (g_pub g)) (shs_occupancy_state (g_pub g1))
     else []) /\
  snd (shs_mv_cooldown_tick now g)
  = (if shs_zb_ready g
     then publish_if_changed SHS_ATTR_OCC_MOVING_TARGET
            (shs_moving_state (g_pub g)) (shs_moving_state (g_pub g2))
     else []).
Proof.
  destruct g as [c [m s o] [a d l] r sq]. cbv zeta.
  unfold shs_process_sensor_state, shs_mv_cooldown_tick, publish_if_changed.
  set (rm := negb (Z.land b 1 =? 0)).
  set (rs := negb (Z.land b 2 =? 0)).
  set (rp := negb (Z.land b 3 =? 0)).
  clearbody rm rs rp.
  act_unfold. simpl.
  destruct (shs_movement_cooldown_sec c =? 0) eqn:E0;
    destruct (shs_time_reached now d) eqn:E1;
    destruct r, rm, rs, rp, m, s, o, a, l;
    do 3 (simpl; rewrite ?E0, ?E1); split; reflexivity.
Qed.

(** X3.  A sensor state and a cooldown tick publish exactly the presence
    flags they change: once the stack is ready, one attribute write for each
    of moving, static and occupancy whose published value differs from the one
    before, in that order and carrying the new value, and none for a flag that
    stays; before the stack is ready, none at all. *)
Theorem presence_publishes_exactly_changes (b now : Z) (g : shs_globals) :
  let g1 := fst (shs_process_sensor_state b now g) in
  let g2 := fst (shs_mv_cooldown_tick now g) in
  snd (shs_process_sensor_state b now g)
  = (if shs_zb_ready g
     then publish_if_changed SHS_ATTR_OCC_MOVING_TARGET
            (shs_moving_state (g_pub g)) (shs_moving_state (g_pub g1))
          ++ publish_if_changed SHS_ATTR_OCC_STATIC_TARGET
               (shs_static_state (g_pub g)) (shs_static_state (g_pub g1))
          ++ publish_if_changed ESP_ZB_ZCL_ATTR_OCCUPANCY_SENSING_OCCUPANCY_ID
               (shs_occupancy_state (g_pub g)) (shs_occupancy_state (g_pub g1))
     else []) /\
  snd (shs_mv_cooldown_tick now g)
  = (if shs_zb_ready g
     then publish_if_changed SHS_ATTR_OCC_MOVING_TARGET
            (shs_moving_state (g_pub g)) (shs_moving_state (g_pub g2))
     else []).
Proof. exact (presence_effects b now g). Qed.

Lemma last_attr_write_app e c a l1 : forall l2 prev,
  last_attr_write e c a (l1 ++ l2) prev
  = last_attr_write e c a l2 (last_attr_write e c a l1 prev).
Proof.
  induction l1 as [|x l1 IH]; intros l2 prev; [reflexivity|].
  destruct x; simpl; try apply IH.
  destruct (_ && _); apply IH.
Qed.

Lemma last_attr_write_zb e c a effs : forall prev,
  last_attr_write e c a effs prev = last_attr_write e c a (zb_writes effs) prev.
Proof.
  induction effs as [|x effs IH]; intros prev; [reflexivity|].
  destruct x; simpl; try apply IH.
  destruct (_ && _); apply IH.
Qed.

(** The attribute writes of a config write: the mirrored delay, when the
    stack is ready and the occupancy-clear time is written. *)
Lemma cfg_write_zb_writes id v now g :
  zb_writes (snd (shs_cfg_write id v now g))
  = if negb (id =? SHS_ATTR_MOVEMENT_COOLDOWN)
       && (id =? SHS_ATTR_OCC_CLEAR_COOLDOWN) && shs_zb_ready g
    then [ZbSetAttribute SHS_EP_OCC ESP_ZB_ZCL_CLUSTER_ID_OCCUPANCY_SENSING
            SHS_ZCL_ATTR_OCC_PIR_OU_DELAY v]
    else [].
Proof.
  destruct g as [c [m s o] [a d l] r sq]. unfold shs_cfg_write.
  destruct (id =? SHS_ATTR_MOVEMENT_COOLDOWN).
  { act_unfold. simpl. crush_ifs; reflexivity. }
  destruct (id =? SHS_ATTR_OCC_CLEAR_COOLDOWN).
  { act_unfold. simpl. destruct r, sq; reflexivity. }
  simpl.
  repeat match goal with
         | |- context [if ?i =? ?k then _ else _] => destruct (i =? k)
         end; act_unfold; simpl; destruct sq; reflexivity.
Qed.

Lemma cfg_write_occ_clear id v now g :
  shs_occupancy_clear_sec (g_cfg (fst (shs_cfg_write id v now g)))
  = if negb (id =? SHS_ATTR_MOVEMENT_COOLDOWN) && (id =? SHS_ATTR_OCC_CLEAR_COOLDOWN)
    then v else shs_occupancy_clear_sec (g_cfg g).
Proof.
  destruct g as [c [m s o] [a d l] r sq]. unfold shs_cfg_write.
  destruct (id =? SHS_ATTR_MOVEMENT_COOLDOWN).
  { act_unfold. simpl. crush_ifs; reflexivity. }
  destruct (id =? SHS_ATTR_OCC_CLEAR_COOLDOWN).
  { act_unfold. simpl. destruct r; reflexivity. }
  simpl.
  repeat match goal with
         | |- context [if ?i =? ?k then _ else _] => destruct (i =? k)
         end; act_unfold; reflexivity.
Qed.

Lemma cfg_write_keeps_ready id v now g :
  shs_zb_ready (fst (shs_cfg_write id v now g)) = shs_zb_ready g.
Proof.
  destruct g as [c [m s o] [a d l] r sq]. unfold shs_cfg_write.
  repeat match goal with
         | |- context [if ?i =? ?k then _ else _] => destruct (i =? k)
         end; act_unfold; simpl; crush_ifs; reflexivity.
Qed.

Lemma publish_if_changed_last e c a attr old new prev :
  last_attr_write e c a (publish_if_changed attr old new) prev
  = if Bool.eqb old new then prev
    else if (SHS_EP_OCC =? e) && (ESP_ZB_ZCL_CLUSTER_ID_OCCUPANCY_SENSING =? c)
            && (attr =? a)
         then Some (Z_of_bool new) else prev.
Proof.
  unfold publish_if_changed. destruct (Bool.eqb old new); [reflexivity|].
  simpl. destruct (_ && _); reflexivity.
Qed.

Lemma mirror_after_publish (old new : bool) (v : option Z) :
  v = Some (Z_of_bool old) ->
  (if Bool.eqb old new then v else Some (Z_of_bool new)) = Some (Z_of_bool new).
Proof. intros ->. destruct old, new; reflexivity. Qed.

Lemma mirror_step i g vm vs vo vd :
  stack_mirrors g vm vs vo vd ->
  stack_mirrors (fst (shs_step i g))
    (last_moving_write (snd (shs_step i g)) vm)
    (last_static_write (snd (shs_step i g)) vs)
    (last_occupancy_write (snd (shs_step i g)) vo)
    (last_delay_write (snd (shs_step i g)) vd).
Proof.
  unfold stack_mirrors, last_moving_write, last_static_write,
    last_occupancy_write, last_delay_write.
  intros M. destruct i as [b now | now | m now |]; unfold shs_step.
  - destruct (process_keeps_cfg b now g) as [C R]. rewrite C, R. intros Rd.
    destruct (M Rd) as (Mm & Ms & Mo & Md).
    rewrite (proj1 (presence_effects b now g)). cbv zeta. rewrite Rd.
    rewrite !last_attr_write_app, !publish_if_changed_last.
    change (SHS_EP_OCC =? SHS_EP_OCC) with true.
    change (ESP_ZB_ZCL_CLUSTER_ID_OCCUPANCY_SENSING
            =? ESP_ZB_ZCL_CLUSTER_ID_OCCUPANCY_SENSING) with true.
    cbn [andb].
    repeat match goal with
           | |- context [?x =? ?y] =>
             let r := eval vm_compute in (x =? y) in change (x =? y) with r
           end.
    cbv iota.
    repeat match goal with
           | |- context [if Bool.eqb ?x ?y then ?p else ?p] =>
             replace (if Bool.eqb x y then p else p) with p
               by (destruct (Bool.eqb x y); reflexivity)
           end.
    repeat split; try (apply mirror_after_publish; assumption). exact Md.
  - destruct (tick_keeps_cfg now g) as [C R]. rewrite C, R. intros Rd.
    destruct (M Rd) as (Mm & Ms & Mo & Md).
    destruct (tick_keeps_raw now g) as (Ks & Ko & _). rewrite Ks, Ko.
    rewrite (proj2 (presence_effects 0 now g)). cbv zeta. rewrite Rd.
    rewrite !publish_if_changed_last.
    change (SHS_EP_OCC =? SHS_EP_OCC) with true.
    change (ESP_ZB_ZCL_CLUSTER_ID_OCCUPANCY_SENSING
            =? ESP_ZB_ZCL_CLUSTER_ID_OCCUPANCY_SENSING) with true.
    cbn [andb].
    repeat match goal with
           | |- context [?x =? ?y] =>
             let r := eval vm_compute in (x =? y) in change (x =? y) with r
           end.
    cbv iota.
    repeat match goal with
           | |- context [if Bool.eqb ?x ?y then ?p else ?p] =>
             replace (if Bool.eqb x y then p else p) with p
               by (destruct (Bool.eqb x y); reflexivity)
           end.
    repeat split; try assumption. apply mirror_after_publish; assumption.
  - unfold shs_zb_attribute_handler.
    destruct (_ && _); [exact M|].
    destruct (_ && _); [|exact M].
    rewrite cfg_write_keeps_ready. intros Rd.
    destruct (M Rd) as (Mm & Ms & Mo & Md).
    destruct (cfg_write_keeps_raw (attr_id m) (attr_value m) now g) as [P _].
    rewrite P, cfg_write_occ_clear.
    rewrite !(last_attr_write_zb _ _ _ (snd (shs_cfg_write _ _ _ _))).
    rewrite cfg_write_zb_writes, Rd, andb_true_r.
    destruct (negb _ && _); simpl; repeat split; assumption || reflexivity.
  - intros _. destruct g as [c [mv s o] [a d l] r sq].
    unfold shs_zb_device_started. act_unfold. simpl. repeat split.
Qed.

Lemma run_cons_effects i ins g :
  snd (shs_run (i :: ins) g)
  = snd (shs_step i g) ++ snd (shs_run ins (fst (shs_step i g))).
Proof.
  simpl. unfold act_seq. destruct (shs_step i g) as [g1 e1]. simpl.
  destruct (shs_run ins g1). reflexivity.
Qed.

Lemma mirror_run ins : forall g vm vs vo vd,
  stack_mirrors g vm vs vo vd ->
  stack_mirrors (fst (shs_run ins g))
    (last_moving_write (snd (shs_run ins g)) vm)
    (last_static_write (snd (shs_run ins g)) vs)
    (last_occupancy_write (snd (shs_run ins g)) vo)
    (last_delay_write (snd (shs_run ins g)) vd).
Proof.
  induction ins as [|i ins IH]; intros g vm vs vo vd M.
  - exact M.
  - rewrite run_cons, run_cons_effects.
    unfold last_moving_write, last_static_write, last_occupancy_write,
      last_delay_write in *.
    rewrite !last_attr_write_app.
    apply IH. apply mirror_step. exact M.
Qed.

(** X4.  The stack is never left with a stale presence value: after any run
    from boot in which the stack has become ready, the value last written to
    the stack for the moving, the static and the occupancy attribute is the
    published flag of the globals, and the delay last written is the stored
    occupancy-clear time. *)
Theorem stack_holds_published_values
  (nvs : option nvs_handle) (q : bool) (ins : list shs_input) :
  let g := fst (shs_run ins (shs_boot nvs q)) in
  let effs := snd (shs_run ins (shs_boot nvs q)) in
  shs_zb_ready g = true ->
  last_moving_write effs None = Some (Z_of_bool (shs_moving_state (g_pub g))) /\
  last_static_write effs None = Some (Z_of_bool (shs_static_state (g_pub g))) /\
  last_occupancy_write effs None
  = Some (Z_of_bool (shs_occupancy_state (g_pub g))) /\
  last_delay_write effs None = Some (shs_occupancy_clear_sec (g_cfg g)).
Proof.
  cbv zeta. apply (mirror_run ins (shs_boot nvs q) None None None None).
  unfold stack_mirrors. change (shs_zb_ready (shs_boot nvs q)) with false.
  discriminate.
Qed.

Lemma stack_holds_published_values_witness :
  let ins := [InSensorState 1 0; InZbReady;
              InAttrWrite (cfg_write_msg SHS_ATTR_OCC_CLEAR_COOLDOWN 30) 10;
              InSensorState 2 20] in
  last_moving_write (snd (shs_run ins (shs_boot None true))) None = Some 0 /\
  last_static_write (snd (shs_run ins (shs_boot None true))) None = Some 1 /\
  last_delay_write (snd (shs_run ins (shs_boot None true))) None = Some 30.
Proof.
  intros ins.
  pose proof (stack_holds_published_values None true ins eq_refl) as T.
  destruct T as (T1 & T2 & _ & T4).
  split; [exact T1 | split; [exact T2 | exact T4]].
Defined.

Lemma step_before_ready i g :
  is_zb_ready_input i = false -> shs_zb_ready g = false ->
  zb_writes (snd (shs_step i g)) = [] /\ shs_zb_ready (fst (shs_step i g)) = false.
Proof.
  intros Hi R. destruct i as [b now | now | m now |]; try discriminate;
    unfold shs_step.
  - rewrite (proj2 (process_keeps_cfg b now g)).
    rewrite (proj1 (presence_effects b now g)). rewrite R. split; reflexivity.
  - rewrite (proj2 (tick_keeps_cfg now g)).
    rewrite (proj2 (presence_effects 0 now g)). rewrite R. split; reflexivity.
  - unfold shs_zb_attribute_handler.
    destruct (_ && _); [split; [reflexivity | exact R]|].
    destruct (_ && _); [|split; [reflexivity | exact R]].
    rewrite cfg_write_zb_writes, cfg_write_keeps_ready, R, andb_false_r.
    split; reflexivity.
Qed.

Lemma zb_writes_app l1 l2 : zb_writes (l1 ++ l2) = zb_writes l1 ++ zb_writes l2.
Proof.
  induction l1 as [|x l1 IH]; [reflexivity|].
  destruct x; simpl; rewrite ?IH; reflexivity.
Qed.

(** X5.  Until the stack has started, nothing is written to it: a run from
    boot that does not contain the start of the stack makes no attribute
    write, whatever sensor states, ticks and configuration writes it holds,
    and leaves the ready flag unset. *)
Theorem no_attribute_write_before_ready
  (nvs : option nvs_handle) (q : bool) (ins : list shs_input) :
  forallb (fun i => negb (is_zb_ready_input i)) ins = true ->
  zb_writes (snd (shs_run ins (shs_boot nvs q))) = [] /\
  shs_zb_ready (fst (shs_run ins (shs_boot nvs q))) = false.
Proof.
  assert (B : shs_zb_ready (shs_boot nvs q) = false) by reflexivity.
  generalize dependent (shs_boot nvs q).
  induction ins as [|i ins IH]; intros g B H.
  - split; [reflexivity | exact B].
  - simpl in H. apply andb_true_iff in H. destruct H as [Hi H].
    apply negb_true_iff in Hi.
    destruct (step_before_ready i g Hi B) as [Z R].
    rewrite run_cons, run_cons_effects, zb_writes_app, Z.
    apply IH; assumption.
Qed.

Lemma no_attribute_write_before_ready_witness :
  zb_writes (snd (shs_run
                    [InSensorState 3 0;
                     InAttrWrite (cfg_write_msg SHS_ATTR_OCC_CLEAR_COOLDOWN 30) 5;
                     InTick 10] (shs_boot None true))) = [].
Proof.
  exact (proj1 (no_attribute_write_before_ready None true
                  [InSensorState 3 0;
                   InAttrWrite (cfg_write_msg SHS_ATTR_OCC_CLEAR_COOLDOWN 30) 5;
                   InTick 10] eq_refl)).
Defined.

(** ** The attribute handler at its edges *)

(** X6.  The write callback ignores what is not addressed to it: a callback
    other than set-attribute, a null message, another endpoint, a cluster
    other than On/Off and the config cluster, a config-cluster value that is
    not a 16-bit unsigned, a config attribute outside 1..6, an On/Off write
    to another attribute or of another type.  The globals stay as they are
    and nothing is sent, saved or published. *)
Theorem foreign_writes_are_ignored
  (callback_id : Z) (m : zb_set_attr_msg) (now : Z) (g : shs_globals) :
  callback_id <> ESP_ZB_CORE_SET_ATTR_VALUE_CB_ID \/
  dst_endpoint m <> SHS_EP_LIGHT \/
  (cluster m <> ESP_ZB_ZCL_CLUSTER_ID_ON_OFF /\ cluster m <> SHS_CL_CFG_ID) \/
  (cluster m = SHS_CL_CFG_ID /\ attr_type m <> ESP_ZB_ZCL_ATTR_TYPE_U16) \/
  (cluster m = SHS_CL_CFG_ID /\ ~ 1 <= attr_id m <= 6) \/
  (cluster m = ESP_ZB_ZCL_CLUSTER_ID_ON_OFF /\
   (attr_id m <> ESP_ZB_ZCL_ATTR_ON_OFF_ON_OFF_ID \/
    attr_type m <> ESP_ZB_ZCL_ATTR_TYPE_BOOL)) ->
  shs_zb_action_handler callback_id (Some m) now g = (g, []) /\
  shs_zb_action_handler callback_id None now g = (g, []).
Proof.
  intros H. unfold shs_zb_action_handler.
  destruct (callback_id =? ESP_ZB_CORE_SET_ATTR_VALUE_CB_ID) eqn:Ecb;
    [|split; reflexivity].
  split; [|reflexivity].
  apply Z.eqb_eq in Ecb.
  unfold shs_zb_attribute_handler, shs_cfg_write.
  unfold SHS_EP_LIGHT, ESP_ZB_ZCL_CLUSTER_ID_ON_OFF, SHS_CL_CFG_ID,
    ESP_ZB_ZCL_ATTR_TYPE_U16, ESP_ZB_ZCL_ATTR_ON_OFF_ON_OFF_ID,
    ESP_ZB_ZCL_ATTR_TYPE_BOOL, SHS_ATTR_MOVEMENT_COOLDOWN,
    SHS_ATTR_OCC_CLEAR_COOLDOWN, SHS_ATTR_MOVING_SENS_0_10,
    SHS_ATTR_STATIC_SENS_0_10, SHS_ATTR_MOVING_MAX_GATE,
    SHS_ATTR_STATIC_MAX_GATE in *.
  destruct (dst_endpoint m =? 1) eqn:E1;
  destruct (cluster m =? 6) eqn:E2;
  destruct (cluster m =? 64973) eqn:E3;
  destruct (attr_id m =? 0) eqn:E4;
  destruct (attr_type m =? 16) eqn:E5;
  destruct (attr_type m =? 33) eqn:E6;
  cbn [andb]; try reflexivity;
  rewrite ?Z.eqb_eq, ?Z.eqb_neq in *; try (exfalso; lia);
  (destruct (attr_id m =? 1) eqn:A1; [apply Z.eqb_eq in A1; exfalso; lia|]);
  (destruct (attr_id m =? 2) eqn:A2; [apply Z.eqb_eq in A2; exfalso; lia|]);
  (destruct (attr_id m =? 3) eqn:A3; [apply Z.eqb_eq in A3; exfalso; lia|]);
  (destruct (attr_id m =? 4) eqn:A4; [apply Z.eqb_eq in A4; exfalso; lia|]);
  (destruct (attr_id m =? 5) eqn:A5; [apply Z.eqb_eq in A5; exfalso; lia|]);
  (destruct (attr_id m =? 6) eqn:A6; [apply Z.eqb_eq in A6; exfalso; lia|]);
  reflexivity.
Qed.

Lemma foreign_writes_are_ignored_witness :
  shs_zb_action_handler ESP_ZB_CORE_SET_ATTR_VALUE_CB_ID
    (Some (cfg_write_msg 7 5)) 0 shs_globals_init = (shs_globals_init, []).
Proof.
  refine (proj1 (foreign_writes_are_ignored ESP_ZB_CORE_SET_ATTR_VALUE_CB_ID
                   (cfg_write_msg 7 5) 0 shs_globals_init _)).
  right. right. right. right. left. simpl. split; [reflexivity | lia].
Defined.

(** ** From a write to the durable store and back *)

Lemma cfg_write_debounced_send f v now g :
  is_u16 v ->
  let r := shs_cfg_write (dfield_attr f) v now g in
  queue_sends (snd r)
  = (if shs_save_q g
     then [mk_save_msg (dfield_evt f) (dfield_value f (g_cfg (fst r)))]
     else []) /\
  dfield_in_range f (dfield_value f (g_cfg (fst r))).
Proof.
  unfold is_u16. intros Hv. destruct g as [c [m s o] [a d l] r sq].
  destruct f; unfold shs_cfg_write, dfield_attr;
    simpl (_ =? _); cbv iota; cbv zeta;
    rewrite ?clamp_lo_hi by lia; rewrite ?clamp_hi_min;
    act_unfold; simpl.
  - rewrite (u8_small (Z.min v 10 * 10)) by lia.
    rewrite u16_small by lia. split; [destruct sq; reflexivity | lia].
  - rewrite (u8_small (Z.min v 10 * 10)) by lia.
    rewrite u16_small by lia. split; [destruct sq; reflexivity | lia].
  - rewrite u16_small by lia. split; [destruct sq; reflexivity | lia].
  - rewrite u16_small by lia. split; [destruct sq; reflexivity | lia].
Qed.

Lemma last_save_prev key log : forall prev,
  last_save key log prev
  = match last_save key log None with Some x => Some x | None => prev end.
Proof.
  induction log as [|sv log IH]; intros prev; [reflexivity|].
  destruct sv as [k v | k v]; simpl; destruct (String.eqb key k).
  - rewrite (IH (Some _)). destruct (last_save key log None); reflexivity.
  - apply IH.
  - rewrite (IH (Some _)). destruct (last_save key log None); reflexivity.
  - apply IH.
Qed.

(** A key whose saves all found the store open holds what was saved last
    under it, or what it held before. *)
Lemma nvs_after_lookup calls : forall h key,
  opened_under key calls = true ->
  nvs_after calls h key
  = match last_save key (map snd calls) None with
    | Some x => Some x
    | None => h key
    end.
Proof.
  induction calls as [|[o sv] calls IH]; intros h key O; [reflexivity|].
  unfold opened_under in O. cbn [forallb fst snd] in O.
  apply andb_true_iff in O. destruct O as [O1 O2].
  destruct sv as [k v | k v]; cbn [map snd nvs_after last_save save_key] in *;
    rewrite (IH _ key O2);
    rewrite (last_save_prev key (map snd calls)
               (if String.eqb key k then Some _ else None));
    (destruct (last_save key (map snd calls) None); [reflexivity|]);
    unfold shs_cfg_save_u16, shs_cfg_save_u8, nvs_put;
    destruct (String.eqb key k) eqn:E; cbn [implb] in O1.
  - subst o. cbv beta iota. rewrite E. reflexivity.
  - destruct o; cbv beta iota; rewrite ?E; reflexivity.
  - subst o. cbv beta iota. rewrite E. reflexivity.
  - destruct o; cbv beta iota; rewrite ?E; reflexivity.
Qed.

Lemma key_u16_not_dfield f k :
  k = SHS_NVS_KEY_MV_CD \/ k = SHS_NVS_KEY_OCC_CD ->
  String.eqb k (dfield_key f) = false /\ String.eqb (dfield_key f) k = false.
Proof. intros [-> | ->]; destruct f; split; reflexivity. Qed.

(** Under the key of a debounced field a well-keyed log leaves the last
    byte it saved for that field. *)
Lemma last_save_dfield f log : forall prev,
  Forall save_well_keyed log ->
  last_save (dfield_key f) log prev
  = fold_left (fun _ v => Some (NvsU8 v)) (saves_for f log) prev.
Proof.
  induction log as [|sv log IH]; intros prev F; [reflexivity|].
  inversion F as [|x l Hsv F']; subst.
  destruct sv as [k v | k v]; simpl.
  - destruct (key_u16_not_dfield f k Hsv) as [_ E]. rewrite E. apply IH, F'.
  - rewrite String.eqb_sym.
    destruct (String.eqb k (dfield_key f)); simpl; apply IH, F'.
Qed.

(** Every save of the worker is keyed and typed as the load reads it. *)
Lemma slot_flush_well_keyed hz key now sl :
  key = SHS_NVS_KEY_MV_SENS \/ key = SHS_NVS_KEY_ST_SENS \/
  key = SHS_NVS_KEY_MV_GATE \/ key = SHS_NVS_KEY_ST_GATE ->
  is_u8 (slot_val sl) ->
  Forall save_well_keyed (snd (slot_flush hz key now sl)) /\
  is_u8 (slot_val (fst (slot_flush hz key now sl))).
Proof.
  intros K V. unfold slot_flush. destruct (_ && _); simpl.
  - split; [|exact V].
    apply Forall_cons; [split; assumption | apply Forall_nil].
  - split; [apply Forall_nil | exact V].
Qed.

Lemma u8_is_u8 x : is_u8 (u8 x).
Proof. unfold is_u8, u8. apply Z.mod_pos_bound. lia. Qed.

Lemma receive_well_keyed p m w :
  save_state_bytes w ->
  Forall save_well_keyed (snd (shs_save_receive p m w)) /\
  save_state_bytes (fst (shs_save_receive p m w)).
Proof.
  unfold save_state_bytes. intros (B1 & B2 & B3 & B4).
  unfold shs_save_receive. destruct (sm_type m); simpl.
  - destruct (_ =? _).
    { split; [|tauto]. apply Forall_cons; [left; reflexivity | apply Forall_nil]. }
    destruct (_ =? _).
    { split; [|tauto]. apply Forall_cons; [right; reflexivity | apply Forall_nil]. }
    split; [constructor | tauto].
  - split; [constructor|]. pose proof (u8_is_u8 (sm_u16 m)) as U.
    unfold is_u8 in *. simpl. lia.
  - split; [constructor|]. pose proof (u8_is_u8 (sm_u16 m)) as U.
    unfold is_u8 in *. simpl. lia.
  - split; [constructor|]. pose proof (u8_is_u8 (sm_u16 m)) as U.
    unfold is_u8 in *. simpl. lia.
  - split; [constructor|]. pose proof (u8_is_u8 (sm_u16 m)) as U.
    unfold is_u8 in *. simpl. lia.
Qed.

Lemma pass_well_keyed hz p w :
  save_state_bytes w ->
  Forall save_well_keyed (snd (shs_save_worker_pass hz p w)) /\
  save_state_bytes (fst (shs_save_worker_pass hz p w)).
Proof.
  intros B. unfold shs_save_worker_pass.
  assert (R : exists w1 o0,
             match sp_msg p with
             | Some m => shs_save_receive p m w
             | None => (w, [])
             end = (w1, o0) /\ Forall save_well_keyed o0 /\ save_state_bytes w1).
  { destruct (sp_msg p) as [m|].
    - exists (fst (shs_save_receive p m w)), (snd (shs_save_receive p m w)).
      split; [apply surjective_pairing|].
      destruct (receive_well_keyed p m w B); split; assumption.
    - exists w, []. split; [reflexivity|]. split; [constructor | exact B]. }
  destruct R as (w1 & o0 & -> & F0 & (B1 & B2 & B3 & B4)).
  pose proof (slot_flush_well_keyed hz SHS_NVS_KEY_MV_SENS (u32 (sp_tick_now p))
                (sv_mv_sens w1) ltac:(tauto) B1) as [Fa Va].
  pose proof (slot_flush_well_keyed hz SHS_NVS_KEY_ST_SENS (u32 (sp_tick_now p))
                (sv_st_sens w1) ltac:(tauto) B2) as [Fb Vb].
  pose proof (slot_flush_well_keyed hz SHS_NVS_KEY_MV_GATE (u32 (sp_tick_now p))
                (sv_mv_gate w1) ltac:(tauto) B3) as [Fc Vc].
  pose proof (slot_flush_well_keyed hz SHS_NVS_KEY_ST_GATE (u32 (sp_tick_now p))
                (sv_st_gate w1) ltac:(tauto) B4) as [Fd Vd].
  destruct (slot_flush hz SHS_NVS_KEY_MV_SENS _ (sv_mv_sens w1)) as [a oa].
  destruct (slot_flush hz SHS_NVS_KEY_ST_SENS _ (sv_st_sens w1)) as [b ob].
  destruct (slot_flush hz SHS_NVS_KEY_MV_GATE _ (sv_mv_gate w1)) as [c oc].
  destruct (slot_flush hz SHS_NVS_KEY_ST_GATE _ (sv_st_gate w1)) as [d od].
  cbn [fst snd] in *. split.
  - repeat (apply Forall_app; split); assumption.
  - unfold save_state_bytes. cbn. tauto.
Qed.

Lemma run_well_keyed hz passes : forall w,
  save_state_bytes w ->
  Forall save_well_keyed (snd (shs_save_worker_run hz passes w)) /\
  save_state_bytes (fst (shs_save_worker_run hz passes w)).
Proof.
  induction passes as [|p rest IH]; intros w B.
  - split; [constructor | exact B].
  - rewrite run_cons_worker. cbn [fst snd].
    destruct (pass_well_keyed hz p w B) as [F1 B1].
    destruct (IH _ B1) as [F2 B2].
    split; [apply Forall_app; split; assumption | exact B2].
Qed.

Lemma last_save_app key l1 : forall l2 prev,
  last_save key (l1 ++ l2) prev = last_save key l2 (last_save key l1 prev).
Proof.
  induction l1 as [|sv l1 IH]; intros l2 prev; [reflexivity|].
  destruct sv; simpl; apply IH.
Qed.

Lemma last_save_flush key hz k now sl prev :
  String.eqb key k = false ->
  last_save key (snd (slot_flush hz k now sl)) prev = prev.
Proof.
  intros E. unfold slot_flush. destruct (_ && _); simpl; [rewrite E|]; reflexivity.
Qed.

(** A burst of requests for one field leaves one save, of the last value
    (as a byte). *)
Lemma burst_saves_last hz f w t0 passes v r :
  slot_pend (dfield_slot f w) = false ->
  ticks_monotone t0 passes ->
  gaps_below (pdMS_TO_TICKS hz SHS_NVS_DEBOUNCE_MS) f None passes ->
  last_request f None passes = Some (v, r) ->
  pdMS_TO_TICKS hz SHS_NVS_DEBOUNCE_MS <= final_tick t0 passes - r < 4294967296 ->
  saves_for f (snd (shs_save_worker_run hz passes w)) = [u8 v].
Proof.
  intros P Mono Gap Last Quiet.
  set (D := pdMS_TO_TICKS hz SHS_NVS_DEBOUNCE_MS) in *.
  assert (HD : 0 <= D) by (apply u32_range).
  assert (Inv0 : save_inv D t0 None (dfield_slot f w) [])
    by (split; [exact P | reflexivity]).
  pose proof (save_inv_run hz f passes w t0 None [] Mono Gap Inv0) as Inv.
  fold D in Inv. rewrite Last in Inv. cbn [app] in Inv.
  destruct Inv as (_ & [(_ & _ & _ & _ & Q) | (_ & E & _)]).
  - rewrite u32_small in Q by lia. lia.
  - exact E.
Qed.

Lemma load_dfield f h c v :
  nvs_get_u8 h (dfield_key f) = Some v -> dfield_in_range f v ->
  dfield_value f (shs_cfg_load_from_nvs (Some h) c) = v.
Proof.
  intros G R. pose proof (load_fields h c) as L. cbv zeta in L.
  destruct L as (_ & _ & L3 & L4 & L5 & L6 & _).
  destruct f; simpl in *.
  - rewrite L3, G. lia.
  - rewrite L4, G. lia.
  - rewrite L5, G. lia.
  - rewrite L6, G. lia.
Qed.

(** X7.  A slider write survives a reboot when its save gets through.  The
    attribute handler, on a write to a sensitivity or gate attribute, makes
    one send to the save queue, of a request that carries the value it
    stored, and none when there is no queue.  When such a request is the
    last the worker receives in a burst for its field and the worker then
    finds the field quiet for the debounce time, and every save made under
    the key of the field could open the store, the store the saves leave
    makes the next load restore exactly the stored value. *)
Theorem debounced_write_survives_reboot
  (hz : Z) (f : dfield) (v now : Z) (g : shs_globals)
  (w : shs_save_state) (t0 : Z) (passes : list save_pass) (r : Z)
  (calls : list (bool * nvs_save)) (h : nvs_handle) (c0 : shs_config) :
  let res := shs_zb_attribute_handler
               (Some (cfg_write_msg (dfield_attr f) v)) now g in
  let stored := dfield_value f (g_cfg (fst res)) in
  is_u16 v ->
  save_state_bytes w ->
  slot_pend (dfield_slot f w) = false ->
  ticks_monotone t0 passes ->
  gaps_below (pdMS_TO_TICKS hz SHS_NVS_DEBOUNCE_MS) f None passes ->
  last_request f None passes = Some (stored, r) ->
  pdMS_TO_TICKS hz SHS_NVS_DEBOUNCE_MS <= final_tick t0 passes - r < 4294967296 ->
  map snd calls = snd (shs_save_worker_run hz passes w) ->
  opened_under (dfield_key f) calls = true ->
  queue_sends (snd res)
  = (if shs_save_q g then [mk_save_msg (dfield_evt f) stored] else []) /\
  dfield_value f (shs_cfg_load_from_nvs (Some (nvs_after calls h)) c0)
  = stored.
Proof.
  intros res stored Hv B P Mono Gap Last Quiet Calls Opened.
  subst res stored. rewrite handler_cfg_write in *.
  destruct (cfg_write_debounced_send f v now g Hv) as [Send Range].
  split; [exact Send|].
  set (stored := dfield_value f (g_cfg (fst (shs_cfg_write (dfield_attr f) v now g)))) in *.
  pose proof (burst_saves_last hz f w t0 passes stored r P Mono Gap Last Quiet) as S.
  assert (U : u8 stored = stored).
  { apply u8_small. destruct f; simpl in Range; lia. }
  rewrite U in S.
  apply load_dfield; [|exact Range].
  unfold nvs_get_u8. rewrite nvs_after_lookup by exact Opened. rewrite Calls.
  rewrite (last_save_dfield f _ None (proj1 (run_well_keyed hz passes w B))).
  rewrite S. reflexivity.
Qed.

(** A write of 1 to the static gate is stored as 2; the worker receives the
    request at tick 10 and saves at tick 61, and the save opens the store. *)
Lemma debounced_write_survives_reboot_witness :
  dfield_value FStGate
    (shs_cfg_load_from_nvs
       (Some (nvs_after [(true, CfgSaveU8 SHS_NVS_KEY_ST_GATE 2)] nvs_empty))
       shs_config_init) = 2.
Proof.
  refine (proj2 (debounced_write_survives_reboot 100 FStGate 1 0
                   (set_save_q true shs_globals_init)
                   (shs_save_state_init shs_config_init) 0
                   [ mk_pass (Some (mk_save_msg SHS_SAVE_DEBOUNCE_GATE_STATIC 2))
                       10 10 shs_config_init;
                     mk_pass None 0 61 shs_config_init ]
                   10 [(true, CfgSaveU8 SHS_NVS_KEY_ST_GATE 2)] nvs_empty
                   shs_config_init _ _ _ _ _ _ _ _ _)).
  - unfold is_u16. lia.
  - unfold save_state_bytes, is_u8. repeat split; vm_compute; congruence.
  - reflexivity.
  - simpl. lia.
  - vm_compute. repeat split.
  - reflexivity.
  - vm_compute. split; [discriminate | reflexivity].
  - vm_compute. reflexivity.
  - vm_compute. reflexivity.
Defined.

(** Under a cooldown key a pass leaves what its receive saved. *)
Lemma pass_last_save_u16 hz p w key prev :
  key = SHS_NVS_KEY_MV_CD \/ key = SHS_NVS_KEY_OCC_CD ->
  last_save key (snd (shs_save_worker_pass hz p w)) prev
  = last_save key
      (snd (match sp_msg p with
            | Some m => shs_save_receive p m w
            | None => (w, [])
            end)) prev.
Proof.
  intros K. unfold shs_save_worker_pass.
  destruct (match sp_msg p with Some m => _ | None => _ end) as [w1 o0].
  pose proof (last_save_flush key hz SHS_NVS_KEY_MV_SENS (u32 (sp_tick_now p))
                (sv_mv_sens w1)) as Fa.
  pose proof (last_save_flush key hz SHS_NVS_KEY_ST_SENS (u32 (sp_tick_now p))
                (sv_st_sens w1)) as Fb.
  pose proof (last_save_flush key hz SHS_NVS_KEY_MV_GATE (u32 (sp_tick_now p))
                (sv_mv_gate w1)) as Fc.
  pose proof (last_save_flush key hz SHS_NVS_KEY_ST_GATE (u32 (sp_tick_now p))
                (sv_st_gate w1)) as Fd.
  destruct (slot_flush hz SHS_NVS_KEY_MV_SENS _ (sv_mv_sens w1)) as [a oa].
  destruct (slot_flush hz SHS_NVS_KEY_ST_SENS _ (sv_st_sens w1)) as [b ob].
  destruct (slot_flush hz SHS_NVS_KEY_MV_GATE _ (sv_mv_gate w1)) as [c oc].
  destruct (slot_flush hz SHS_NVS_KEY_ST_GATE _ (sv_st_gate w1)) as [d od].
  cbn [fst snd] in *. rewrite !last_save_app.
  rewrite Fd, Fc, Fb, Fa by (destruct K as [-> | ->]; reflexivity).
  reflexivity.
Qed.

(** X8.  A cooldown write survives a reboot when its save gets through.
    On a write of the movement cooldown or of the occupancy-clear time the
    handler makes one send to the save queue, of an immediate request, and
    none when there is no queue.  When the worker receives the request, the
    pass that receives it, reading the globals as the write left them, saves
    the stored value under the key of the field; when every save of the pass
    under that key could open the store, the store the pass leaves makes the
    next load restore exactly that value, whatever else the pass flushes. *)
Theorem cooldown_write_survives_reboot
  (hz v now rx tnow : Z) (g : shs_globals) (w : shs_save_state)
  (calls1 calls2 : list (bool * nvs_save)) (h : nvs_handle) (c0 : shs_config) :
  is_u16 v ->
  let res1 := shs_zb_attribute_handler
                (Some (cfg_write_msg SHS_ATTR_MOVEMENT_COOLDOWN v)) now g in
  let res2 := shs_zb_attribute_handler
                (Some (cfg_write_msg SHS_ATTR_OCC_CLEAR_COOLDOWN v)) now g in
  let m1 := mk_save_msg SHS_SAVE_IMMEDIATE_U16
              (Z.lor (Z.shiftl SHS_ATTR_MOVEMENT_COOLDOWN 8) 0) in
  let m2 := mk_save_msg SHS_SAVE_IMMEDIATE_U16
              (Z.lor (Z.shiftl SHS_ATTR_OCC_CLEAR_COOLDOWN 8) 0) in
  map snd calls1
  = snd (shs_save_worker_pass hz
           (mk_pass (Some m1) rx tnow (g_cfg (fst res1))) w) ->
  opened_under SHS_NVS_KEY_MV_CD calls1 = true ->
  map snd calls2
  = snd (shs_save_worker_pass hz
           (mk_pass (Some m2) rx tnow (g_cfg (fst res2))) w) ->
  opened_under SHS_NVS_KEY_OCC_CD calls2 = true ->
  (queue_sends (snd res1) = (if shs_save_q g then [m1] else []) /\
   shs_movement_cooldown_sec
     (shs_cfg_load_from_nvs (Some (nvs_after calls1 h)) c0)
   = shs_movement_cooldown_sec (g_cfg (fst res1))) /\
  (queue_sends (snd res2) = (if shs_save_q g then [m2] else []) /\
   shs_occupancy_clear_sec
     (shs_cfg_load_from_nvs (Some (nvs_after calls2 h)) c0)
   = shs_occupancy_clear_sec (g_cfg (fst res2))).
Proof.
  intros Hv res1 res2 m1 m2 C1 O1 C2 O2. unfold is_u16 in Hv. split.
  - pose proof (cfg_after_write_cooldown v now g) as C.
    unfold cfg_after_write in C. fold res1 in C.
    split.
    + subst res1 m1. rewrite handler_cfg_write. unfold shs_cfg_write.
      simpl (_ =? _). cbv iota. destruct g as [c [m s o] [a d l] r sq].
      act_unfold. simpl. destruct sq; simpl; crush_ifs; reflexivity.
    + pose proof (load_fields (nvs_after calls1 h) c0) as L.
      cbv zeta in L. destruct L as (L1 & _). rewrite L1. clear L1.
      unfold nvs_get_u16. rewrite nvs_after_lookup by exact O1. rewrite C1.
      rewrite pass_last_save_u16 by (left; reflexivity).
      subst m1. simpl. rewrite C. lia.
  - pose proof (cfg_after_write_occ_clear v now g) as C.
    unfold cfg_after_write in C. fold res2 in C.
    split.
    + subst res2 m2. rewrite handler_cfg_write. unfold shs_cfg_write.
      simpl (_ =? _). cbv iota. destruct g as [c [m s o] [a d l] r sq].
      act_unfold. simpl. destruct sq; simpl; crush_ifs; reflexivity.
    + pose proof (load_fields (nvs_after calls2 h) c0) as L.
      cbv zeta in L. destruct L as (_ & L2 & _). rewrite L2. clear L2.
      unfold nvs_get_u16. rewrite nvs_after_lookup by exact O2. rewrite C2.
      rewrite pass_last_save_u16 by (right; reflexivity).
      subst m2. simpl. reflexivity.
Qed.

(** A write of 400 to the movement cooldown is stored as 300; the pass that
    receives the request saves 300, and the save opens the store. *)
Lemma cooldown_write_survives_reboot_witness :
  queue_sends
    (snd (shs_zb_attribute_handler
            (Some (cfg_write_msg SHS_ATTR_MOVEMENT_COOLDOWN 400)) 0
            (set_save_q true shs_globals_init)))
  = [mk_save_msg SHS_SAVE_IMMEDIATE_U16 256] /\
  shs_movement_cooldown_sec
    (shs_cfg_load_from_nvs
       (Some (nvs_after [(true, CfgSaveU16 SHS_NVS_KEY_MV_CD 300)] nvs_empty))
       shs_config_init)
  = 300.
Proof.
  assert (H : is_u16 400) by (unfold is_u16; lia).
  refine (proj1 (cooldown_write_survives_reboot 100 400 0 5 5
                   (set_save_q true shs_globals_init)
                   (shs_save_state_init shs_config_init)
                   [(true, CfgSaveU16 SHS_NVS_KEY_MV_CD 300)]
                   [(true, CfgSaveU16 SHS_NVS_KEY_OCC_CD 400)]
                   nvs_empty shs_config_init H _ _ _ _));
    vm_compute; reflexivity.
Defined.

(** X9.  The worker saves only what the load reads: every save it ever
    makes is a 16-bit save under one of the two cooldown keys or a byte save
    of a byte value under one of the four slider keys, so that no key is ever
    left with a value of the type the load rejects. *)
Theorem worker_saves_are_well_keyed
  (hz : Z) (passes : list save_pass) (w : shs_save_state) :
  save_state_bytes w ->
  Forall save_well_keyed (snd (shs_save_worker_run hz passes w)) /\
  save_state_bytes (fst (shs_save_worker_run hz passes w)).
Proof. apply run_well_keyed. Qed.

Lemma worker_saves_are_well_keyed_witness :
  Forall save_well_keyed
    (snd (shs_save_worker_run 100 burst_example
            (shs_save_state_init shs_config_init))).
Proof.
  refine (proj1 (worker_saves_are_well_keyed 100 burst_example
                   (shs_save_state_init shs_config_init) _)).
  unfold save_state_bytes, is_u8. repeat split; vm_compute; congruence.
Defined.

(** ** The command stream to the radar *)

Lemma uart_writes_app l1 l2 :
  uart_writes (l1 ++ l2) = uart_writes l1 ++ uart_writes l2.
Proof.
  induction l1 as [|x l1 IH]; [reflexivity|].
  destruct x; simpl; rewrite ?IH; reflexivity.
Qed.

Lemma bytes_eqb_refl l : bytes_eqb l l = true.
Proof. unfold bytes_eqb. destruct (list_eq_dec Z.eq_dec l l); congruence. Qed.

Lemma lo8_range x : 0 <= lo8 x < 256.
Proof.
  unfold lo8. change 255 with (Z.ones 8). rewrite Z.land_ones by lia.
  apply Z.mod_pos_bound. lia.
Qed.

Lemma hi8_range x : 0 <= hi8 x < 256.
Proof.
  unfold hi8. change 255 with (Z.ones 8). rewrite Z.land_ones by lia.
  apply Z.mod_pos_bound. lia.
Qed.

Lemma lo8_small x : 0 <= x < 256 -> lo8 x = x.
Proof.
  intros H. unfold lo8. change 255 with (Z.ones 8).
  rewrite Z.land_ones by lia. apply Z.mod_small. exact H.
Qed.

(** The two length bytes written, read back little-endian. *)
Lemma le16_bytes n :
  0 <= n < 65536 ->
  Z.lor (u8 (lo8 n)) (Z.shiftl (u8 (hi8 n)) 8) = n.
Proof.
  intros H. rewrite (u8_small (lo8 n)) by apply lo8_range.
  rewrite (u8_small (hi8 n)) by apply hi8_range.
  pose proof (le16_roundtrip n H) as R.
  rewrite u16_small in R; [exact R|].
  pose proof (lo8_range n). pose proof (hi8_range n).
  split.
  - apply Z.lor_nonneg. split; [lia|]. apply Z.shiftl_nonneg. lia.
  - rewrite <- (u16_small n H) in R at 2. unfold u16 in R.
    assert (B : 0 <= Z.lor (lo8 n) (Z.shiftl (hi8 n) 8)).
    { apply Z.lor_nonneg. split; [lia|]. apply Z.shiftl_nonneg. lia. }
    destruct (Z.eq_dec (Z.lor (lo8 n) (Z.shiftl (hi8 n) 8)) 0) as [E|E]; [lia|].
    apply Z.log2_lt_cancel. rewrite Z.log2_lor by (try lia; apply Z.shiftl_nonneg; lia).
    change (Z.log2 65536) with 16.
    apply Z.max_lub_lt.
    + destruct (Z.eq_dec (lo8 n) 0) as [->|]; [simpl; lia|].
      apply Z.log2_lt_pow2; lia.
    + destruct (Z.eq_dec (hi8 n) 0) as [->|]; [simpl; lia|].
      rewrite Z.log2_shiftl by lia.
      assert (Z.log2 (hi8 n) < 8) by (apply Z.log2_lt_pow2; lia). lia.
Qed.

(** A written command frame reads back as its payload. *)
Lemma cmd_payload_write payload :
  (length payload <= 256)%nat ->
  ld2410_cmd_payload
    (SHS_LD2410_HDR_TX
       ++ [u8 (lo8 (u16 (Z.of_nat (length payload))));
           u8 (hi8 (u16 (Z.of_nat (length payload))))]
       ++ payload ++ SHS_LD2410_TAIL_TX)
  = Some payload.
Proof.
  intros H. unfold ld2410_cmd_payload.
  assert (L : u16 (Z.of_nat (length payload)) = Z.of_nat (length payload))
    by (apply u16_small; lia).
  rewrite L. unfold SHS_LD2410_HDR_TX.
  cbn [app nth].
  rewrite le16_bytes by lia. rewrite Nat2Z.id.
  cbn [firstn skipn Nat.add length].
  rewrite bytes_eqb_refl.
  rewrite length_app.
  replace (S (S (S (S (S (S (length payload + length SHS_LD2410_TAIL_TX)))))))
    with (S (S (S (S (S (S (S (S (S (S (length payload)))))))))))
    by (simpl; lia).
  rewrite Nat.eqb_refl.
  rewrite skipn_app, Nat.sub_diag, skipn_all. cbn [skipn app].
  rewrite bytes_eqb_refl. cbn [andb].
  rewrite firstn_app, Nat.sub_diag, firstn_all. cbn [firstn].
  rewrite app_nil_r. reflexivity.
Qed.

(** X10.  A command frame reads back as its payload.  For a payload that
    fits the frame buffer, [shs_ld2410_write_cmd] hands the UART one byte
    string, leaves the globals alone, and the string is a command frame
    (header, little-endian length, payload, tail) whose payload is the one
    given; its bytes are bytes whenever the payload's are. *)
Theorem write_cmd_frame_reads_back (payload : list Z) (g : shs_globals) :
  (length payload <= 256)%nat ->
  fst (shs_ld2410_write_cmd payload g) = g /\
  exists frame,
    snd (shs_ld2410_write_cmd payload g) = [UartWriteBytes frame] /\
    ld2410_cmd_payload frame = Some payload /\
    length frame = (10 + length payload)%nat /\
    (is_byte_list payload -> is_byte_list frame).
Proof.
  intros H. split; [reflexivity|].
  eexists. split; [reflexivity|]. split; [apply cmd_payload_write; exact H|].
  split.
  - rewrite !length_app. simpl. lia.
  - intros B. unfold is_byte_list in *.
    apply Forall_app. split.
    { unfold SHS_LD2410_HDR_TX, is_u8. repeat constructor; lia. }
    apply Forall_app. split.
    { apply Forall_cons; [apply u8_is_u8|].
      apply Forall_cons; [apply u8_is_u8|]. apply Forall_nil. }
    apply Forall_app. split; [exact B|].
    unfold SHS_LD2410_TAIL_TX, is_u8. repeat constructor; lia.
Qed.

Lemma write_cmd_frame_reads_back_witness :
  exists frame,
    snd (shs_ld2410_write_cmd begin_cfg shs_globals_init)
    = [UartWriteBytes frame] /\
    ld2410_cmd_payload frame = Some begin_cfg.
Proof.
  assert (H : (length begin_cfg <= 256)%nat) by (simpl; lia).
  destruct (proj2 (write_cmd_frame_reads_back begin_cfg shs_globals_init H))
    as (frame & E & P & _).
  exists frame. split; [exact E | exact P].
Defined.

Lemma act_seq_eq (a b : act) g :
  (a ;; b) g = (fst (b (fst (a g))), snd (a g) ++ snd (b (fst (a g)))).
Proof.
  unfold act_seq. destruct (a g) as [g1 e1]. cbn [fst snd].
  destruct (b g1) as [g2 e2]. reflexivity.
Qed.

(** The two bytes of a 16-bit value are its base-256 digits. *)
Lemma le16_digits n :
  0 <= n < 65536 ->
  is_u8 (u8 (lo8 n)) /\ is_u8 (u8 (hi8 n)) /\
  u8 (lo8 n) + 256 * u8 (hi8 n) = n.
Proof.
  intros H. split; [apply u8_is_u8|]. split; [apply u8_is_u8|].
  rewrite (u8_small (lo8 n)) by apply lo8_range.
  rewrite (u8_small (hi8 n)) by apply hi8_range.
  unfold lo8, hi8. change 255 with (Z.ones 8).
  rewrite !Z.land_ones by lia. rewrite Z.shiftr_div_pow2 by lia.
  change (2 ^ 8) with 256.
  assert (D : 0 <= n / 256 < 256).
  { split; [apply Z.div_pos; lia|]. apply Z.div_lt_upper_bound; lia. }
  rewrite (Z.mod_small (n / 256)) by exact D.
  assert (E : n = 256 * (n / 256) + n mod 256) by (apply Z.div_mod; lia).
  lia.
Qed.

Lemma write_cmd_payloads payload g :
  (length payload <= 256)%nat ->
  map ld2410_cmd_payload (uart_writes (snd (shs_ld2410_write_cmd payload g)))
  = [Some payload].
Proof.
  intros H. unfold shs_ld2410_write_cmd, emit. cbn [snd uart_writes map].
  rewrite cmd_payload_write by exact H. reflexivity.
Qed.

(** What [shs_ld2410_apply_params_all] sends, for globals in range. *)
Lemma apply_params_all_payloads g :
  0 <= shs_moving_max_gate (g_cfg g) <= 8 ->
  2 <= shs_static_max_gate (g_cfg g) <= 8 ->
  fst (shs_ld2410_apply_params_all g) = g /\
  map ld2410_cmd_payload (uart_writes (snd (shs_ld2410_apply_params_all g)))
  = map Some
      (params_payloads (shs_moving_max_gate (g_cfg g))
         (shs_static_max_gate (g_cfg g))
         (u8 (lo8 (shs_occupancy_clear_sec (g_cfg g))))
         (u8 (hi8 (shs_occupancy_clear_sec (g_cfg g))))).
Proof.
  intros Hm Hs. unfold shs_ld2410_apply_params_all, reading. cbv zeta.
  rewrite !act_seq_eq. split; [reflexivity|]. cbn [fst snd].
  rewrite !uart_writes_app, !map_app.
  rewrite !write_cmd_payloads by (simpl; lia). cbn [app].
  unfold shs_clamp_u16.
  replace (shs_moving_max_gate (g_cfg g) <? 0) with false by (symmetry; lia).
  replace (shs_moving_max_gate (g_cfg g) >? 8) with false by (symmetry; lia).
  replace (shs_static_max_gate (g_cfg g) <? 2) with false by (symmetry; lia).
  replace (shs_static_max_gate (g_cfg g) >? 8) with false by (symmetry; lia).
  rewrite (lo8_small (shs_moving_max_gate (g_cfg g))) by lia.
  rewrite (lo8_small (shs_static_max_gate (g_cfg g))) by lia.
  rewrite (u8_small (shs_moving_max_gate (g_cfg g))) by lia.
  rewrite (u8_small (shs_static_max_gate (g_cfg g))) by lia.
  reflexivity.
Qed.

(** What [shs_ld2410_apply_global_sensitivity] sends, for globals in range. *)
Lemma apply_global_sensitivity_payloads g :
  0 <= shs_moving_sens_0_100 (g_cfg g) <= 100 ->
  0 <= shs_static_sens_0_100 (g_cfg g) <= 100 ->
  fst (shs_ld2410_apply_global_sensitivity g) = g /\
  map ld2410_cmd_payload
    (uart_writes (snd (shs_ld2410_apply_global_sensitivity g)))
  = map Some
      (sens_payloads (shs_moving_sens_0_100 (g_cfg g))
         (shs_static_sens_0_100 (g_cfg g))).
Proof.
  intros Hm Hs. unfold shs_ld2410_apply_global_sensitivity, reading. cbv zeta.
  rewrite !act_seq_eq. split; [reflexivity|]. cbn [fst snd].
  rewrite !uart_writes_app, !map_app.
  rewrite !write_cmd_payloads by (simpl; lia). cbn [app].
  unfold shs_clamp_u8.
  replace (shs_moving_sens_0_100 (g_cfg g) <? 0) with false by (symmetry; lia).
  replace (shs_moving_sens_0_100 (g_cfg g) >? 100) with false by (symmetry; lia).
  replace (shs_static_sens_0_100 (g_cfg g) <? 0) with false by (symmetry; lia).
  replace (shs_static_sens_0_100 (g_cfg g) >? 100) with false by (symmetry; lia).
  reflexivity.
Qed.

Lemma apply_params_all_fst g : fst (shs_ld2410_apply_params_all g) = g.
Proof.
  unfold shs_ld2410_apply_params_all, reading. cbv zeta.
  rewrite !act_seq_eq. reflexivity.
Qed.

Lemma ou_delay_no_uart seconds g :
  fst (shs_zb_set_ou_delay_ep2 seconds g) = g /\
  uart_writes (snd (shs_zb_set_ou_delay_ep2 seconds g)) = [].
Proof.
  unfold shs_zb_set_ou_delay_ep2, reading, nop, emit.
  destruct (negb (shs_zb_ready g)); split; reflexivity.
Qed.

(** X11.  The radar is sent the stored parameters.  A write of the
    occupancy-clear time or of one of the two maximum gates, on globals in
    range, sends the radar exactly three command frames: begin-config, one
    set-parameters frame and end-config.  The set-parameters frame carries
    the two maximum gates as the write left them stored (the clamp before
    sending changes nothing) and the stored occupancy-clear time as its two
    base-256 digits, low byte first. *)
Theorem radar_gets_stored_parameters (id v now : Z) (g : shs_globals) :
  cfg_in_range (g_cfg g) -> is_u16 v ->
  id = SHS_ATTR_OCC_CLEAR_COOLDOWN \/ id = SHS_ATTR_MOVING_MAX_GATE
  \/ id = SHS_ATTR_STATIC_MAX_GATE ->
  let res := shs_zb_attribute_handler (Some (cfg_write_msg id v)) now g in
  let c := g_cfg (fst res) in
  exists lo hi,
    map ld2410_cmd_payload (uart_writes (snd res))
    = map Some (params_payloads (shs_moving_max_gate c)
                  (shs_static_max_gate c) lo hi) /\
    is_u8 lo /\ is_u8 hi /\
    lo + 256 * hi = shs_occupancy_clear_sec c.
Proof.
  intros Hc Hv Hid res c.
  pose proof (cfg_write_in_range id v now g Hv Hc) as R.
  rewrite <- handler_cfg_write in R. fold res in R. fold c in R.
  destruct R as (_ & Rc & _ & _ & Rm & Rs & _).
  exists (u8 (lo8 (shs_occupancy_clear_sec c))),
         (u8 (hi8 (shs_occupancy_clear_sec c))).
  split; [|apply le16_digits; lia].
  subst c res. rewrite handler_cfg_write in *.
  destruct Hid as [-> | [-> | ->]]; unfold shs_cfg_write in *;
    simpl (_ =? _) in *; cbv iota in *.
  - unfold shs_ld2410_apply_no_one_duration, shs_save_enqueue, reading,
      assign, emit in *.
    rewrite !act_seq_eq in *. cbn [fst snd] in *.
    set (g1 := upd_cfg (set_occupancy_clear_sec v) g) in *.
    destruct (apply_params_all_payloads g1) as (F & P);
      [subst g1; destruct Hc as (_ & _ & _ & _ & ? & ? & _); simpl; lia ..|].
    rewrite F in *.
    destruct (ou_delay_no_uart (shs_occupancy_clear_sec (g_cfg g1)) g1)
      as (F2 & U2).
    rewrite F2 in *. rewrite !uart_writes_app, U2.
    destruct (negb _); cbn [uart_writes]; rewrite !app_nil_r; exact P.
  - unfold shs_save_enqueue, reading, assign, emit in *.
    rewrite !act_seq_eq in *. cbn [fst snd] in *.
    set (g1 := upd_cfg (set_moving_max_gate (if v >? 8 then 8 else v)) g) in *.
    destruct (apply_params_all_payloads g1) as (F & P);
      [rewrite ?apply_params_all_fst in *; lia ..|].
    rewrite F in *. rewrite !uart_writes_app.
    destruct (negb _); cbn [uart_writes]; rewrite !app_nil_r; exact P.
  - unfold shs_save_enqueue, reading, assign, emit in *.
    rewrite !act_seq_eq in *. cbn [fst snd] in *.
    set (g1 := upd_cfg (set_static_max_gate
                          (if v <? 2 then 2 else if v >? 8 then 8 else v)) g) in *.
    destruct (apply_params_all_payloads g1) as (F & P);
      [rewrite ?apply_params_all_fst in *; lia ..|].
    rewrite F in *. rewrite !uart_writes_app.
    destruct (negb _); cbn [uart_writes]; rewrite !app_nil_r; exact P.
Qed.

Lemma radar_gets_stored_parameters_witness :
  exists lo hi,
    map ld2410_cmd_payload
      (uart_writes
         (snd (shs_zb_attribute_handler
                 (Some (cfg_write_msg SHS_ATTR_OCC_CLEAR_COOLDOWN 300)) 0
                 shs_globals_init)))
    = map Some (params_payloads 8 8 lo hi) /\
    is_u8 lo /\ is_u8 hi /\ lo + 256 * hi = 300.
Proof.
  assert (Hc : cfg_in_range (g_cfg shs_globals_init))
    by (unfold cfg_in_range; simpl; lia).
  assert (Hv : is_u16 300) by (unfold is_u16; lia).
  exact (radar_gets_stored_parameters SHS_ATTR_OCC_CLEAR_COOLDOWN 300 0
           shs_globals_init Hc Hv (or_introl eq_refl)).
Defined.

Lemma apply_global_sensitivity_fst g :
  fst (shs_ld2410_apply_global_sensitivity g) = g.
Proof.
  unfold shs_ld2410_apply_global_sensitivity, reading. cbv zeta.
  rewrite !act_seq_eq. reflexivity.
Qed.

(** X12.  The radar is sent the stored sensitivities.  A write of one of
    the two sensitivity sliders, on globals in range, sends the radar exactly
    three command frames: begin-config, one set-sensitivity frame for all
    gates and end-config.  The frame carries the two stored percentages, and
    the one written is ten times the stored slider value. *)
Theorem radar_gets_stored_sensitivity (id v now : Z) (g : shs_globals) :
  cfg_in_range (g_cfg g) -> is_u16 v ->
  id = SHS_ATTR_MOVING_SENS_0_10 \/ id = SHS_ATTR_STATIC_SENS_0_10 ->
  let res := shs_zb_attribute_handler (Some (cfg_write_msg id v)) now g in
  let c := g_cfg (fst res) in
  map ld2410_cmd_payload (uart_writes (snd res))
  = map Some (sens_payloads (shs_moving_sens_0_100 c)
                (shs_static_sens_0_100 c)) /\
  (id = SHS_ATTR_MOVING_SENS_0_10 ->
   shs_moving_sens_0_100 c = 10 * shs_sens_mv_0_10 c /\
   shs_sens_mv_0_10 c = Z.min v 10) /\
  (id = SHS_ATTR_STATIC_SENS_0_10 ->
   shs_static_sens_0_100 c = 10 * shs_sens_st_0_10 c /\
   shs_sens_st_0_10 c = Z.min v 10).
Proof.
  intros Hc Hv Hid res c.
  pose proof (cfg_write_in_range id v now g Hv Hc) as R.
  rewrite <- handler_cfg_write in R. fold res in R. fold c in R.
  destruct R as (_ & _ & Rm & Rs & _).
  unfold is_u16 in Hv.
  subst c res. rewrite handler_cfg_write in *.
  destruct Hid as [-> | ->]; unfold shs_cfg_write in *;
    simpl (_ =? _) in *; cbv iota in *;
    unfold shs_save_enqueue, reading, assign, emit in *;
    rewrite !act_seq_eq in *; cbn [fst snd] in *;
    rewrite ?apply_global_sensitivity_fst in *.
  - set (g1 := upd_cfg (set_moving_sens_0_100
                          (u8 ((if v >? 10 then 10 else v) * 10)))
                 (upd_cfg (set_sens_mv_0_10 (if v >? 10 then 10 else v)) g)) in *.
    destruct (apply_global_sensitivity_payloads g1) as (_ & P); [lia ..|].
    split; [|split].
    + rewrite !uart_writes_app.
      destruct (negb _); cbn [uart_writes]; rewrite !app_nil_r; exact P.
    + intros _. subst g1.
      unfold upd_cfg, set_moving_sens_0_100, set_sens_mv_0_10.
      cbn [g_cfg shs_moving_sens_0_100 shs_sens_mv_0_10].
      destruct (v >? 10) eqn:E; rewrite u8_small by lia; lia.
    + intros D. discriminate D.
  - set (g1 := upd_cfg (set_static_sens_0_100
                          (u8 ((if v >? 10 then 10 else v) * 10)))
                 (upd_cfg (set_sens_st_0_10 (if v >? 10 then 10 else v)) g)) in *.
    destruct (apply_global_sensitivity_payloads g1) as (_ & P); [lia ..|].
    split; [|split].
    + rewrite !uart_writes_app.
      destruct (negb _); cbn [uart_writes]; rewrite !app_nil_r; exact P.
    + intros D. discriminate D.
    + intros _. subst g1.
      unfold upd_cfg, set_static_sens_0_100, set_sens_st_0_10.
      cbn [g_cfg shs_static_sens_0_100 shs_sens_st_0_10].
      destruct (v >? 10) eqn:E; rewrite u8_small by lia; lia.
Qed.

Lemma radar_gets_stored_sensitivity_witness :
  map ld2410_cmd_payload
    (uart_writes
       (snd (shs_zb_attribute_handler
               (Some (cfg_write_msg SHS_ATTR_MOVING_SENS_0_10 7)) 0
               shs_globals_init)))
  = map Some (sens_payloads 70 50).
Proof.
  assert (Hc : cfg_in_range (g_cfg shs_globals_init))
    by (unfold cfg_in_range; simpl; lia).
  assert (Hv : is_u16 7) by (unfold is_u16; lia).
  exact (proj1 (radar_gets_stored_sensitivity SHS_ATTR_MOVING_SENS_0_10 7 0
                  shs_globals_init Hc Hv (or_introl eq_refl))).
Defined.

(** ** The decoder on noise and on streams of frames *)

Local Open Scope nat_scope.

(** A read into a full accumulator without a header changes nothing. *)
Lemma feed_full_noise rxbuf s :
  acc_wf s -> acc_len s = SHS_UART_ACC_BUF_SIZE -> hdr_free (pending s) ->
  exists s',
    shs_ld2410_feed rxbuf s = Some (s', []) /\
    acc_wf s' /\ acc_len s' = SHS_UART_ACC_BUF_SIZE /\ pending s' = pending s.
Proof.
  intros W L F.
  destruct (Nat.eq_dec (length rxbuf) 0) as [E|E].
  - exists s. unfold shs_ld2410_feed. rewrite E. simpl (0 <? 0).
    repeat split; try assumption. apply W. apply W.
  - rewrite feed_nonempty by lia.
    pose proof (append_pending rxbuf s W) as A. cbv zeta in A.
    destruct A as (W1 & P1 & _).
    rewrite L, Nat.sub_diag in P1. cbn [firstn] in P1. rewrite app_nil_r in P1.
    exists (shs_acc_append rxbuf s).
    assert (L1 : acc_len (shs_acc_append rxbuf s) = SHS_UART_ACC_BUF_SIZE).
    { rewrite <- (pending_length _ W1), P1, (pending_length _ W). exact L. }
    split; [|split; [exact W1 | split; [exact L1 | exact P1]]].
    apply scan_hdr_free; [exact W1|]. rewrite P1. exact F.
Qed.

(** X13.  A full accumulator without a header is stuck.  Bytes leave the
    accumulator only with a frame candidate, so once it holds its 1024 bytes
    and no header among them, every later read, whatever it brings, is
    discarded whole: the pending bytes stay as they are and no state byte is
    ever handed on again. *)
Theorem full_noise_accumulator_is_stuck (reads : list (list Z)) (s : acc_buf) :
  acc_wf s -> acc_len s = SHS_UART_ACC_BUF_SIZE -> hdr_free (pending s) ->
  exists s',
    shs_ld2410_feeds reads s = Some (s', []) /\
    acc_wf s' /\ acc_len s' = SHS_UART_ACC_BUF_SIZE /\ pending s' = pending s.
Proof.
  revert s. induction reads as [|r reads IH]; intros s W L F.
  - exists s. repeat split; try assumption; apply W.
  - destruct (feed_full_noise r s W L F) as (s1 & E1 & W1 & L1 & P1).
    assert (F1 : hdr_free (pending s1)) by (rewrite P1; exact F).
    destruct (IH s1 W1 L1 F1) as (s2 & E2 & W2 & L2 & P2).
    exists s2. cbn [shs_ld2410_feeds]. rewrite E1, E2.
    split; [reflexivity|]. split; [exact W2|]. split; [exact L2|].
    rewrite P2. exact P1.
Qed.

Lemma full_noise_accumulator_is_stuck_witness :
  exists s',
    shs_ld2410_feeds [rx_frame [2%Z; 170%Z; 1%Z]; rx_frame [2%Z; 170%Z; 3%Z]]
      {| acc := repeat 0%Z SHS_UART_ACC_BUF_SIZE; start := 0;
         acc_len := SHS_UART_ACC_BUF_SIZE |}
    = Some (s', []) /\
    pending s' = repeat 0%Z SHS_UART_ACC_BUF_SIZE.
Proof.
  assert (W : acc_wf {| acc := repeat 0%Z SHS_UART_ACC_BUF_SIZE; start := 0;
                        acc_len := SHS_UART_ACC_BUF_SIZE |})
    by (split; vm_compute; [reflexivity | lia]).
  assert (F : hdr_free (pending {| acc := repeat 0%Z SHS_UART_ACC_BUF_SIZE;
                                   start := 0;
                                   acc_len := SHS_UART_ACC_BUF_SIZE |}))
    by (apply hdr_freeb_spec; vm_compute; reflexivity).
  destruct (full_noise_accumulator_is_stuck
              [rx_frame [2%Z; 170%Z; 1%Z]; rx_frame [2%Z; 170%Z; 3%Z]]
              _ W eq_refl F) as (s' & E & _ & _ & P).
  exists s'. split; [exact E|]. rewrite P. vm_compute. reflexivity.
Defined.

Local Close Scope nat_scope.

Local Open Scope nat_scope.

(** A byte of a frame behind a gap. *)
Lemma rd_frame_behind junk payload rest k :
  k < 10 + length payload ->
  nth (length junk + k) (junk ++ rx_frame payload ++ rest) 0%Z
  = nth k (rx_frame payload) 0%Z.
Proof.
  intros H. rewrite app_nth2_plus. apply app_nth1.
  rewrite rx_frame_length. exact H.
Qed.

Lemma hdr_at_frame_behind junk payload rest :
  hdr_at (junk ++ rx_frame payload ++ rest) (length junk) = true.
Proof.
  unfold hdr_at, rd.
  rewrite <- (Nat.add_0_r (length junk)) at 1.
  rewrite !rd_frame_behind by lia. reflexivity.
Qed.

Lemma tail_at_frame_behind junk payload rest :
  tail_at (junk ++ rx_frame payload ++ rest) (length junk + (6 + length payload))
  = true.
Proof.
  pose proof (rx_frame_tail payload) as T. unfold tail_at, rd in *.
  rewrite <- !Nat.add_assoc.
  rewrite !rd_frame_behind by lia. rewrite <- !Nat.add_assoc in T. exact T.
Qed.

(** No header starts inside a gap. *)
Lemma hdr_at_gap junk payload rest j :
  gap_ok junk -> j < length junk ->
  hdr_at (junk ++ rx_frame payload ++ rest) j = false.
Proof.
  intros G Hj. unfold gap_ok, hdr_free in G.
  specialize (G j). rewrite length_app in G. simpl length in G.
  specialize (G ltac:(lia)). rewrite <- G.
  assert (N : forall i, i < length junk + 3 ->
            nth i (junk ++ rx_frame payload ++ rest) 0%Z
            = nth i (junk ++ [SHS_LD2410_HDR_RX0; SHS_LD2410_HDR_RX1;
                              SHS_LD2410_HDR_RX2]) 0%Z).
  { intros i Hi. destruct (Nat.lt_ge_cases i (length junk)) as [Lt|Ge].
    - rewrite !app_nth1 by exact Lt. reflexivity.
    - rewrite (app_nth2 junk (rx_frame payload ++ rest)) by exact Ge.
      rewrite (app_nth2 junk [SHS_LD2410_HDR_RX0; SHS_LD2410_HDR_RX1;
                              SHS_LD2410_HDR_RX2]) by exact Ge.
      remember (i - length junk) as d eqn:Hd.
      assert (Hd3 : d < 3) by lia.
      destruct d as [|[|[|d]]]; try reflexivity. lia. }
  unfold hdr_at, rd. rewrite !N by lia. reflexivity.
Qed.

(** A frame behind a gap at the front of the pending bytes is confirmed:
    gap and frame are dropped together and the frame's state byte is handed
    on; the scan goes on with what follows. *)
Lemma scan_frame_behind fuel s junk payload rest :
  acc_wf s -> pending s = junk ++ rx_frame payload ++ rest ->
  gap_ok junk -> (Z.of_nat (length payload) < 65536)%Z ->
  let d := length junk + (10 + length payload) in
  let s' := {| acc := acc s; start := start s + d; acc_len := acc_len s - d |} in
  shs_scan (S fuel) s
  = match shs_scan fuel s' with
    | Some (s'', evs) => Some (s'', nth 8 (rx_frame payload) 0%Z :: evs)
    | None => None
    end /\
  acc_wf s' /\ pending s' = rest.
Proof.
  intros W P G Hlen d s'.
  pose proof (pending_length s W) as L.
  rewrite P, !length_app, rx_frame_length in L.
  assert (H0 : find_hdr (acc_len s - 3) (acc s) (start s) 0 = length junk).
  { pose proof (find_hdr_spec (acc_len s - 3) (acc s) (start s) 0) as S.
    cbv zeta in S. destruct S as (S1 & S2 & S3).
    set (h := find_hdr (acc_len s - 3) (acc s) (start s) 0) in *.
    destruct (Nat.lt_trichotomy h (length junk)) as [Lt | [E | Gt]];
      [|exact E|].
    - specialize (S3 ltac:(lia)).
      rewrite hdr_at_pending in S3 by (assumption || lia).
      rewrite P, hdr_at_gap in S3 by assumption. discriminate S3.
    - specialize (S2 (length junk) ltac:(lia)).
      rewrite hdr_at_pending in S2 by (assumption || lia).
      rewrite P, hdr_at_frame_behind in S2. discriminate S2. }
  assert (FC : frame_confirmed s (length junk) = (true, 10 + length payload)).
  { unfold frame_confirmed.
    replace (10 <=? acc_len s - length junk) with true
      by (symmetry; apply Nat.leb_le; lia).
    replace (start s + length junk + 4) with (start s + (length junk + 4)) by lia.
    replace (start s + length junk + 5) with (start s + (length junk + 5)) by lia.
    rewrite (rd_pending s (length junk + 4)),
            (rd_pending s (length junk + 5)) by (assumption || lia).
    rewrite P. rewrite !rd_frame_behind by lia.
    destruct (rx_frame_len_bytes payload) as [B4 B5]. unfold rd in B4, B5.
    rewrite B4, B5. rewrite le16_roundtrip by lia. rewrite Nat2Z.id.
    replace (4 + 2 + length payload + 4) with (10 + length payload) by lia.
    replace (length junk + (10 + length payload) <=? acc_len s) with true
      by (symmetry; apply Nat.leb_le; lia).
    replace (start s + length junk + (10 + length payload) - 4)
      with (start s + (length junk + (6 + length payload))) by lia.
    rewrite tail_at_pending by (assumption || lia).
    rewrite P, tail_at_frame_behind. reflexivity. }
  split; [|split].
  - rewrite scan_step.
    replace (9 <=? acc_len s) with true by (symmetry; apply Nat.leb_le; lia).
    cbv zeta. rewrite H0, FC.
    replace (acc_len s <? length junk + 9) with false
      by (symmetry; apply Nat.ltb_ge; lia).
    replace (acc_len s <=? length junk) with false
      by (symmetry; apply Nat.leb_gt; lia).
    replace (start s + length junk + 8) with (start s + (length junk + 8)) by lia.
    rewrite (rd_pending s (length junk + 8)) by (assumption || lia).
    rewrite P, rd_frame_behind by lia. reflexivity.
  - apply wf_drop; [exact W | subst d; lia].
  - subst s'. rewrite pending_drop by (subst d; lia).
    rewrite P. subst d.
    rewrite app_assoc. rewrite skipn_app.
    rewrite length_app, rx_frame_length, Nat.sub_diag.
    rewrite skipn_all2 by (rewrite length_app, rx_frame_length; lia).
    reflexivity.
Qed.

Lemma rx_stream_length items : length items <= length (rx_stream items).
Proof.
  induction items as [|[junk payload] items IH]; [simpl; lia|].
  cbn [rx_stream length]. rewrite !length_app, rx_frame_length. lia.
Qed.

(** The scan of a pending stream hands on the state byte of every frame, in
    order, and empties the accumulator. *)
Lemma scan_stream items : forall s fuel,
  acc_wf s -> pending s = rx_stream items -> Forall item_ok items ->
  length items < fuel ->
  exists s',
    shs_scan fuel s = Some (s', stream_state_bytes items) /\
    acc_wf s' /\ acc_len s' = 0.
Proof.
  induction items as [|[junk payload] items IH]; intros s fuel W P F Hf.
  - destruct fuel as [|fuel]; [simpl in Hf; lia|].
    pose proof (pending_length s W) as L. rewrite P in L. simpl in L.
    exists s. rewrite scan_step. rewrite <- L. simpl (9 <=? 0).
    split; [reflexivity|]. split; [exact W | reflexivity].
  - destruct fuel as [|fuel]; [simpl in Hf; lia|].
    inversion F as [|it its [G Hlen] F' E]; subst.
    cbn [fst snd] in G, Hlen. cbn [rx_stream] in P.
    destruct (scan_frame_behind fuel s junk payload (rx_stream items) W P G Hlen)
      as (E & W' & P').
    cbv zeta in E, W', P'.
    destruct (IH _ fuel W' P' F' ltac:(simpl in Hf; lia)) as (s'' & E'' & W'' & L'').
    exists s''. rewrite E, E''. split; [reflexivity|]. split; assumption.
Qed.

(** X14.  A stream of frames is decoded in order.  One read that brings
    any number of correctly framed packets, each behind any bytes that cannot
    be taken for a header, into the empty accumulator hands on exactly the
    state byte of each packet, in the order of arrival, and leaves the
    accumulator empty: the bytes between frames are skipped, never reported. *)
Theorem frames_decode_in_order (s0 : acc_buf) (items : list (list Z * list Z)) :
  acc_wf s0 -> acc_len s0 = 0 -> Forall item_ok items ->
  length (rx_stream items) <= SHS_UART_BUF_SIZE ->
  exists s1,
    shs_ld2410_feed (rx_stream items) s0
    = Some (s1, stream_state_bytes items) /\
    acc_wf s1 /\ acc_len s1 = 0.
Proof.
  intros W E F Hfit. unfold SHS_UART_BUF_SIZE in Hfit.
  destruct (Nat.eq_dec (length (rx_stream items)) 0) as [Z0|NZ].
  - pose proof (rx_stream_length items) as IL.
    rewrite Z0 in IL.
    assert (items = []) by (destruct items; [reflexivity | cbn [length] in IL; lia]).
    subst items. exists s0. split; [reflexivity|]. split; assumption.
  - pose proof (append_pending (rx_stream items) s0 W) as A. cbv zeta in A.
    destruct A as (W1 & P1 & _).
    rewrite (pending_empty s0 E), E in P1. cbn [app] in P1.
    rewrite firstn_all2 in P1 by (unfold SHS_UART_ACC_BUF_SIZE; lia).
    pose proof (pending_length _ W1) as L1. rewrite P1 in L1.
    rewrite feed_nonempty by lia.
    apply scan_stream; try assumption.
    pose proof (rx_stream_length items). lia.
Qed.

Lemma frames_decode_in_order_witness :
  exists s1,
    shs_ld2410_feed
      (rx_stream [([7%Z; 244%Z], [2%Z; 170%Z; 1%Z]); ([], [2%Z; 170%Z; 0%Z]);
                  ([243%Z], [2%Z; 170%Z; 3%Z])]) acc_init
    = Some (s1, [1%Z; 0%Z; 3%Z]) /\ acc_len s1 = 0.
Proof.
  assert (W : acc_wf acc_init) by (split; vm_compute; [reflexivity | lia]).
  assert (F : Forall item_ok
                [([7%Z; 244%Z], [2%Z; 170%Z; 1%Z]); ([], [2%Z; 170%Z; 0%Z]);
                 ([243%Z], [2%Z; 170%Z; 3%Z])]).
  { repeat (apply Forall_cons;
            [split; [apply hdr_freeb_spec; vm_compute; reflexivity
                    | simpl; lia]|]).
    apply Forall_nil. }
  assert (L : length (rx_stream
                        [([7%Z; 244%Z], [2%Z; 170%Z; 1%Z]);
                         ([], [2%Z; 170%Z; 0%Z]);
                         ([243%Z], [2%Z; 170%Z; 3%Z])]) <= SHS_UART_BUF_SIZE)
    by (vm_compute; lia).
  destruct (frames_decode_in_order acc_init _ W eq_refl F L) as (s1 & E & _ & Z1).
  exists s1. split; [exact E | exact Z1].
Defined.

Local Close Scope nat_scope.

(** ** The BOOT button *)

Lemma required_ticks_value : required_ticks = 240.
Proof. reflexivity. Qed.

(** The task from any state it can be in between two rounds. *)
Lemma button_run_from levels : forall h,
  0 <= h < 240 ->
  let res := shs_boot_button_run levels {| held := h; armed := 4 <? h |} in
  match snd res with
  | None =>
    held (fst res) = pressed_streak_from h levels /\
    armed (fst res) = (4 <? held (fst res)) /\
    forall j, pressed_streak_from h (firstn j levels) < 240
  | Some k =>
    (k < length levels)%nat /\
    pressed_streak_from h (firstn (S k) levels) = 240 /\
    forall j, (j <= k)%nat -> pressed_streak_from h (firstn j levels) < 240
  end.
Proof.
  induction levels as [|level rest IH]; intros h Hh res.
  - subst res. cbn [shs_boot_button_run fst snd held armed].
    split; [reflexivity|]. split; [reflexivity|].
    intros j. rewrite firstn_nil. unfold pressed_streak_from. simpl. lia.
  - subst res. cbn [shs_boot_button_run]. unfold shs_boot_button_poll.
    rewrite required_ticks_value. cbn [held armed].
    destruct (level =? 0) eqn:El.
    + replace (h <? 240) with true by (symmetry; lia).
      rewrite u32_small by lia.
      assert (Ea : (if negb (4 <? h) && (h + 1 >? 4) then true else 4 <? h)
                   = (4 <? h + 1)).
      { destruct (4 <? h) eqn:E4; destruct (h + 1 >? 4) eqn:E5;
          cbn [negb andb]; lia. }
      rewrite Ea.
      destruct (h + 1 >=? 240) eqn:Er.
      * cbn [fst snd]. split; [simpl; lia|].
        split.
        { cbn [firstn]. unfold pressed_streak_from. cbn [fold_left].
          rewrite El. lia. }
        intros j Hj. assert (j = O) by lia. subst j.
        unfold pressed_streak_from. simpl. lia.
      * specialize (IH (h + 1) ltac:(lia)). cbv zeta in IH.
        destruct (shs_boot_button_run rest
                    {| held := h + 1; armed := 4 <? h + 1 |}) as [b2 r].
        cbn [fst snd] in *.
        assert (St : forall l, pressed_streak_from h (level :: l)
                               = pressed_streak_from (h + 1) l).
        { intros l. unfold pressed_streak_from. cbn [fold_left].
          rewrite El. reflexivity. }
        destruct r as [k|]; cbn [option_map].
        -- destruct IH as (I1 & I2 & I3).
           split; [simpl; lia|]. split.
           ++ change (firstn (S (S k)) (level :: rest))
                with (level :: firstn (S k) rest).
              rewrite St. exact I2.
           ++ intros [|j] Hj; [unfold pressed_streak_from; simpl; lia|].
              cbn [firstn]. rewrite St. apply I3. lia.
        -- destruct IH as (I1 & I2 & I3).
           split; [rewrite St; exact I1|]. split; [exact I2|].
           intros [|j]; [unfold pressed_streak_from; simpl; lia|].
           cbn [firstn]. rewrite St. apply I3.
    + specialize (IH 0 ltac:(lia)). cbv zeta in IH.
      change (4 <? 0) with false in IH.
      destruct (shs_boot_button_run rest {| held := 0; armed := false |})
        as [b2 r].
      cbn [fst snd] in *.
      assert (St : forall l, pressed_streak_from h (level :: l)
                             = pressed_streak_from 0 l).
      { intros l. unfold pressed_streak_from. cbn [fold_left].
        rewrite El. reflexivity. }
      destruct r as [k|]; cbn [option_map].
      * destruct IH as (I1 & I2 & I3).
        split; [simpl; lia|]. split.
        -- change (firstn (S (S k)) (level :: rest))
             with (level :: firstn (S k) rest).
           rewrite St. exact I2.
        -- intros [|j] Hj; [unfold pressed_streak_from; simpl; lia|].
           cbn [firstn]. rewrite St. apply I3. lia.
      * destruct IH as (I1 & I2 & I3).
        split; [rewrite St; exact I1|]. split; [exact I2|].
        intros [|j]; [unfold pressed_streak_from; simpl; lia|].
        cbn [firstn]. rewrite St. apply I3.
Qed.

(** X15.  The factory reset takes 240 pressed polls in a row.  The BOOT
    button task restarts the device in the round that sees the button
    pressed for the 240th time running (six seconds of 25 ms polls) and in no
    earlier round; until then its counter is the length of the current press
    and the press counts as detected from the fifth poll on.  A release
    starts the count again from nothing. *)
Theorem long_press_restarts_at_240 (levels : list Z) :
  let res := shs_boot_button_run levels shs_button_init in
  match snd res with
  | None =>
    held (fst res) = pressed_streak levels /\
    armed (fst res) = (4 <? held (fst res)) /\
    forall j, pressed_streak (firstn j levels) < 240
  | Some k =>
    (k < length levels)%nat /\
    pressed_streak (firstn (S k) levels) = 240 /\
    forall j, (j <= k)%nat -> pressed_streak (firstn j levels) < 240
  end.
Proof.
  apply (button_run_from levels 0). lia.
Qed.

(** ** A pass of the radar task *)

Lemma presence_step_effects i g :
  match i with InSensorState _ _ | InTick _ => True | _ => False end ->
  zb_writes (snd (shs_step i g)) = snd (shs_step i g) /\
  g_cfg (fst (shs_step i g)) = g_cfg g /\
  shs_zb_ready (fst (shs_step i g)) = shs_zb_ready g /\
  (shs_zb_ready g = false -> snd (shs_step i g) = []).
Proof.
  destruct i as [b now | now | m now |]; intros K; try contradiction;
    unfold shs_step.
  - destruct (process_keeps_cfg b now g) as [C R].
    rewrite (proj1 (presence_effects b now g)).
    split; [|split; [exact C | split; [exact R|]]].
    + destruct (shs_zb_ready g); [|reflexivity].
      unfold publish_if_changed.
      repeat match goal with
             | |- context [Bool.eqb ?x ?y] => destruct (Bool.eqb x y)
             end; reflexivity.
    + intros ->. reflexivity.
  - destruct (tick_keeps_cfg now g) as [C R].
    rewrite (proj2 (presence_effects 0 now g)).
    split; [|split; [exact C | split; [exact R|]]].
    + destruct (shs_zb_ready g); [|reflexivity].
      unfold publish_if_changed.
      repeat match goal with
             | |- context [Bool.eqb ?x ?y] => destruct (Bool.eqb x y)
             end; reflexivity.
    + intros ->. reflexivity.
Qed.

Lemma pass_inputs_run evs : forall clock k g,
  let r := shs_run (shs_ld2410_pass_inputs evs clock k) g in
  zb_writes (snd r) = snd r /\
  g_cfg (fst r) = g_cfg g /\
  shs_zb_ready (fst r) = shs_zb_ready g /\
  (shs_zb_ready g = false -> snd r = []).
Proof.
  induction evs as [|b evs IH]; intros clock k g r; subst r;
    cbn [shs_ld2410_pass_inputs]; rewrite run_cons, run_cons_effects.
  - destruct (presence_step_effects (InTick (clock k)) g I) as (A & B & C & D).
    cbn [shs_run]. unfold nop. cbn [fst snd]. rewrite app_nil_r.
    split; [exact A|]. split; [exact B|]. split; [exact C | exact D].
  - destruct (presence_step_effects (InSensorState b (clock k)) g I)
      as (A & B & C & D).
    specialize (IH clock (S k) (fst (shs_step (InSensorState b (clock k)) g))).
    cbv zeta in IH. destruct IH as (A' & B' & C' & D').
    split; [rewrite zb_writes_app, A, A'; reflexivity|].
    split; [rewrite B'; exact B|]. split; [rewrite C'; exact C|].
    intros R. rewrite (D R), D' by (rewrite C; exact R). reflexivity.
Qed.

(** X16.  A pass of the radar task only publishes.  Whatever bytes the
    read brings, the pass ends; it leaves the accumulator well formed and the
    configuration and the ready flag as they were, and all it does to the
    outside is write presence attributes to the stack (nothing at all before
    the stack is ready): it never sends the radar a command and never asks
    the worker for a save.  The two relations between the published states
    and the cooldown timer hold after the pass if they held before. *)
Theorem radar_task_pass_only_publishes
  (rxbuf : list Z) (clock : nat -> Z) (s : acc_buf) (g : shs_globals) :
  acc_wf s ->
  exists s' g' out,
    shs_ld2410_task_pass rxbuf clock s g = Some (s', (g', out)) /\
    acc_wf s' /\
    g_cfg g' = g_cfg g /\ shs_zb_ready g' = shs_zb_ready g /\
    zb_writes out = out /\
    (shs_zb_ready g = false -> out = []) /\
    (occupancy_is_raw g -> occupancy_is_raw g') /\
    (timer_matches g -> timer_matches g').
Proof.
  intros W. unfold shs_ld2410_task_pass.
  assert (F : exists s' evs, shs_ld2410_feed rxbuf s = Some (s', evs) /\ acc_wf s').
  { unfold shs_ld2410_feed. destruct (0 <? length rxbuf)%nat.
    - destruct (scan_total (S (acc_len (shs_acc_append rxbuf s)))
                  (shs_acc_append rxbuf s) ltac:(lia)) as [[s' evs] R].
      exists s', evs. split; [exact R|].
      pose proof (append_pending rxbuf s W) as A. cbv zeta in A.
      exact (proj1 (scan_props _ _ _ _ (proj1 A) R)).
    - exists s, []. split; [reflexivity | exact W]. }
  destruct F as (s' & evs & E & W'). rewrite E.
  pose proof (pass_inputs_run evs clock O g) as P. cbv zeta in P.
  destruct (shs_run (shs_ld2410_pass_inputs evs clock 0) g) as [g' out] eqn:R.
  cbn [fst snd] in P. destruct P as (A & B & C & D).
  exists s', g', out. split; [reflexivity|]. split; [exact W'|].
  split; [exact B|]. split; [exact C|]. split; [exact A|]. split; [exact D|].
  split.
  - intros H. change g' with (fst (g', out)). rewrite <- R.
    apply run_keeps_occupancy_is_raw. exact H.
  - intros H. change g' with (fst (g', out)). rewrite <- R.
    clear R A B C D. revert g H.
    generalize (shs_ld2410_pass_inputs evs clock 0) as ins.
    induction ins as [|i ins IH]; intros g0 H; [exact H|].
    rewrite run_cons. apply IH. apply step_keeps_timer_matches. exact H.
Qed.

Lemma radar_task_pass_only_publishes_witness :
  exists s' g' out,
    shs_ld2410_task_pass (rx_frame [2%Z; 170%Z; 1%Z]) (fun _ => 0) acc_init
      shs_globals_init = Some (s', (g', out)) /\
    acc_wf s' /\ g_cfg g' = g_cfg shs_globals_init.
Proof.
  assert (W : acc_wf acc_init) by (split; vm_compute; [reflexivity | lia]).
  destruct (radar_task_pass_only_publishes (rx_frame [2%Z; 170%Z; 1%Z])
              (fun _ => 0) acc_init shs_globals_init W)
    as (s' & g' & out & E & W' & C & _).
  exists s', g', out. split; [exact E|]. split; [exact W' | exact C].
Defined.

(** ** The ready flag *)

Lemma step_ready i g :
  shs_zb_ready (fst (shs_step i g)) = shs_zb_ready g || is_zb_ready_input i.
Proof.
  destruct i as [b now | now | m now |]; unfold shs_step, is_zb_ready_input.
  - rewrite (proj2 (process_keeps_cfg b now g)), orb_false_r. reflexivity.
  - rewrite (proj2 (tick_keeps_cfg now g)), orb_false_r. reflexivity.
  - rewrite orb_false_r. unfold shs_zb_attribute_handler.
    destruct (_ && _); [reflexivity|].
    destruct (_ && _); [|reflexivity].
    apply cfg_write_keeps_ready.
  - rewrite orb_true_r. destruct g as [c [m s o] [a d l] r sq].
    unfold shs_zb_device_started. act_unfold. simpl. reflexivity.
Qed.

Lemma run_ready ins : forall g,
  shs_zb_ready (fst (shs_run ins g))
  = shs_zb_ready g || existsb is_zb_ready_input ins.
Proof.
  induction ins as [|i ins IH]; intros g.
  - simpl. rewrite orb_false_r. reflexivity.
  - rewrite run_cons, IH, step_ready. cbn [existsb].
    rewrite orb_assoc. reflexivity.
Qed.

(** X17.  The ready flag says that the stack has started.  After a run
    from boot the flag is set exactly when the run contained a start of the
    stack: nothing else sets it and nothing ever clears it. *)
Theorem ready_iff_stack_started (nvs : option nvs_handle) (q : bool) (ins : list shs_input) :
  shs_zb_ready (shs_after nvs q ins) = existsb is_zb_ready_input ins.
Proof.
  unfold shs_after. rewrite run_ready.
  replace (shs_zb_ready (shs_boot nvs q)) with false; [reflexivity|].
  unfold shs_boot, app_main. rewrite !act_seq_eq. cbn [fst].
  rewrite apply_params_all_fst, apply_global_sensitivity_fst. reflexivity.
Qed.

(** ** Boot *)

(** X18.  At boot the radar is sent the loaded settings.  With a
    well-typed store (or none) [app_main] sends the radar six command frames:
    begin-config, the two loaded sensitivities, end-config, then
    begin-config, the two loaded maximum gates with the loaded
    occupancy-clear time as two base-256 digits, end-config.  The values are
    those of the configuration the boot leaves in the globals, and nothing
    else is done to the outside. *)
Theorem boot_sends_loaded_settings (nvs : option nvs_handle) (q : bool) :
  match nvs with Some h => nvs_well_typed h | None => True end ->
  let c := g_cfg (shs_boot nvs q) in
  exists lo hi,
    map ld2410_cmd_payload (uart_writes (snd (app_main nvs q shs_globals_init)))
    = map Some
        (sens_payloads (shs_moving_sens_0_100 c) (shs_static_sens_0_100 c)
           ++ params_payloads (shs_moving_max_gate c) (shs_static_max_gate c)
                lo hi) /\
    is_u8 lo /\ is_u8 hi /\ lo + 256 * hi = shs_occupancy_clear_sec c /\
    zb_writes (snd (app_main nvs q shs_globals_init)) = [] /\
    queue_sends (snd (app_main nvs q shs_globals_init)) = [].
Proof.
  intros T c.
  pose proof (load_in_range nvs shs_config_init T init_cfg_in_range) as R.
  rewrite <- (boot_cfg nvs q) in R. fold c in R.
  destruct R as (_ & Rc & Rm & Rs & Rmg & Rsg & _).
  exists (u8 (lo8 (shs_occupancy_clear_sec c))),
         (u8 (hi8 (shs_occupancy_clear_sec c))).
  assert (C : c = g_cfg (upd_cfg (shs_cfg_load_from_nvs nvs) shs_globals_init))
    by reflexivity.
  set (g1 := upd_cfg (shs_cfg_load_from_nvs nvs) shs_globals_init) in *.
  assert (E : snd (app_main nvs q shs_globals_init)
              = snd (shs_ld2410_apply_global_sensitivity g1)
                  ++ snd (shs_ld2410_apply_params_all g1)).
  { unfold app_main. rewrite !act_seq_eq. cbn [fst snd].
    unfold assign. cbn [fst snd app]. fold g1.
    rewrite apply_global_sensitivity_fst, app_nil_r. reflexivity. }
  rewrite E.
  destruct (apply_global_sensitivity_payloads g1) as (_ & P1);
    [rewrite <- C; lia ..|].
  destruct (apply_params_all_payloads g1) as (_ & P2);
    [rewrite <- C; lia ..|].
  rewrite <- C in P1, P2.
  split; [rewrite uart_writes_app, !map_app, P1, P2; reflexivity|].
  split; [apply le16_digits; lia|]. split; [apply le16_digits; lia|].
  split; [apply le16_digits; lia|].
  split; reflexivity.
Qed.

Lemma boot_sends_loaded_settings_witness :
  exists lo hi,
    map ld2410_cmd_payload
      (uart_writes (snd (app_main (Some nvs_example) true shs_globals_init)))
    = map Some
        (sens_payloads
           (shs_moving_sens_0_100 (g_cfg (shs_boot (Some nvs_example) true)))
           (shs_static_sens_0_100 (g_cfg (shs_boot (Some nvs_example) true)))
           ++ params_payloads
                (shs_moving_max_gate (g_cfg (shs_boot (Some nvs_example) true)))
                (shs_static_max_gate (g_cfg (shs_boot (Some nvs_example) true)))
                lo hi) /\
    lo + 256 * hi
    = shs_occupancy_clear_sec (g_cfg (shs_boot (Some nvs_example) true)).
Proof.
  destruct (boot_sends_loaded_settings (Some nvs_example) true nvs_example_well_typed)
    as (lo & hi & E & _ & _ & D & _).
  exists lo, hi. split; [exact E | exact D].
Defined.

(** ** Loading *)

Lemma cfg_ext (c c' : shs_config) :
  shs_movement_cooldown_sec c = shs_movement_cooldown_sec c' ->
  shs_occupancy_clear_sec c = shs_occupancy_clear_sec c' ->
  shs_moving_sens_0_100 c = shs_moving_sens_0_100 c' ->
  shs_static_sens_0_100 c = shs_static_sens_0_100 c' ->
  shs_moving_max_gate c = shs_moving_max_gate c' ->
  shs_static_max_gate c = shs_static_max_gate c' ->
  shs_sens_mv_0_10 c = shs_sens_mv_0_10 c' ->
  shs_sens_st_0_10 c = shs_sens_st_0_10 c' ->
  c = c'.
Proof.
  destruct c, c'. cbn. intros. subst. reflexivity.
Qed.

(** X19.  A stored configuration is loaded back whole.  For a
    configuration in range whose slider proxies agree with the percentages
    (as every configuration of a run is), a store in which its six settings
    have been saved makes the load return exactly that configuration,
    whatever the store held before and whatever the globals held: the clamps
    of the load change nothing and the proxies are recomputed to the same
    values. *)
Theorem stored_configuration_loads_back (c c0 : shs_config) (h : nvs_handle) :
  cfg_in_range c -> proxies_agree c ->
  shs_cfg_load_from_nvs (Some (nvs_after (cfg_saves c) h)) c0 = c.
Proof.
  intros R A. unfold cfg_in_range in R. unfold proxies_agree in A.
  destruct R as (R1 & R2 & R3 & R4 & R5 & R6 & R7 & R8). destruct A as [A1 A2].
  pose proof (load_fields (nvs_after (cfg_saves c) h) c0) as L. cbv zeta in L.
  unfold nvs_get_u16, nvs_get_u8 in L.
  rewrite !nvs_after_lookup in L by reflexivity.
  unfold cfg_saves in *. cbn [last_save map snd] in L.
  repeat match type of L with
         | context [String.eqb ?a ?b] =>
           let r := eval vm_compute in (String.eqb a b) in
           change (String.eqb a b) with r in L
         end.
  cbv iota in L.
  destruct L as (L1 & L2 & L3 & L4 & L5 & L6 & L7 & L8).
  apply cfg_ext.
  - rewrite L1. lia.
  - rewrite L2. reflexivity.
  - rewrite L3. lia.
  - rewrite L4. lia.
  - rewrite L5. lia.
  - rewrite L6. lia.
  - rewrite L7, L3. rewrite (Z.min_l (shs_moving_sens_0_100 c) 100) by lia.
    rewrite u16_small by lia. rewrite Z.min_l by lia. symmetry. exact A1.
  - rewrite L8, L4. rewrite (Z.min_l (shs_static_sens_0_100 c) 100) by lia.
    rewrite u16_small by lia. rewrite Z.min_l by lia. symmetry. exact A2.
Qed.

Lemma stored_configuration_loads_back_witness :
  shs_cfg_load_from_nvs
    (Some (nvs_after (cfg_saves shs_config_init) nvs_example))
    (set_moving_max_gate 3 shs_config_init)
  = shs_config_init.
Proof.
  apply stored_configuration_loads_back.
  - unfold cfg_in_range. simpl. lia.
  - unfold proxies_agree. simpl. split; reflexivity.
Defined.
